(** * FleetLink backend: availability and conflict-resolution engine

    A shallow embedding of the booking core of the FleetLink backend
    (Express controllers over Mongoose models) and the proofs of its
    specification.

    Conventions of the embedding:
    - a JavaScript string is the sequence of its UTF-16 code units; the
      strings of the model are those whose code units are all below 256,
      one character for each code unit, so that [String.length] is the
      [length] of the code;
    - a JavaScript [Date] is its epoch value in milliseconds, a [Z];
    - a JavaScript number that the code only ever uses as an integer
      (parsed pincodes, durations, time stamps) is a [Z]: doubles are
      exact on integers below 2^53, which holds the millisecond time
      stamps and every code of up to 15 characters
      ([parseInt_exact_range]), the six-digit pincodes among them;
    - the duration estimator is modelled twice: on these integers
      ([helpers.calculateRideDuration], which the controllers use), and
      in double precision on every string
      ([Double.calculateRideDuration], with rounding above 2^53, the
      infinities and [NaN]); the two agree on codes of up to 15
      characters ([calculateRideDuration_exact]);
    - a JavaScript number that may carry a fraction (capacities, tyre
      counts, costs) is a rational, a [Q], and its arithmetic is exact:
      a cost may differ from the cost of the code, computed in doubles,
      in its last hundredth, and the proofs use of a cost only that it
      is a number and that it is not negative;
    - [NaN] is [None];
    - a Mongoose collection is the list of its documents in insertion
      order together with the next fresh [ObjectId];
    - database calls run in a state monad over the collection, controllers
      in a state monad over the whole store. *)

From Stdlib Require Import ZArith QArith Qround String Ascii List Sorted Bool Lia.
From stdpp Require Import base gmap strings list pretty.
Import ListNotations.

Local Open Scope string_scope.
Local Open Scope list_scope.
Local Open Scope Z_scope.

(** ** JavaScript built-ins used by the code *)

Module JS.

(** ECMAScript's [WhiteSpace] and [LineTerminator] among the code units
    below 256: TAB, LF, VT, FF, CR, SPACE and NO-BREAK SPACE (U+00A0).
    [trim] and [parseInt] skip exactly these. *)
Definition isWhiteSpace (c : ascii) : bool :=
  let n := Z.of_nat (nat_of_ascii c) in
  ((9 <=? n) && (n <=? 13)) || (n =? 32) || (n =? 160).

(** [String.prototype.trimStart]. *)
Fixpoint trimStart (s : string) : string :=
  match s with
  | String c s' => if isWhiteSpace c then trimStart s' else s
  | EmptyString => EmptyString
  end.

(** [s] without its trailing white space. *)
Fixpoint trimEnd (s : string) : string :=
  match s with
  | String c s' =>
      match trimEnd s' with
      | EmptyString => if isWhiteSpace c then EmptyString else String c EmptyString
      | r => String c r
      end
  | EmptyString => EmptyString
  end.

(** [String.prototype.trim]. *)
Definition trim (s : string) : string := trimEnd (trimStart s).

(** The value of [c] as a digit of a radix up to 36. *)
Definition digitValue (c : ascii) : option Z :=
  let n := Z.of_nat (nat_of_ascii c) in
  if (48 <=? n) && (n <=? 57) then Some (n - 48)
  else if (97 <=? n) && (n <=? 122) then Some (n - 87)
  else if (65 <=? n) && (n <=? 90) then Some (n - 55)
  else None.

Definition radixDigit (R : Z) (c : ascii) : option Z :=
  match digitValue c with
  | Some d => if d <? R then Some d else None
  | None => None
  end.

(** The value of the longest prefix of [s] made of radix-[R] digits;
    [acc] is the value read so far, [None] while no digit was read. *)
Fixpoint parseDigits (R : Z) (s : string) (acc : option Z) : option Z :=
  match s with
  | String c s' =>
      match radixDigit R c with
      | Some d =>
          parseDigits R s' (Some (match acc with Some a => a * R + d | None => d end))
      | None => acc
      end
  | EmptyString => acc
  end.

(** [parseInt(input)] with no radix argument: leading white space is
    skipped, a sign is read, a [0x] or [0X] prefix selects radix 16, and
    the longest digit prefix that follows is the value; the rest of the string
    is ignored.  [None] is [NaN] (no digit could be read).  The result
    is the integer that the digits denote; the Number that the code
    gets is this integer rounded to a double ([Double.parseInt]), which
    is the integer itself below 2^53. *)
Definition parseInt (input : string) : option Z :=
  let str := trimStart input in
  let '(sign, str) :=
    match str with
    | String "-" r => (-1, r)
    | String "+" r => (1, r)
    | _ => (1, str)
    end in
  let '(R, str) :=
    match str with
    | String "0" (String "x" r) => (16, r)
    | String "0" (String "X" r) => (16, r)
    | _ => (10, str)
    end in
  match parseDigits R str None with
  | Some n => Some (sign * n)
  | None => None
  end.

(** [parseInt(x)] of a number [x]: the number is first printed, and for
    [1e-6 <= |x| < 1e21] it is printed in positional notation, so that
    the digits before the point are read: [x] truncated towards zero. *)
Definition parseIntNumber (x : Q) : Z :=
  if Qle_bool 0 x then Qfloor x else Qceiling x.

(** [Math.max(a, b)] on rationals. *)
Definition mathMax (a b : Q) : Q := if Qle_bool a b then b else a.

(** [Math.round(x)]: the nearest integer, halves rounded up. *)
Definition mathRound (x : Q) : Z := Qfloor (x + (1 # 2)).

(** [/^\d{6}$/.test(s)]. *)
Definition isDigit (c : ascii) : bool :=
  let n := Z.of_nat (nat_of_ascii c) in (48 <=? n) && (n <=? 57).

Fixpoint allDigits (s : string) : bool :=
  match s with
  | String c s' => isDigit c && allDigits s'
  | EmptyString => true
  end.

Definition sixDigits (s : string) : bool :=
  (Z.of_nat (String.length s) =? 6) && allDigits s.

End JS.

(** ** src/utils/helpers.js *)

Module helpers.

(** The body of the [try] block of [calculateRideDuration]: [inl] is the
    thrown ['Invalid pincode format'] error. *)
Definition calculateRideDuration_try (fromPincode toPincode : string) : string + Z :=
  let from := JS.parseInt fromPincode in
  let to := JS.parseInt toPincode in
  match from, to with
  | Some from, Some to =>
      let duration := Z.rem (Z.abs (from - to)) 24 in
      inr (Z.max duration 1)
  | _, _ => inl "Invalid pincode format"
  end.

(** [calculateRideDuration], on the integers that the codes denote: the
    [catch] block returns the default of two hours.  This is the
    function of the code for codes of up to 15 characters
    ([calculateRideDuration_exact]); [Double.calculateRideDuration] is
    the function on every string. *)
Definition calculateRideDuration (fromPincode toPincode : string) : Z :=
  match calculateRideDuration_try fromPincode toPincode with
  | inr hours => hours
  | inl _ => 2
  end.

(** [calculateBookingCost]; [None] is [NaN], the result when a pincode
    does not parse.  The arithmetic is exact on rationals, where the
    code rounds to doubles at each step: the result may differ from the
    one of the code in its last hundredth. *)
Definition calculateBookingCost
    (durationHours : Z) (capacityKg : Q) (fromPincode toPincode : string) : option Q :=
  let baseRatePerHour := 500%Q in
  let capacityMultiplier := JS.mathMax 1 (capacityKg / 1000) in
  match JS.parseInt toPincode, JS.parseInt fromPincode with
  | Some t, Some f =>
      let distance := Z.abs (t - f) in
      let distanceMultiplier := JS.mathMax 1 (inject_Z distance / 100) in
      let totalCost :=
        (baseRatePerHour * inject_Z durationHours * capacityMultiplier * distanceMultiplier)%Q in
      Some (inject_Z (JS.mathRound (totalCost * 100)) / 100)%Q
  | _, _ => None
  end.

End helpers.

(** ** JavaScript numbers in double precision *)

Module Double.

(** The numbers that the duration estimator meets: the doubles whose
    value is an integer, the two infinities and [NaN].  [Finite n] is
    the double of value [n]; the two zeros are one value here, which no
    function below tells apart. *)
Inductive t :=
| NaN
| Infinity (negative : bool)
| Finite (n : Z).

(** The magnitude [a], rounded to 53 significant bits, to the nearest
    and to the even one of two nearest. *)
Definition roundMagnitude (a : Z) : Z :=
  let e := Z.log2 a - 52 in
  if e <=? 0 then a
  else
    let q := Z.shiftr a e in
    let r := Z.land a (Z.ones e) in
    let half := Z.shiftl 1 (e - 1) in
    let m :=
      if r <? half then q
      else if half <? r then q + 1
      else if Z.even q then q else q + 1 in
    Z.shiftl m e.

(** The Number value of an integer: the nearest double, ties to even,
    and an infinity from [2^1024 - 2^970] on. *)
Definition ofInteger (n : Z) : t :=
  let a := roundMagnitude (Z.abs n) in
  if 2 ^ 1024 <=? a then Infinity (n <? 0) else Finite (Z.sgn n * a).

(** [parseInt(input)]: the integer that the digits denote
    ([JS.parseInt]), as a Number.  (ECMAScript lets an implementation
    approximate a decimal numeral beyond its 20th digit; V8 rounds the
    numeral itself, as here.) *)
Definition parseInt (input : string) : t :=
  match JS.parseInt input with
  | Some n => ofInteger n
  | None => NaN
  end.

Definition isNaN (x : t) : bool :=
  match x with NaN => true | _ => false end.

(** [x - y]. *)
Definition sub (x y : t) : t :=
  match x, y with
  | NaN, _ | _, NaN => NaN
  | Infinity s, Infinity s' => if Bool.eqb s s' then NaN else Infinity s
  | Infinity s, Finite _ => Infinity s
  | Finite _, Infinity s => Infinity (negb s)
  | Finite a, Finite b => ofInteger (a - b)
  end.

(** [Math.abs(x)]. *)
Definition mathAbs (x : t) : t :=
  match x with
  | NaN => NaN
  | Infinity _ => Infinity false
  | Finite a => Finite (Z.abs a)
  end.

(** [x % y]: the remainder has the sign of [x] and is exact. *)
Definition rem (x y : t) : t :=
  match x, y with
  | NaN, _ | _, NaN => NaN
  | Infinity _, _ => NaN
  | Finite a, Infinity _ => Finite a
  | Finite a, Finite b => if b =? 0 then NaN else Finite (Z.rem a b)
  end.

(** [Math.max(x, y)]. *)
Definition mathMax (x y : t) : t :=
  match x, y with
  | NaN, _ | _, NaN => NaN
  | Infinity false, _ | _, Infinity false => Infinity false
  | Infinity true, z | z, Infinity true => z
  | Finite a, Finite b => Finite (Z.max a b)
  end.

(** The body of the [try] block of [calculateRideDuration]: [inl] is the
    thrown ['Invalid pincode format'] error. *)
Definition calculateRideDuration_try (fromPincode toPincode : string) : string + t :=
  let from := parseInt fromPincode in
  let to := parseInt toPincode in
  if isNaN from || isNaN to then inl "Invalid pincode format"
  else
    let duration := rem (mathAbs (sub from to)) (Finite 24) in
    inr (mathMax duration (Finite 1)).

(** [calculateRideDuration], on all strings: the [catch] block returns
    the default of two hours. *)
Definition calculateRideDuration (fromPincode toPincode : string) : t :=
  match calculateRideDuration_try fromPincode toPincode with
  | inr hours => hours
  | inl _ => Finite 2
  end.

End Double.

(** ** The part of MongoDB and Mongoose that the models use *)

Module Mongo.

Definition ObjectId := nat.

(** The values stored in the fields of the two models. *)
Inductive Value :=
| VId (i : ObjectId)
| VStr (s : string)
| VNum (q : Q)
| VDate (t : Z).

Definition valueEqb (a b : Value) : bool :=
  match a, b with
  | VId i, VId j => Nat.eqb i j
  | VStr s, VStr t => String.eqb s t
  | VNum p, VNum q => Qeq_bool p q
  | VDate s, VDate t => Z.eqb s t
  | _, _ => false
  end.

(** [a < b] for two values of one type; the queries of the code order
    dates and numbers only, so that is all the order has. *)
Definition valueLtb (a b : Value) : bool :=
  match a, b with
  | VNum p, VNum q => negb (Qle_bool q p)
  | VDate s, VDate t => Z.ltb s t
  | _, _ => false
  end.

Definition valueLeb (a b : Value) : bool :=
  match a, b with
  | VNum p, VNum q => Qle_bool p q
  | VDate s, VDate t => Z.leb s t
  | _, _ => false
  end.

(** A condition on one field: a plain value is an equality. *)
Inductive Cond :=
| Eq (v : Value)
| Ne (v : Value)
| In_ (vs : list Value)
| Lt (v : Value)
| Lte (v : Value)
| Gt (v : Value)
| Gte (v : Value).

Definition holds (c : Cond) (x : Value) : bool :=
  match c with
  | Eq v => valueEqb x v
  | Ne v => negb (valueEqb x v)
  | In_ vs => existsb (valueEqb x) vs
  | Lt v => valueLtb x v
  | Lte v => valueLeb x v
  | Gt v => valueLtb v x
  | Gte v => valueLeb v x
  end.

(** A collection: its documents in insertion order and the next fresh id. *)
Record Collection (D : Type) := mkCollection {
  docs : list D;
  nextId : ObjectId
}.
Arguments mkCollection {D}.
Arguments docs {D}.
Arguments nextId {D}.

Definition empty {D : Type} : Collection D := mkCollection [] 0%nat.

(** Database calls on one collection. *)
Definition M (D A : Type) : Type := Collection D -> A * Collection D.

Section Model.
(** [F] names the fields of the documents [D] of a model. *)
Context {F D : Type}.
Variable get : F -> D -> Value.
Variable idOf : D -> ObjectId.

(** A filter object [{ f1: c1, ..., fn: cn }]. *)
Definition Clause : Type := list (F * Cond).

(** A query: the conditions on fields and the optional [$or] list. *)
Record Query := mkQuery {
  where_ : Clause;
  or_ : option (list Clause)
}.

Definition matchesClause (cl : Clause) (d : D) : bool :=
  forallb (fun fc => holds (snd fc) (get (fst fc) d)) cl.

Definition matches (q : Query) (d : D) : bool :=
  matchesClause (where_ q) d &&
  match or_ q with
  | Some cls => existsb (fun cl => matchesClause cl d) cls
  | None => true
  end.

(** [Model.find(query)]. *)
Definition find (q : Query) : M D (list D) :=
  fun c => (List.filter (matches q) (docs c), c).

(** [Model.findById(id)]. *)
Definition findById (id : ObjectId) : M D (option D) :=
  fun c => (List.find (fun d => Nat.eqb (idOf d) id) (docs c), c).

(** The first document with this id replaced by its image under [f]. *)
Fixpoint updateFirst (id : ObjectId) (f : D -> D) (l : list D) : list D :=
  match l with
  | d :: l' => if Nat.eqb (idOf d) id then f d :: l' else d :: updateFirst id f l'
  | [] => []
  end.

(** [Model.findByIdAndUpdate(id, update, { new: true })]: the updated
    document, or [None] when no document has this id. *)
Definition findByIdAndUpdate (id : ObjectId) (f : D -> D) : M D (option D) :=
  fun c =>
    match List.find (fun d => Nat.eqb (idOf d) id) (docs c) with
    | Some d => (Some (f d), mkCollection (updateFirst id f (docs c)) (nextId c))
    | None => (None, c)
    end.

(** The write of [doc.save()] for a new document: [mk] is the document
    as built by [new Model(...)], still waiting for its fresh id. *)
Definition insert (mk : ObjectId -> D) : M D D :=
  fun c =>
    let d := mk (nextId c) in
    (d, mkCollection (docs c ++ [d]) (S (nextId c))).

(** The write of [doc.save()] for a document read from the collection. *)
Definition replace (d : D) : M D D :=
  fun c => (d, mkCollection (updateFirst (idOf d) (fun _ => d) (docs c)) (nextId c)).

(** [.sort({ field: 1 })] on a numeric field, as a stable insertion sort. *)
Fixpoint insertAsc (key : D -> Q) (d : D) (l : list D) : list D :=
  match l with
  | x :: l' => if Qle_bool (key d) (key x) then d :: l else x :: insertAsc key d l'
  | [] => [d]
  end.

Fixpoint sortAsc (key : D -> Q) (l : list D) : list D :=
  match l with
  | d :: l' => insertAsc key d (sortAsc key l')
  | [] => []
  end.

End Model.

Arguments Clause : clear implicits.
Arguments Query : clear implicits.
Arguments mkQuery {F}.

(** What [doc.save()] and the casts of Mongoose raise. *)
Inductive Error :=
| ValidationError (messages : list string)
| CastError (path : string).

End Mongo.

(** ** Request bodies *)

Module Json.

(** A scalar of a JSON request body; arrays and objects, which no
    field of the models accepts, are [JOther]. *)
Inductive value :=
| JNull
| JBool (b : bool)
| JNum (q : Q)
| JStr (s : string)
| JOther.

(** The conversions between strings and numbers of the Joi and Mongoose
    libraries, which are not part of the repository. *)
Record Coercions := {
  joiNumberOfString : string -> option Q;
  castNumberOfString : string -> option Q;
  castStringOfNumber : Q -> string
}.

End Json.

(** ** src/models/Vehicle.js *)

Module Vehicle.
Import Mongo.

Inductive Status := active | maintenance | retired.

Definition statusName (s : Status) : string :=
  match s with
  | active => "active"
  | maintenance => "maintenance"
  | retired => "retired"
  end.

(** The [enum] of the [status] path. *)
Definition statusOfName (s : string) : option Status :=
  if String.eqb s "active" then Some active
  else if String.eqb s "maintenance" then Some maintenance
  else if String.eqb s "retired" then Some retired
  else None.

Record t := mk {
  _id : ObjectId;
  name : string;
  capacityKg : Q;
  tyres : Q;
  status : Status
}.

Inductive Field := F_id | Fname | FcapacityKg | Ftyres | Fstatus.

Definition get (f : Field) (v : t) : Value :=
  match f with
  | F_id => VId (_id v)
  | Fname => VStr (name v)
  | FcapacityKg => VNum (capacityKg v)
  | Ftyres => VNum (tyres v)
  | Fstatus => VStr (statusName (status v))
  end.

Definition setStatus (s : Status) (v : t) : t :=
  mk (_id v) (name v) (capacityKg v) (tyres v) s.

(** The casts of the schema types [String] and [Number]; [None] is the
    absent value ([undefined] or [null]). *)
Definition castString (co : Json.Coercions) (x : Json.value) : Error + option string :=
  match x with
  | Json.JNull => inr None
  | Json.JStr s => inr (Some s)
  | Json.JNum q => inr (Some (Json.castStringOfNumber co q))
  | Json.JBool b => inr (Some (if b then "true" else "false"))
  | Json.JOther => inl (CastError "string")
  end.

Definition castNumber (co : Json.Coercions) (x : Json.value) : Error + option Q :=
  match x with
  | Json.JNull => inr None
  | Json.JNum q => inr (Some q)
  | Json.JStr s =>
      match Json.castNumberOfString co s with
      | Some q => inr (Some q)
      | None => inl (CastError "number")
      end
  | Json.JBool b => inr (Some (if b then 1%Q else 0%Q))
  | Json.JOther => inl (CastError "number")
  end.

(** The validators of the [name] path, on the cast and trimmed value. *)
Definition validateName (x : option string) : list string :=
  match x with
  | None => ["Vehicle name is required"]
  | Some s =>
      (if String.eqb s "" then ["Vehicle name is required"] else []) ++
      (if Z.of_nat (String.length s) <? 2
       then ["Vehicle name must be at least 2 characters"] else []) ++
      (if 100 <? Z.of_nat (String.length s)
       then ["Vehicle name cannot exceed 100 characters"] else [])
  end.

Definition validateCapacityKg (x : option Q) : list string :=
  match x with
  | None => ["Vehicle capacity is required"]
  | Some q =>
      (if Qle_bool 1 q then [] else ["Capacity must be at least 1 kg"]) ++
      (if Qle_bool q 50000 then [] else ["Capacity cannot exceed 50,000 kg"])
  end.

Definition validateTyres (x : option Q) : list string :=
  match x with
  | None => ["Number of tyres is required"]
  | Some q =>
      (if Qle_bool 2 q then [] else ["Vehicle must have at least 2 tyres"]) ++
      (if Qle_bool q 18 then [] else ["Vehicle cannot have more than 18 tyres"])
  end.

(** The [status] path: the [default] fills in an absent value, the
    [enum] validates a present one. *)
Definition statusPath (x : option string) : list string * Status :=
  match x with
  | None => ([], active)
  | Some s =>
      match statusOfName s with
      | Some st => ([], st)
      | None => ([("`" ++ s ++ "` is not a valid enum value for path `status`.")%string], active)
      end
  end.

Definition orElse {A : Type} (d : A) (x : option A) : A :=
  match x with Some a => a | None => d end.

(** [new Vehicle(obj)] followed by the validation of [save()]: the
    fields of [obj] are cast, [name] is trimmed, an absent [status]
    takes the schema default, and every path is validated.  The result
    is the document still waiting for its id. *)
Definition build (co : Json.Coercions) (obj : gmap string Json.value)
    : Error + (ObjectId -> t) :=
  match castString co (orElse Json.JNull (obj !! "name")),
        castNumber co (orElse Json.JNull (obj !! "capacityKg")),
        castNumber co (orElse Json.JNull (obj !! "tyres")),
        castString co (orElse Json.JNull (obj !! "status")) with
  | inr n, inr c, inr ty, inr st =>
      let n := option_map JS.trim n in
      let '(statusErrors, st) := statusPath st in
      match (validateName n ++ validateCapacityKg c ++ validateTyres ty ++ statusErrors)%list,
            n, c, ty with
      | [], Some n, Some c, Some ty => inr (fun id => mk id n c ty st)
      | errors, _, _, _ => inl (ValidationError errors)
      end
  | inl e, _, _, _ => inl e
  | _, inl e, _, _ => inl e
  | _, _, inl e, _ => inl e
  | _, _, _, inl e => inl e
  end.

(** [new Vehicle(obj).save()]. *)
Definition create (co : Json.Coercions) (obj : gmap string Json.value)
    : M t (Error + t) :=
  fun c =>
    match build co obj with
    | inr mkDoc => let '(d, c') := insert mkDoc c in (inr d, c')
    | inl e => (inl e, c)
    end.

(** The instance method [canHandleCapacity]. *)
Definition canHandleCapacity (v : t) (requiredCapacity : Q) : bool :=
  Qle_bool requiredCapacity (capacityKg v) &&
  String.eqb (statusName (status v)) "active".

(** The static method [findByMinCapacity]. *)
Definition findByMinCapacity (minCapacity : Q) : M t (list t) :=
  fun c =>
    let '(l, c') :=
      find get (mkQuery [(FcapacityKg, Gte (VNum minCapacity));
                         (Fstatus, Eq (VStr "active"))] None) c in
    (sortAsc capacityKg l, c').

End Vehicle.

(** ** src/models/Booking.js *)

Module Booking.
Import Mongo.

Inductive Status := confirmed | in_progress | completed | cancelled.

Definition statusName (s : Status) : string :=
  match s with
  | confirmed => "confirmed"
  | in_progress => "in-progress"
  | completed => "completed"
  | cancelled => "cancelled"
  end.

(** The [enum] of the [status] path. *)
Definition statusOfName (s : string) : option Status :=
  if String.eqb s "confirmed" then Some confirmed
  else if String.eqb s "in-progress" then Some in_progress
  else if String.eqb s "completed" then Some completed
  else if String.eqb s "cancelled" then Some cancelled
  else None.

Record t := mk {
  _id : ObjectId;
  vehicleId : ObjectId;
  customerId : string;
  fromPincode : string;
  toPincode : string;
  startTime : Z;
  endTime : Z;
  estimatedRideDurationHours : Z;
  status : Status;
  totalCost : Q
}.

Inductive Field :=
| F_id | FvehicleId | FcustomerId | FfromPincode | FtoPincode
| FstartTime | FendTime | FestimatedRideDurationHours | Fstatus | FtotalCost.

Definition get (f : Field) (b : t) : Value :=
  match f with
  | F_id => VId (_id b)
  | FvehicleId => VId (vehicleId b)
  | FcustomerId => VStr (customerId b)
  | FfromPincode => VStr (fromPincode b)
  | FtoPincode => VStr (toPincode b)
  | FstartTime => VDate (startTime b)
  | FendTime => VDate (endTime b)
  | FestimatedRideDurationHours => VNum (inject_Z (estimatedRideDurationHours b))
  | Fstatus => VStr (statusName (status b))
  | FtotalCost => VNum (totalCost b)
  end.

Definition setStatus (s : Status) (b : t) : t :=
  mk (_id b) (vehicleId b) (customerId b) (fromPincode b) (toPincode b)
     (startTime b) (endTime b) (estimatedRideDurationHours b) s (totalCost b).

(** The validators of the string paths, on the trimmed values. *)
Definition validateCustomerId (s : string) : list string :=
  (if String.eqb s "" then ["Customer ID is required"] else []) ++
  (if 50 <? Z.of_nat (String.length s)
   then ["Customer ID cannot exceed 50 characters"] else []).

Definition validatePincode (required : string) (s : string) : list string :=
  (if String.eqb s "" then [required] else []) ++
  (if JS.sixDigits s then [] else ["Pincode must be exactly 6 digits"]) ++
  (if Z.of_nat (String.length s) <? 6 then ["Pincode must be exactly 6 digits"] else []) ++
  (if 6 <? Z.of_nat (String.length s) then ["Pincode must be exactly 6 digits"] else []).

(** The validator of [startTime]: [value > new Date()]. *)
Definition validateStartTime (now : Z) (value : Z) : list string :=
  if value >? now then [] else ["Start time must be in the future"].

Definition validateDuration (hours : Z) : list string :=
  (if Qle_bool (1 # 10) (inject_Z hours) then []
   else ["Ride duration must be at least 0.1 hours"]) ++
  (if Qle_bool (inject_Z hours) 24 then []
   else ["Ride duration cannot exceed 24 hours"]).

Definition validateTotalCost (cost : Q) : list string :=
  if Qle_bool 0 cost then [] else ["Cost cannot be negative"].

(** The validation that [save()] runs on a document, at clock [now]. *)
Definition validate (now : Z) (b : t) : list string :=
  (validateCustomerId (customerId b) ++
   validatePincode "From pincode is required" (fromPincode b) ++
   validatePincode "To pincode is required" (toPincode b) ++
   validateStartTime now (startTime b) ++
   validateDuration (estimatedRideDurationHours b) ++
   validateTotalCost (totalCost b))%list.

(** The paths of a document whose validity does not depend on the clock. *)
Definition validateStatic (b : t) : list string :=
  (validateCustomerId (customerId b) ++
   validatePincode "From pincode is required" (fromPincode b) ++
   validatePincode "To pincode is required" (toPincode b) ++
   validateDuration (estimatedRideDurationHours b) ++
   validateTotalCost (totalCost b))%list.

(** The fields handed to [new Booking({...})] by the controller;
    [totalCost] is [None] when the cost came out as [NaN]. *)
Record Init := mkInit {
  i_vehicleId : ObjectId;
  i_customerId : string;
  i_fromPincode : string;
  i_toPincode : string;
  i_startTime : Z;
  i_endTime : Z;
  i_estimatedRideDurationHours : Z;
  i_totalCost : option Q;
  i_status : Status
}.

(** [new Booking(init).save()] at clock [now]: the string paths are
    trimmed by their setters, a [NaN] cost fails its cast, the
    validators run, and only then the document is written. *)
Definition create (now : Z) (init : Init) : M t (Error + t) :=
  fun c =>
    match i_totalCost init with
    | None => (inl (CastError "totalCost"), c)
    | Some cost =>
        let mkDoc := fun id =>
          mk id (i_vehicleId init) (JS.trim (i_customerId init))
             (JS.trim (i_fromPincode init)) (JS.trim (i_toPincode init))
             (i_startTime init) (i_endTime init)
             (i_estimatedRideDurationHours init) (i_status init) cost in
        match validate now (mkDoc (nextId c)) with
        | [] => let '(d, c') := insert mkDoc c in (inr d, c')
        | errors => (inl (ValidationError errors), c)
        end
    end.

(** [booking.save()] at clock [now] for a document read from the
    collection and changed in memory. *)
Definition save (now : Z) (b : t) : M t (Error + t) :=
  fun c =>
    match validate now b with
    | [] => let '(d, c') := replace _id b c in (inr d, c')
    | errors => (inl (ValidationError errors), c)
    end.

(** The instance method [overlapsWithTimeWindow]. *)
Definition overlapsWithTimeWindow (this : t) (startTime' endTime' : Z) : bool :=
  (startTime' <? endTime this) && (endTime' >? startTime this).

(** The query object built by [findOverlappingBookings]. *)
Definition overlappingQuery
    (vehicleId' : ObjectId) (startTime' endTime' : Z)
    (excludeBookingId : option ObjectId) : Query Field :=
  let query :=
    mkQuery
      [(FvehicleId, Eq (VId vehicleId'));
       (Fstatus, In_ [VStr "confirmed"; VStr "in-progress"])]
      (Some [[(FstartTime, Lt (VDate endTime'));
              (FendTime, Gt (VDate startTime'))]]) in
  match excludeBookingId with
  | Some id => mkQuery (where_ query ++ [(F_id, Ne (VId id))]) (or_ query)
  | None => query
  end.

(** The static method [findOverlappingBookings]. *)
Definition findOverlappingBookings
    (vehicleId' : ObjectId) (startTime' endTime' : Z)
    (excludeBookingId : option ObjectId) : M t (list t) :=
  find get (overlappingQuery vehicleId' startTime' endTime' excludeBookingId).

End Booking.

(** ** The store and the controllers' monad *)

Record Store := mkStore {
  vehicles : Mongo.Collection Vehicle.t;
  bookings : Mongo.Collection Booking.t
}.

Definition emptyStore : Store := mkStore Mongo.empty Mongo.empty.

(** A request handler: it reads and writes the store and answers. *)
Definition Handler (A : Type) : Type := Store -> A * Store.

Definition ret {A : Type} (a : A) : Handler A := fun s => (a, s).

Definition bind {A B : Type} (m : Handler A) (k : A -> Handler B) : Handler B :=
  fun s => let '(a, s') := m s in k a s'.

Notation "'await' x ':=' m 'in' k" := (bind m (fun x => k))
  (at level 10, x name, m at level 100, k at level 200).

(** [await] of a call on the [Vehicle] model and on the [Booking] model. *)
Definition onVehicles {A : Type} (m : Mongo.M Vehicle.t A) : Handler A :=
  fun s => let '(a, c) := m (vehicles s) in (a, mkStore c (bookings s)).

Definition onBookings {A : Type} (m : Mongo.M Booking.t A) : Handler A :=
  fun s => let '(a, c) := m (bookings s) in (a, mkStore (vehicles s) c).

(** [for (const x of l) { acc = body(x, acc) }] with awaits in the body. *)
Fixpoint forEach {A B : Type} (l : list A) (body : A -> B -> Handler B) (acc : B)
    : Handler B :=
  match l with
  | x :: l' => await acc' := body x acc in forEach l' body acc'
  | [] => ret acc
  end.

(** The [details] of an error response. *)
Inductive Details :=
| conflictingBookings (n : nat)
| validationErrors (messages : list string).

(** What a handler does with [res] and [next]:
    [res.status(c).json(formatSuccessResponse(data, message, c))],
    [res.status(c).json(formatErrorResponse(message, c, details))] or
    [next(error)]. *)
Inductive Response (A : Type) :=
| Success (statusCode : Z) (message : string) (data : A)
| Failure (statusCode : Z) (message : string) (details : option Details)
| Next (error : Mongo.Error).
Arguments Success {A}.
Arguments Failure {A}.
Arguments Next {A}.

(** The typed outcomes of the specification, as the responses of the code. *)
Definition VehicleNotFound {A : Type} : Response A :=
  Failure 404 "Vehicle not found" None.
Definition NotAvailable {A : Type} : Response A :=
  Failure 400 "Vehicle is not available for booking" None.
Definition Conflict {A : Type} (n : nat) : Response A :=
  Failure 409 "Vehicle is already booked for the requested time slot"
          (Some (conflictingBookings n)).
Definition BookingNotFound {A : Type} : Response A :=
  Failure 404 "Booking not found" None.
Definition InvalidState {A : Type} : Response A :=
  Failure 400 "Only confirmed bookings can be cancelled" None.
Definition TooLate {A : Type} : Response A :=
  Failure 400 "Cannot cancel booking within 1 hour of start time" None.

(** ** The booking controller *)

Module bookingController.
Import Mongo.

(** [req.body] of [POST /api/bookings], with the types that the
    request validator hands over. *)
Record Body := mkBody {
  vehicleId : ObjectId;
  customerId : string;
  fromPincode : string;
  toPincode : string;
  startTime : Z
}.

Definition endOfWindow (bookingStartTime estimatedRideDurationHours : Z) : Z :=
  bookingStartTime + estimatedRideDurationHours * 60 * 60 * 1000.

(** The document handed to [new Booking({...})]. *)
Definition newBooking (body : Body) (vehicle : Vehicle.t) : Booking.Init :=
  let estimatedRideDurationHours :=
    helpers.calculateRideDuration (fromPincode body) (toPincode body) in
  let bookingStartTime := startTime body in
  let bookingEndTime := endOfWindow bookingStartTime estimatedRideDurationHours in
  let totalCost :=
    helpers.calculateBookingCost estimatedRideDurationHours (Vehicle.capacityKg vehicle)
      (fromPincode body) (toPincode body) in
  Booking.mkInit (vehicleId body) (customerId body) (fromPincode body) (toPincode body)
    bookingStartTime bookingEndTime estimatedRideDurationHours totalCost
    Booking.confirmed.

(** [createBooking], run without interruption at clock [now]. *)
Definition createBooking (now : Z) (body : Body) : Handler (Response Booking.t) :=
  await vehicle := onVehicles (findById Vehicle._id (vehicleId body)) in
  match vehicle with
  | None => ret VehicleNotFound
  | Some vehicle =>
      if negb (String.eqb (Vehicle.statusName (Vehicle.status vehicle)) "active")
      then ret NotAvailable
      else
        let estimatedRideDurationHours :=
          helpers.calculateRideDuration (fromPincode body) (toPincode body) in
        let bookingStartTime := startTime body in
        let bookingEndTime := endOfWindow bookingStartTime estimatedRideDurationHours in
        await overlappingBookings := onBookings (Booking.findOverlappingBookings
                        (vehicleId body) bookingStartTime bookingEndTime None) in
        if (0 <? length overlappingBookings)%nat
        then ret (Conflict (length overlappingBookings))
        else
          await saved := onBookings (Booking.create now (newBooking body vehicle)) in
          match saved with
          | inr savedBooking => ret (Success 201 "Booking created successfully" savedBooking)
          | inl error => ret (Next error)
          end
  end.

(** The same handler cut at its [await]s: where a call of
    [createBooking] stands between two database round trips. *)
Inductive Task :=
| AwaitVehicle (body : Body)
| AwaitOverlapping (body : Body) (vehicle : Vehicle.t)
| AwaitSave (body : Body) (vehicle : Vehicle.t)
| Finished (response : Response Booking.t).

(** One database round trip of a call, at clock [now]. *)
Definition resume (now : Z) (task : Task) : Handler Task :=
  match task with
  | AwaitVehicle body =>
      await vehicle := onVehicles (findById Vehicle._id (vehicleId body)) in
      match vehicle with
      | None => ret (Finished VehicleNotFound)
      | Some vehicle =>
          if negb (String.eqb (Vehicle.statusName (Vehicle.status vehicle)) "active")
          then ret (Finished NotAvailable)
          else ret (AwaitOverlapping body vehicle)
      end
  | AwaitOverlapping body vehicle =>
      let estimatedRideDurationHours :=
        helpers.calculateRideDuration (fromPincode body) (toPincode body) in
      let bookingStartTime := startTime body in
      let bookingEndTime := endOfWindow bookingStartTime estimatedRideDurationHours in
      await overlappingBookings := onBookings (Booking.findOverlappingBookings
                      (vehicleId body) bookingStartTime bookingEndTime None) in
      if (0 <? length overlappingBookings)%nat
      then ret (Finished (Conflict (length overlappingBookings)))
      else ret (AwaitSave body vehicle)
  | AwaitSave body vehicle =>
      await saved := onBookings (Booking.create now (newBooking body vehicle)) in
      match saved with
      | inr savedBooking =>
          ret (Finished (Success 201 "Booking created successfully" savedBooking))
      | inl error => ret (Finished (Next error))
      end
  | Finished response => ret (Finished response)
  end.

(** [updateBookingStatus]: [status] is [req.body.status]. *)
Definition updateBookingStatus (id : ObjectId) (status : string)
    : Handler (Response Booking.t) :=
  let validStatuses := ["confirmed"; "in-progress"; "completed"; "cancelled"] in
  if negb (existsb (String.eqb status) validStatuses)
  then ret (Failure 400
              ("Invalid status. Must be one of: " ++ String.concat ", " validStatuses)%string
              None)
  else
    match Booking.statusOfName status with
    | None =>
        ret (Next (ValidationError
               [("`" ++ status ++ "` is not a valid enum value for path `status`.")%string]))
    | Some st =>
        await booking := onBookings (findByIdAndUpdate Booking._id id (Booking.setStatus st)) in
        match booking with
        | None => ret BookingNotFound
        | Some booking =>
            ret (Success 200 ("Booking status updated to " ++ status)%string booking)
        end
    end.

(** [cancelBooking] at clock [now]. *)
Definition cancelBooking (now : Z) (id : ObjectId) : Handler (Response Booking.t) :=
  await booking := onBookings (findById Booking._id id) in
  match booking with
  | None => ret BookingNotFound
  | Some booking =>
      if negb (String.eqb (Booking.statusName (Booking.status booking)) "confirmed")
      then ret InvalidState
      else
        let bookingStart := Booking.startTime booking in
        let hoursUntilStart :=
          (inject_Z (bookingStart - now) / inject_Z (1000 * 60 * 60))%Q in
        if negb (Qle_bool 1 hoursUntilStart)
        then ret TooLate
        else
          let booking := Booking.setStatus Booking.cancelled booking in
          await saved := onBookings (Booking.save now booking) in
          match saved with
          | inr booking => ret (Success 200 "Booking cancelled successfully" booking)
          | inl error => ret (Next error)
          end
  end.

End bookingController.

(** ** src/controllers/vehicleController.js *)

Module vehicleController.
Import Mongo.

(** [const { name, capacityKg, tyres } = req.body] put back into an
    object [{ name, capacityKg, tyres }]: the fields of [body] with
    these names and no other. *)
Definition pick (keys : list string) (body : gmap string Json.value)
    : gmap string Json.value :=
  foldr (fun k obj =>
           match body !! k with
           | Some v => <[k := v]> obj
           | None => obj
           end) ∅ keys.

(** [addVehicle]. *)
Definition addVehicle (co : Json.Coercions) (body : gmap string Json.value)
    : Handler (Response Vehicle.t) :=
  let vehicle := pick ["name"; "capacityKg"; "tyres"] body in
  await saved := onVehicles (Vehicle.create co vehicle) in
  match saved with
  | inr savedVehicle => ret (Success 201 "Vehicle added successfully" savedVehicle)
  | inl error => ret (Next error)
  end.

(** [req.query] of [GET /api/vehicles/available], with the types that
    the request validator hands over. *)
Record Query := mkQuery {
  capacityRequired : Q;
  fromPincode : string;
  toPincode : string;
  startTime : Z
}.

(** An element of the answer of [findAvailableVehicles]. *)
Record Available := mkAvailable {
  vehicle : Vehicle.t;
  estimatedRideDurationHours : Z;
  route : string * string;
  timeWindow : Z * Z
}.

(** [findAvailableVehicles]. *)
Definition findAvailableVehicles (query : Query) : Handler (Response (list Available)) :=
  let estimatedRideDurationHours :=
    helpers.calculateRideDuration (fromPincode query) (toPincode query) in
  let bookingStartTime := startTime query in
  let bookingEndTime := bookingStartTime + estimatedRideDurationHours * 60 * 60 * 1000 in
  await suitableVehicles :=
    onVehicles (fun c =>
      let '(l, c') :=
        find Vehicle.get
          (Mongo.mkQuery
             [(Vehicle.FcapacityKg,
               Gte (VNum (inject_Z (JS.parseIntNumber (capacityRequired query)))));
              (Vehicle.Fstatus, Eq (VStr "active"))] None) c in
      (sortAsc Vehicle.capacityKg l, c')) in
  if (length suitableVehicles =? 0)%nat
  then ret (Success 200 "No vehicles found with required capacity" [])
  else
    await availableVehicles :=
      forEach suitableVehicles
        (fun vehicle availableVehicles =>
           await overlappingBookings :=
             onBookings (Booking.findOverlappingBookings
                           (Vehicle._id vehicle) bookingStartTime bookingEndTime None) in
           if (length overlappingBookings =? 0)%nat
           then ret (availableVehicles ++
                     [mkAvailable vehicle estimatedRideDurationHours
                        (fromPincode query, toPincode query)
                        (bookingStartTime, bookingEndTime)])
           else ret availableVehicles)
        [] in
    ret (Success 200
           ("Found " ++ pretty (length availableVehicles) ++ " available vehicles")%string
           availableVehicles).

(** [updateVehicleStatus]: [status] is [req.body.status]. *)
Definition updateVehicleStatus (id : ObjectId) (status : string)
    : Handler (Response Vehicle.t) :=
  if negb (existsb (String.eqb status) ["active"; "maintenance"; "retired"])
  then ret (Failure 400 "Invalid status. Must be: active, maintenance, or retired" None)
  else
    match Vehicle.statusOfName status with
    | None =>
        ret (Next (ValidationError
               [("`" ++ status ++ "` is not a valid enum value for path `status`.")%string]))
    | Some st =>
        await vehicle := onVehicles (findByIdAndUpdate Vehicle._id id (Vehicle.setStatus st)) in
        match vehicle with
        | None => ret VehicleNotFound
        | Some vehicle =>
            ret (Success 200 ("Vehicle status updated to " ++ status)%string vehicle)
        end
    end.

End vehicleController.

(** ** src/middleware/validation.js *)

Module validation.

(** [Joi.string().trim().min(2).max(100).required()] with [convert]. *)
Definition nameRule (x : option Json.value) : list string + string :=
  match x with
  | None => inl ["Vehicle name is required"]
  | Some (Json.JStr s) =>
      let s := JS.trim s in
      if String.eqb s "" then inl ["Vehicle name is required"]
      else if Z.of_nat (String.length s) <? 2
      then inl ["Vehicle name must be at least 2 characters"]
      else if 100 <? Z.of_nat (String.length s)
      then inl ["Vehicle name cannot exceed 100 characters"]
      else inr s
  | Some _ => inl ["name must be a string"]
  end.

(** The number that [Joi.number()] reads with [convert]. *)
Definition numberOf (co : Json.Coercions) (x : Json.value) : option Q :=
  match x with
  | Json.JNum q => Some q
  | Json.JStr s => Json.joiNumberOfString co s
  | _ => None
  end.

(** [Joi.number().positive().min(1).max(50000).required()]. *)
Definition capacityRule (co : Json.Coercions) (x : option Json.value) : list string + Q :=
  match x with
  | None => inl ["Vehicle capacity is required"]
  | Some v =>
      match numberOf co v with
      | None => inl ["Capacity must be a number"]
      | Some q =>
          match (if Qle_bool q 0 then ["Capacity must be a positive number"] else []) ++
                (if Qle_bool 1 q then [] else ["Capacity must be at least 1 kg"]) ++
                (if Qle_bool q 50000 then [] else ["Capacity cannot exceed 50,000 kg"]) with
          | [] => inr q
          | errors => inl errors
          end
      end
  end.

(** [Joi.number().integer().min(2).max(18).required()]. *)
Definition tyresRule (co : Json.Coercions) (x : option Json.value) : list string + Q :=
  match x with
  | None => inl ["Number of tyres is required"]
  | Some v =>
      match numberOf co v with
      | None => inl ["Number of tyres must be a number"]
      | Some q =>
          match (if Qeq_bool q (inject_Z (Qfloor q)) then []
                 else ["Number of tyres must be an integer"]) ++
                (if Qle_bool 2 q then [] else ["Vehicle must have at least 2 tyres"]) ++
                (if Qle_bool q 18 then [] else ["Vehicle cannot have more than 18 tyres"]) with
          | [] => inr q
          | errors => inl errors
          end
      end
  end.

Definition errorsOf {A : Type} (r : list string + A) : list string :=
  match r with inl errors => errors | inr _ => [] end.

(** [vehicleSchema.validate(body, { abortEarly: false, stripUnknown:
    true, convert: true })]: all the errors, or the converted value,
    which has the keys of the schema and no other. *)
Definition vehicleSchema (co : Json.Coercions) (body : gmap string Json.value)
    : list string + gmap string Json.value :=
  let name := nameRule (body !! "name") in
  let capacityKg := capacityRule co (body !! "capacityKg") in
  let tyres := tyresRule co (body !! "tyres") in
  match name, capacityKg, tyres with
  | inr n, inr c, inr t =>
      inr (<["name" := Json.JStr n]>
             (<["capacityKg" := Json.JNum c]>
                (<["tyres" := Json.JNum t]> ∅)))
  | _, _, _ => inl (errorsOf name ++ errorsOf capacityKg ++ errorsOf tyres)
  end.

(** The middleware [validate(vehicleSchema, 'body')] in front of a
    handler [next]: it answers 400 itself, or replaces [req.body] by
    the validated value and calls [next]. *)
Definition validateVehicle {A : Type} (co : Json.Coercions)
    (next : gmap string Json.value -> Handler (Response A))
    (body : gmap string Json.value) : Handler (Response A) :=
  match vehicleSchema co body with
  | inl errors =>
      ret (Failure 400 (String.concat ", " errors) (Some (validationErrors errors)))
  | inr value => next value
  end.

End validation.

(** ** src/routes: [router.post('/', validateVehicle, addVehicle)] *)

Module routes.

Definition postVehicle (co : Json.Coercions) (body : gmap string Json.value)
    : Handler (Response Vehicle.t) :=
  validation.validateVehicle co (vehicleController.addVehicle co) body.

End routes.

(** ** The operations of the core, run one after the other *)

Inductive Op :=
| AddVehicle (co : Json.Coercions) (body : gmap string Json.value)
| UpdateVehicleStatus (id : Mongo.ObjectId) (status : string)
| FindAvailableVehicles (query : vehicleController.Query)
| CreateBooking (now : Z) (body : bookingController.Body)
| UpdateBookingStatus (id : Mongo.ObjectId) (status : string)
| CancelBooking (now : Z) (id : Mongo.ObjectId).

(** The store after one operation. *)
Definition exec (op : Op) (s : Store) : Store :=
  match op with
  | AddVehicle co body => snd (routes.postVehicle co body s)
  | UpdateVehicleStatus id status => snd (vehicleController.updateVehicleStatus id status s)
  | FindAvailableVehicles query => snd (vehicleController.findAvailableVehicles query s)
  | CreateBooking now body => snd (bookingController.createBooking now body s)
  | UpdateBookingStatus id status => snd (bookingController.updateBookingStatus id status s)
  | CancelBooking now id => snd (bookingController.cancelBooking now id s)
  end.

Definition execAll (ops : list Op) (s : Store) : Store :=
  fold_left (fun s op => exec op s) ops s.

(** The stores that the operations, run one after the other, build from
    the empty one. *)
Inductive reachable : Store -> Prop :=
| reachable_empty : reachable emptyStore
| reachable_exec (op : Op) (s : Store) : reachable s -> reachable (exec op s).

(** ** Calls of [createBooking] that interleave at their [await]s *)

Module concurrency.
Import bookingController.

Record Config := mkConfig {
  store : Store;
  tasks : list Task
}.

(** The calls [bodies] all received, none of them started. *)
Definition start (s : Store) (bodies : list Body) : Config :=
  mkConfig s (map AwaitVehicle bodies).

(** Call number [i] gets its next database round trip, at clock [now]. *)
Definition step (now : Z) (i : nat) (cfg : Config) : Config :=
  match tasks cfg !! i with
  | Some task =>
      let '(task', s') := resume now task (store cfg) in
      mkConfig s' (<[i := task']> (tasks cfg))
  | None => cfg
  end.

(** A schedule: which call runs next, and the clock at that moment. *)
Fixpoint run (schedule : list (nat * Z)) (cfg : Config) : Config :=
  match schedule with
  | (i, now) :: schedule' => run schedule' (step now i cfg)
  | [] => cfg
  end.

Definition succeeded (task : Task) : bool :=
  match task with
  | Finished (Success _ _ _) => true
  | _ => false
  end.

Definition conflicted (task : Task) : bool :=
  match task with
  | Finished (Failure 409 _ (Some (conflictingBookings _))) => true
  | _ => false
  end.

Definition finished (task : Task) : bool :=
  match task with
  | Finished _ => true
  | _ => false
  end.

End concurrency.

(** ** The vocabulary of the specification *)

(** The half-open window [[start, end)] of a booking. *)
Definition Window : Type := Z * Z.

Definition window (b : Booking.t) : Window := (Booking.startTime b, Booking.endTime b).

Definition inWindow (t : Z) (w : Window) : Prop := fst w <= t < snd w.

(** Two windows are disjoint when no instant lies in both. *)
Definition disjoint (a b : Window) : Prop := forall t, ~ (inWindow t a /\ inWindow t b).

(** The overlap predicate of the interval model. *)
Definition overlap (a b : Window) : Prop := fst a < snd b /\ fst b < snd a.

(** An active booking: one that counts towards conflicts. *)
Definition isActive (b : Booking.t) : bool :=
  match Booking.status b with
  | Booking.confirmed | Booking.in_progress => true
  | Booking.completed | Booking.cancelled => false
  end.

(** Two bookings that do not double-book a vehicle: if both are active
    and of the same vehicle, their windows are disjoint. *)
Definition compatible (b1 b2 : Booking.t) : Prop :=
  Booking.vehicleId b1 = Booking.vehicleId b2 ->
  isActive b1 = true -> isActive b2 = true ->
  disjoint (window b1) (window b2).

(** No vehicle is double-booked: any two bookings of the collection are
    compatible. *)
Definition noDoubleBooking (s : Store) : Prop :=
  ForallOrdPairs compatible (Mongo.docs (bookings s)).

(** A status update that brings a finished or cancelled booking back
    among the active ones. *)
Definition reactivates (op : Op) (s : Store) : Prop :=
  match op with
  | UpdateBookingStatus id status =>
      exists b,
        List.find (fun d => Nat.eqb (Booking._id d) id) (Mongo.docs (bookings s)) = Some b /\
        isActive b = false /\
        (status = "confirmed" \/ status = "in-progress")
  | _ => False
  end.

(** The stores built without such a status update, by operations each
    of which runs to its end before the next begins. *)
Inductive reachableGuarded : Store -> Prop :=
| guarded_empty : reachableGuarded emptyStore
| guarded_exec (op : Op) (s : Store) :
    reachableGuarded s -> ~ reactivates op s -> reachableGuarded (exec op s).

(** The conflicts of a proposed window, as the specification words
    them: a booking of the vehicle, active, overlapping the window, and
    not the excluded one. *)
Definition conflictsWith
    (vehicleId' : Mongo.ObjectId) (startTime' endTime' : Z)
    (excludeBookingId : option Mongo.ObjectId) (b : Booking.t) : bool :=
  Nat.eqb (Booking.vehicleId b) vehicleId' &&
  isActive b &&
  Booking.overlapsWithTimeWindow b startTime' endTime' &&
  match excludeBookingId with
  | Some id => negb (Nat.eqb (Booking._id b) id)
  | None => true
  end.

(** The windows of the examples of the specification, in hours. *)
Definition hours (startHour endHour : Z) : Booking.t :=
  Booking.mk 0%nat 0%nat "CUST001" "110001" "110005"
    (startHour * 3600000) (endHour * 3600000) (endHour - startHour)
    Booking.confirmed 0%Q.

Definition vehicleById (s : Store) (id : Mongo.ObjectId) : option Vehicle.t :=
  List.find (fun v => Nat.eqb (Vehicle._id v) id) (Mongo.docs (vehicles s)).

Definition bookingById (s : Store) (id : Mongo.ObjectId) : option Booking.t :=
  List.find (fun b => Nat.eqb (Booking._id b) id) (Mongo.docs (bookings s)).

(** The window that an admission request asks for. *)
Definition requestedWindow (body : bookingController.Body) : Window :=
  (bookingController.startTime body,
   bookingController.endOfWindow (bookingController.startTime body)
     (helpers.calculateRideDuration (bookingController.fromPincode body)
                                    (bookingController.toPincode body))).

(** The active bookings of the requested vehicle that overlap the
    requested window. *)
Definition conflictsOf (s : Store) (body : bookingController.Body) : list Booking.t :=
  List.filter
    (conflictsWith (bookingController.vehicleId body)
       (fst (requestedWindow body)) (snd (requestedWindow body)) None)
    (Mongo.docs (bookings s)).

(** The store with one more booking. *)
Definition addBooking (b : Booking.t) (s : Store) : Store :=
  mkStore (vehicles s)
    (Mongo.mkCollection (Mongo.docs (bookings s) ++ [b]) (S (Mongo.nextId (bookings s)))).

(** The store with the first booking of this id replaced. *)
Definition replaceBooking (id : Mongo.ObjectId) (f : Booking.t -> Booking.t) (s : Store) : Store :=
  mkStore (vehicles s)
    (Mongo.mkCollection (Mongo.updateFirst Booking._id id f (Mongo.docs (bookings s)))
                        (Mongo.nextId (bookings s))).

(** The document that an admission writes for [body] and [vehicle]. *)
Definition newDocument (body : bookingController.Body) (vehicle : Vehicle.t) (cost : Q)
    (id : Mongo.ObjectId) : Booking.t :=
  Booking.mk id (bookingController.vehicleId body)
    (JS.trim (bookingController.customerId body))
    (JS.trim (bookingController.fromPincode body))
    (JS.trim (bookingController.toPincode body))
    (fst (requestedWindow body)) (snd (requestedWindow body))
    (helpers.calculateRideDuration (bookingController.fromPincode body)
                                   (bookingController.toPincode body))
    Booking.confirmed cost.

(** Whether the Booking schema accepts, at clock [now], the document of
    an admission: the cost is a number and every validator passes. *)
Definition schemaAccepts (now : Z) (body : bookingController.Body) (vehicle : Vehicle.t) : bool :=
  match Booking.i_totalCost (bookingController.newBooking body vehicle) with
  | Some cost =>
      match Booking.validate now (newDocument body vehicle cost 0%nat) with
      | [] => true
      | _ => false
      end
  | None => false
  end.

(** The window that an availability search asks for. *)
Definition queryWindow (query : vehicleController.Query) : Window :=
  (vehicleController.startTime query,
   vehicleController.startTime query +
   helpers.calculateRideDuration (vehicleController.fromPincode query)
                                 (vehicleController.toPincode query) * 60 * 60 * 1000).

Definition vehicleActive (v : Vehicle.t) : bool :=
  match Vehicle.status v with
  | Vehicle.active => true
  | _ => false
  end.

(** A vehicle that the search considers: active, and with a capacity of
    at least the integer part of the required one. *)
Definition eligible (query : vehicleController.Query) (v : Vehicle.t) : bool :=
  Qle_bool (inject_Z (JS.parseIntNumber (vehicleController.capacityRequired query)))
           (Vehicle.capacityKg v) &&
  vehicleActive v.

(** A vehicle with no conflict in the window. *)
Definition isFree (s : Store) (w : Window) (v : Vehicle.t) : bool :=
  Nat.eqb (length (List.filter (conflictsWith (Vehicle._id v) (fst w) (snd w) None)
                               (Mongo.docs (bookings s)))) 0.

Definition annotate (query : vehicleController.Query) (v : Vehicle.t)
    : vehicleController.Available :=
  vehicleController.mkAvailable v
    (helpers.calculateRideDuration (vehicleController.fromPincode query)
                                   (vehicleController.toPincode query))
    (vehicleController.fromPincode query, vehicleController.toPincode query)
    (queryWindow query).

(** The answer of the availability search. *)
Definition availableIn (s : Store) (query : vehicleController.Query)
    : list vehicleController.Available :=
  map (annotate query)
    (List.filter (isFree s (queryWindow query))
       (Mongo.sortAsc Vehicle.capacityKg
          (List.filter (eligible query) (Mongo.docs (vehicles s))))).

Definition byCapacity (a b : Vehicle.t) : Prop :=
  (Vehicle.capacityKg a <= Vehicle.capacityKg b)%Q.

(** A van of 1500 kg, and a fleet of this van alone. *)
Definition van : Vehicle.t := Vehicle.mk 0%nat "Van" 1500 4 Vehicle.active.

Definition oneVan : Store := mkStore (Mongo.mkCollection [van] 1%nat) Mongo.empty.

(** The store with one more vehicle. *)
Definition addVehicleTo (v : Vehicle.t) (s : Store) : Store :=
  mkStore
    (Mongo.mkCollection (Mongo.docs (vehicles s) ++ [v]) (S (Mongo.nextId (vehicles s))))
    (bookings s).

(** What a handler that adds vehicles may do: write nothing and answer no
    success, or write one vehicle, active, and answer 201 with it. *)
Definition addsActiveOrNothing (run : Response Vehicle.t * Store) (s : Store) : Prop :=
  (snd run = s /\ forall code message v, fst run <> Success code message v) \/
  (exists v,
      fst run = Success 201 "Vehicle added successfully" v /\
      snd run = addVehicleTo v s /\
      Vehicle.status v = Vehicle.active).

(** Coercions that read decimal integers only, for the examples. *)
Definition integersOnly : Json.Coercions :=
  {| Json.joiNumberOfString := fun s => option_map inject_Z (JS.parseInt s);
     Json.castNumberOfString := fun s => option_map inject_Z (JS.parseInt s);
     Json.castStringOfNumber := fun q => pretty (Qfloor q) |}.

(** A request body that asks for a retired vehicle. *)
Definition retiredTruckBody : gmap string Json.value :=
  <["name" := Json.JStr "Test Truck"]>
    (<["capacityKg" := Json.JNum 5000]>
       (<["tyres" := Json.JNum 6]>
          (<["status" := Json.JStr "retired"]> ∅))).

(** ** Stores and requests of the examples *)

Definition truck : Vehicle.t := Vehicle.mk 0%nat "Test Truck" 5000 6 Vehicle.active.

(** A fleet of one active vehicle and no booking. *)
Definition oneTruck : Store := mkStore (Mongo.mkCollection [truck] 1%nat) Mongo.empty.

(** A four-hour request for the truck, starting at [start]. *)
Definition request (customer : string) (start : Z) : bookingController.Body :=
  bookingController.mkBody 0%nat customer "110001" "110005" start.

Definition hour : Z := 3600000.
Definition minute : Z := 60000.

(** The three ways in which an operation changes the list of bookings:
    not at all; by one new booking, valid and free of conflicts, at
    the end; by a new status for the first booking of some id. *)
Inductive Change (s : Store) (op : Op) : list Booking.t -> Prop :=
| Unchanged : Change s op (Mongo.docs (bookings s))
| Appended now body v cost :
    op = CreateBooking now body ->
    conflictsOf s body = [] ->
    Booking.validate now (newDocument body v cost (Mongo.nextId (bookings s))) = [] ->
    Change s op
      (Mongo.docs (bookings s) ++ [newDocument body v cost (Mongo.nextId (bookings s))])
| Restated id st b :
    bookingById s id = Some b ->
    (op = UpdateBookingStatus id (Booking.statusName st) \/
     exists now, op = CancelBooking now id /\ st = Booking.cancelled) ->
    Change s op (Mongo.updateFirst Booking._id id (Booking.setStatus st) (Mongo.docs (bookings s))).

(** A stored booking is well formed: it passes the validators that do
    not depend on the clock, and its window is not empty. *)
Definition wellFormed (b : Booking.t) : Prop :=
  Booking.validateStatic b = [] /\ Booking.startTime b < Booking.endTime b.

(** The body of the first vehicle of the examples. *)
Definition truckBody : gmap string Json.value :=
  <["name" := Json.JStr "Test Truck"]>
    (<["capacityKg" := Json.JNum 5000]>
       (<["tyres" := Json.JNum 6]> ∅)).

(** The truck added, then booked at clock 0 from hour 2 to hour 6. *)
Definition booked : Store :=
  execAll [AddVehicle integersOnly truckBody;
           CreateBooking 0 (request "CUST001" (2 * hour))] emptyStore.

(** The same, with the booking then cancelled at clock 0. *)
Definition bookedAndCancelled : Store :=
  execAll [AddVehicle integersOnly truckBody;
           CreateBooking 0 (request "CUST001" (2 * hour));
           CancelBooking 0 0%nat] emptyStore.

(** The cancelled booking, a second booking of the same window, and the
    first one set back to confirmed by a status update. *)
Definition doubleBooked : Store :=
  execAll [AddVehicle integersOnly truckBody;
           CreateBooking 0 (request "CUST001" (2 * hour));
           CancelBooking 0 0%nat;
           CreateBooking 0 (request "CUST002" (2 * hour));
           UpdateBookingStatus 0%nat "confirmed"] emptyStore.

(** Two calls for the same vehicle and window, from two customers, that
    take turns at each of their three database round trips. *)
Definition racingCalls : list bookingController.Body :=
  [request "CUST001" (2 * hour); request "CUST002" (2 * hour)].

Definition takingTurns : list (nat * Z) :=
  [(0%nat, 0); (1%nat, 0); (0%nat, 0); (1%nat, 0); (0%nat, 0); (1%nat, 0)].

(** The same two calls, the second started after the first has answered. *)
Definition oneAfterTheOther : list (nat * Z) :=
  [(0%nat, 0); (0%nat, 0); (0%nat, 0); (1%nat, 0); (1%nat, 0); (1%nat, 0)].

(** ** More of the code: helpers, virtual fields, and the effect of an operation *)

(** src/utils/helpers.js, the functions on request values. *)
Module helpersValues.

(** [isValidPincode]: a falsy value or one that is not a string is
    refused; a string is tested, trimmed, against [/^\d{6}$/]. *)
Definition isValidPincode (pincode : Json.value) : bool :=
  match pincode with
  | Json.JStr s => if String.eqb s "" then false else JS.sixDigits (JS.trim s)
  | _ => false
  end.

(** One entry of [sanitizeInput]: a string is trimmed, a number goes
    through [Number], anything else is kept. *)
Definition sanitizeValue (value : Json.value) : Json.value :=
  match value with
  | Json.JStr s => Json.JStr (JS.trim s)
  | Json.JNum q => Json.JNum q
  | other => other
  end.

(** The object that [sanitizeInput] builds from [{}]: its own
    properties, and its prototype once an assignment has replaced
    [Object.prototype] ([None] while none has). *)
Record Sanitized := mkSanitized {
  properties : gmap string Json.value;
  prototype : option Json.value
}.

(** [sanitized[key] = value], for a value of a JSON body.  The key
    [__proto__] is the accessor of [Object.prototype]: its setter
    replaces the prototype when the value is an object, an array or
    [null], and does nothing otherwise; in both cases no property is
    created.  Every other key becomes an own property, also under a
    replaced prototype, whose properties, parsed from JSON, are all
    writable. *)
Definition assign (sanitized : Sanitized) (key : string) (value : Json.value) : Sanitized :=
  if String.eqb key "__proto__"
  then
    match value with
    | Json.JNull | Json.JOther => mkSanitized (properties sanitized) (Some value)
    | _ => sanitized
    end
  else mkSanitized (<[key := value]> (properties sanitized)) (prototype sanitized).

(** [sanitizeInput(data)], for the own enumerable properties [data] of
    a JSON body: one assignment for each entry of [Object.entries(data)]. *)
Definition sanitizeInput (data : gmap string Json.value) : Sanitized :=
  map_fold (fun key value sanitized => assign sanitized key (sanitizeValue value))
           (mkSanitized ∅ None) data.

End helpersValues.

(** src/models/Booking.js, the virtual field. *)
Module BookingVirtuals.

(** The getter of [actualDurationHours], on the two dates as the
    document holds them ([None] when a date is not set) and the
    estimated duration. *)
Definition actualDurationHoursOf
    (endTime startTime : option Z) (estimatedRideDurationHours : Z) : Q :=
  match endTime, startTime with
  | Some e, Some s => (inject_Z (e - s) / inject_Z (1000 * 60 * 60))%Q
  | _, _ => inject_Z estimatedRideDurationHours
  end.

(** [booking.actualDurationHours] for a stored booking, whose dates are set. *)
Definition actualDurationHours (b : Booking.t) : Q :=
  actualDurationHoursOf (Some (Booking.endTime b)) (Some (Booking.startTime b))
    (Booking.estimatedRideDurationHours b).

End BookingVirtuals.

(** ** src/controllers/bookingController.js: [getBookingById] *)

Module bookingReads.

(** A booking whose [vehicleId] path is populated with
    [populate('vehicleId', 'name capacityKg tyres status')]: the
    vehicle of this id, with its [_id] and the selected paths, which are
    all the paths of the schema, or [None], for [null], when no vehicle
    has this id. *)
Record Populated := mkPopulated {
  booking : Booking.t;
  vehicle : option Vehicle.t
}.

Definition populate (b : Booking.t) : Handler Populated :=
  await vehicle := onVehicles (Mongo.findById Vehicle._id (Booking.vehicleId b)) in
  ret (mkPopulated b vehicle).

(** [getBookingById]. *)
Definition getBookingById (id : Mongo.ObjectId) : Handler (Response Populated) :=
  await booking := onBookings (Mongo.findById Booking._id id) in
  match booking with
  | None => ret BookingNotFound
  | Some booking =>
      await booking := populate booking in
      ret (Success 200 "Booking details retrieved successfully" booking)
  end.

End bookingReads.

(** The store with the first vehicle of this id replaced. *)
Definition replaceVehicle (id : Mongo.ObjectId) (f : Vehicle.t -> Vehicle.t) (s : Store) : Store :=
  mkStore
    (Mongo.mkCollection (Mongo.updateFirst Vehicle._id id f (Mongo.docs (vehicles s)))
                        (Mongo.nextId (vehicles s)))
    (bookings s).

(** The bounds that the request validator and the schema put on a vehicle. *)
Definition vehicleInBounds (v : Vehicle.t) : Prop :=
  JS.trim (Vehicle.name v) = Vehicle.name v /\
  (2 <= String.length (Vehicle.name v) <= 100)%nat /\
  (1 <= Vehicle.capacityKg v <= 50000)%Q /\
  (2 <= Vehicle.tyres v <= 18)%Q /\
  (Vehicle.tyres v == inject_Z (Qfloor (Vehicle.tyres v)))%Q.

(** What the schema and the controller guarantee of a stored booking. *)
Definition bookingInBounds (b : Booking.t) : Prop :=
  Booking.customerId b <> "" /\
  (String.length (Booking.customerId b) <= 50)%nat /\
  JS.sixDigits (Booking.fromPincode b) = true /\
  JS.sixDigits (Booking.toPincode b) = true /\
  1 <= Booking.estimatedRideDurationHours b <= 23 /\
  Booking.endTime b
  = Booking.startTime b + Booking.estimatedRideDurationHours b * 3600000 /\
  (0 <= Booking.totalCost b)%Q.

(** The ids of a collection are distinct and below the next fresh id. *)
Definition idsFresh {D : Type} (idOf : D -> Mongo.ObjectId) (c : Mongo.Collection D) : Prop :=
  NoDup (map idOf (Mongo.docs c)) /\
  Forall (fun d => (idOf d < Mongo.nextId c)%nat) (Mongo.docs c).

(** The invariant of the store. *)
Definition consistent (s : Store) : Prop :=
  idsFresh Vehicle._id (vehicles s) /\
  idsFresh Booking._id (bookings s) /\
  Forall vehicleInBounds (Mongo.docs (vehicles s)) /\
  Forall bookingInBounds (Mongo.docs (bookings s)) /\
  Forall (fun b => exists v, vehicleById s (Booking.vehicleId b) = Some v)
         (Mongo.docs (bookings s)).

(** The effect of one operation on the store: none; one booking
    admitted; the status of the first booking of an id set; one vehicle
    added; the status of the first vehicle of an id set. *)
Inductive Effect (s : Store) (op : Op) : Store -> Prop :=
| NoEffect : Effect s op s
| BookingAdded now body v cost :
    op = CreateBooking now body ->
    vehicleById s (bookingController.vehicleId body) = Some v ->
    Vehicle.status v = Vehicle.active ->
    conflictsOf s body = [] ->
    Booking.i_totalCost (bookingController.newBooking body v) = Some cost ->
    Booking.validate now (newDocument body v cost (Mongo.nextId (bookings s))) = [] ->
    Effect s op (addBooking (newDocument body v cost (Mongo.nextId (bookings s))) s)
| BookingStatusSet id st b :
    bookingById s id = Some b ->
    (op = UpdateBookingStatus id (Booking.statusName st) \/
     exists now,
       op = CancelBooking now id /\ st = Booking.cancelled /\
       Booking.status b = Booking.confirmed /\ hour <= Booking.startTime b - now) ->
    Effect s op (replaceBooking id (Booking.setStatus st) s)
| VehicleAdded co body v :
    op = AddVehicle co body ->
    Vehicle._id v = Mongo.nextId (vehicles s) ->
    Vehicle.status v = Vehicle.active ->
    vehicleInBounds v ->
    Effect s op (addVehicleTo v s)
| VehicleStatusSet id st v :
    op = UpdateVehicleStatus id (Vehicle.statusName st) ->
    vehicleById s id = Some v ->
    Effect s op (replaceVehicle id (Vehicle.setStatus st) s).


(** The truck booked at clock 0 by two customers, from hour 2 to hour 6
    and from hour 6 to hour 10. *)
Definition twiceBooked : Store :=
  execAll [AddVehicle integersOnly truckBody;
           CreateBooking 0 (request "CUST001" (2 * hour));
           CreateBooking 0 (request "CUST002" (6 * hour))] emptyStore.

(** Two trucks, the first of them booked at clock 0 from hour 2 to hour 6. *)
Definition twoTrucksOneBooked : Store :=
  execAll [AddVehicle integersOnly truckBody;
           AddVehicle integersOnly truckBody;
           CreateBooking 0 (request "CUST001" (2 * hour))] emptyStore.

(** A numeral of [n] zeros after a one: [10^n]. *)
Definition zeros (n : nat) : string := String.concat "" (List.repeat "0" n).

Definition tenToThe (n : nat) : string := String "1" (zeros n).

(** * Proofs *)

(** ** The tests of the repository on [calculateRideDuration] *)

Example parseInt_110001 : JS.parseInt "110001" = Some 110001.
Proof. reflexivity. Qed.

Example duration_test_1 : helpers.calculateRideDuration "110001" "110005" = 4.
Proof. reflexivity. Qed.

Example duration_test_2 : helpers.calculateRideDuration "400001" "400010" = 9.
Proof. reflexivity. Qed.

Example duration_test_3 : helpers.calculateRideDuration "110001" "110001" = 1.
Proof. reflexivity. Qed.

Example duration_test_4 : helpers.calculateRideDuration "invalid" "123456" = 2.
Proof. reflexivity. Qed.

(** ** Duration estimator *)

Section Duration.
Import helpers.

Lemma duration_parsed (fromCode toCode : string) (f t : Z) :
  JS.parseInt fromCode = Some f -> JS.parseInt toCode = Some t ->
  calculateRideDuration fromCode toCode = Z.max 1 (Z.abs (f - t) mod 24).
Proof.
  intros Hf Ht. unfold calculateRideDuration, calculateRideDuration_try.
  rewrite Hf, Ht. rewrite Z.rem_mod_nonneg by lia. lia.
Qed.

Lemma duration_fallback (fromCode toCode : string) :
  JS.parseInt fromCode = None \/ JS.parseInt toCode = None ->
  calculateRideDuration fromCode toCode = 2.
Proof.
  unfold calculateRideDuration, calculateRideDuration_try.
  intros [H | H]; rewrite H; [reflexivity |].
  destruct (JS.parseInt fromCode); reflexivity.
Qed.

Lemma duration_range (fromCode toCode : string) :
  1 <= calculateRideDuration fromCode toCode <= 23.
Proof.
  destruct (JS.parseInt fromCode) as [f |] eqn:Hf;
    destruct (JS.parseInt toCode) as [t |] eqn:Ht;
    try (rewrite duration_fallback by auto; lia).
  rewrite (duration_parsed _ _ f t) by assumption.
  pose proof (Z.mod_pos_bound (Z.abs (f - t)) 24 ltac:(lia)). lia.
Qed.

End Duration.

(** ** Interval model *)

Section Intervals.
Import Booking.

Lemma overlapsWithTimeWindow_iff (b : t) (startA endA : Z) :
  overlapsWithTimeWindow b startA endA = true <-> overlap (startA, endA) (window b).
Proof.
  unfold overlapsWithTimeWindow, overlap, window. simpl.
  rewrite andb_true_iff, Z.ltb_lt, Z.gtb_gt. lia.
Qed.

Lemma overlap_disjoint (a b : Window) : ~ overlap a b -> disjoint a b.
Proof.
  unfold overlap, disjoint, inWindow. intros H t. lia.
Qed.

Lemma disjoint_not_overlap (a b : Window) :
  fst a < snd a -> fst b < snd b -> disjoint a b -> ~ overlap a b.
Proof.
  unfold overlap, disjoint, inWindow. intros Ha Hb H [H1 H2].
  apply (H (Z.max (fst a) (fst b))). lia.
Qed.

(** The window condition of the query of [findOverlappingBookings] is
    the instance method [overlapsWithTimeWindow]. *)
Lemma window_clause (b : t) (startA endA : Z) :
  Mongo.matchesClause get
    [(FstartTime, Mongo.Lt (Mongo.VDate endA)); (FendTime, Mongo.Gt (Mongo.VDate startA))] b
  = overlapsWithTimeWindow b startA endA.
Proof.
  unfold Mongo.matchesClause, overlapsWithTimeWindow. simpl.
  rewrite andb_true_r, Z.gtb_ltb.
  destruct (startTime b <? endA), (startA <? endTime b); reflexivity.
Qed.

(** C5. The overlap test of the code, for a proposed window
    [[startA, endA)] and a booking with window [[startB, endB)], holds
    exactly when [startA < endB] and [startB < endA]; it is symmetric; a
    window (one with [start < end], as is every window that an admission
    request asks for) overlaps its own copy; and back-to-back windows,
    [endA = startB], do not overlap. *)
Theorem overlap_predicate_spec :
  (forall (b : t) (startA endA : Z),
      overlapsWithTimeWindow b startA endA = true <->
      startA < endTime b /\ startTime b < endA) /\
  (forall a b : t,
      overlapsWithTimeWindow b (startTime a) (endTime a) =
      overlapsWithTimeWindow a (startTime b) (endTime b)) /\
  (forall b : t,
      startTime b < endTime b ->
      overlapsWithTimeWindow b (startTime b) (endTime b) = true) /\
  (forall (b : t) (body : bookingController.Body),
      window b = requestedWindow body ->
      overlapsWithTimeWindow b (startTime b) (endTime b) = true) /\
  (forall a b : t,
      endTime a = startTime b ->
      overlapsWithTimeWindow b (startTime a) (endTime a) = false /\
      overlapsWithTimeWindow a (startTime b) (endTime b) = false).
Proof.
  split; [| split; [| split; [| split]]].
  - intros b startA endA. apply overlapsWithTimeWindow_iff.
  - intros a b. unfold overlapsWithTimeWindow. rewrite !Z.gtb_ltb. apply andb_comm.
  - intros b H. apply overlapsWithTimeWindow_iff. split; exact H.
  - intros b body H. apply overlapsWithTimeWindow_iff.
    assert (Hb : startTime b < endTime b).
    { unfold window, requestedWindow in H. injection H as -> ->.
      unfold bookingController.endOfWindow.
      pose proof (duration_range (bookingController.fromPincode body)
                                 (bookingController.toPincode body)). lia. }
    split; exact Hb.
  - intros a b H. unfold overlapsWithTimeWindow. rewrite !Z.gtb_ltb, H.
    rewrite Z.ltb_irrefl, andb_false_r. split; reflexivity.
Qed.

Lemma overlap_predicate_spec_witness :
  overlapsWithTimeWindow (hours 2 6) (startTime (hours 4 8)) (endTime (hours 4 8)) = true /\
  overlapsWithTimeWindow (hours 2 6) (startTime (hours 2 6)) (endTime (hours 2 6)) = true /\
  overlapsWithTimeWindow (hours 6 10) (startTime (hours 2 6)) (endTime (hours 2 6)) = false.
Proof.
  destruct overlap_predicate_spec as (Hiff & _ & Hself & _ & Hadj).
  split; [| split].
  - apply Hiff. simpl. lia.
  - apply Hself. simpl. lia.
  - apply (Hadj (hours 2 6) (hours 6 10)). reflexivity.
Defined.

End Intervals.

(** ** Conflict checker *)

Section ConflictChecker.
Import Booking.

Lemma isActive_statusName (b : t) :
  existsb (Mongo.valueEqb (Mongo.VStr (statusName (status b))))
          [Mongo.VStr "confirmed"; Mongo.VStr "in-progress"] = isActive b.
Proof. unfold isActive. destruct (status b); reflexivity. Qed.

Lemma matches_overlappingQuery vehicleId' startTime' endTime' excludeBookingId (b : t) :
  Mongo.matches get (overlappingQuery vehicleId' startTime' endTime' excludeBookingId) b
  = conflictsWith vehicleId' startTime' endTime' excludeBookingId b.
Proof.
  unfold Mongo.matches, conflictsWith, overlappingQuery.
  destruct excludeBookingId as [id |]; cbn [Mongo.where_ Mongo.or_ existsb app];
    rewrite window_clause, orb_false_r;
    unfold Mongo.matchesClause; cbn [forallb fst snd get Mongo.holds];
    rewrite isActive_statusName; cbn [Mongo.valueEqb];
    rewrite ?andb_true_r;
    destruct (vehicleId b =? vehicleId')%nat, (isActive b),
      (overlapsWithTimeWindow b startTime' endTime'); try reflexivity;
    cbn [andb]; rewrite ?andb_true_r, ?andb_false_r; reflexivity.
Qed.

Lemma findOverlappingBookings_filter vehicleId' startTime' endTime' excludeBookingId c :
  findOverlappingBookings vehicleId' startTime' endTime' excludeBookingId c
  = (List.filter (conflictsWith vehicleId' startTime' endTime' excludeBookingId) (Mongo.docs c), c).
Proof.
  unfold findOverlappingBookings, Mongo.find. f_equal.
  apply List.filter_ext. intros b. apply matches_overlappingQuery.
Qed.

Lemma isActive_iff (b : t) :
  isActive b = true <-> status b = confirmed \/ status b = in_progress.
Proof.
  unfold isActive. destruct (status b); split; intros H; try discriminate; auto;
    destruct H; discriminate.
Qed.

Lemma conflictsWith_iff vehicleId' startTime' endTime' excludeBookingId (b : t) :
  conflictsWith vehicleId' startTime' endTime' excludeBookingId b = true <->
  vehicleId b = vehicleId' /\
  (status b = confirmed \/ status b = in_progress) /\
  overlap (startTime', endTime') (window b) /\
  (forall id, excludeBookingId = Some id -> _id b <> id).
Proof.
  unfold conflictsWith.
  rewrite !andb_true_iff, Nat.eqb_eq, isActive_iff, overlapsWithTimeWindow_iff.
  destruct excludeBookingId as [id |].
  - rewrite negb_true_iff, Nat.eqb_neq. split.
    + intros [[[H1 H2] H3] H4].
      split; [exact H1 | split; [exact H2 | split; [exact H3 |]]].
      intros id' [= <-]. exact H4.
    + intros (H1 & H2 & H3 & H4). auto.
  - split.
    + intros [[[H1 H2] H3] _].
      split; [exact H1 | split; [exact H2 | split; [exact H3 |]]]. discriminate.
    + intros (H1 & H2 & H3 & _). auto.
Qed.

(** C4. [findOverlappingBookings] returns exactly the bookings of the
    vehicle that are confirmed or in progress and whose window
    overlaps the proposed one, without the excluded booking when one is
    given; completed and cancelled bookings never appear; and the
    call leaves the store as it was. *)
Theorem findOverlappingBookings_spec
    (s : Store) (vehicleId' : Mongo.ObjectId) (startTime' endTime' : Z)
    (excludeBookingId : option Mongo.ObjectId) :
  let result :=
    fst (onBookings (findOverlappingBookings vehicleId' startTime' endTime' excludeBookingId) s) in
  snd (onBookings (findOverlappingBookings vehicleId' startTime' endTime' excludeBookingId) s) = s /\
  result = List.filter (conflictsWith vehicleId' startTime' endTime' excludeBookingId)
                       (Mongo.docs (bookings s)) /\
  (forall b, In b result <->
             In b (Mongo.docs (bookings s)) /\
             vehicleId b = vehicleId' /\
             (status b = confirmed \/ status b = in_progress) /\
             overlap (startTime', endTime') (window b) /\
             (forall id, excludeBookingId = Some id -> _id b <> id)) /\
  (forall b, In b result -> status b <> completed /\ status b <> cancelled).
Proof.
  unfold onBookings. rewrite findOverlappingBookings_filter. cbn [fst snd].
  split; [destruct s; reflexivity |]. split; [reflexivity |]. split.
  - intros b. rewrite List.filter_In, conflictsWith_iff. reflexivity.
  - intros b Hb. apply List.filter_In in Hb. destruct Hb as [_ Hb].
    apply conflictsWith_iff in Hb. destruct Hb as (_ & [H | H] & _); rewrite H; split; discriminate.
Qed.

Lemma findOverlappingBookings_spec_witness :
  In (hours 2 6)
     (fst (onBookings (findOverlappingBookings 0%nat (4 * 3600000) (8 * 3600000) None)
             (mkStore Mongo.empty (Mongo.mkCollection [hours 2 6] 1%nat)))) /\
  status (hours 2 6) <> cancelled.
Proof.
  pose proof (findOverlappingBookings_spec
                (mkStore Mongo.empty (Mongo.mkCollection [hours 2 6] 1%nat))
                0%nat (4 * 3600000) (8 * 3600000) None) as (_ & _ & Hin & Hno).
  assert (H : In (hours 2 6)
     (fst (onBookings (findOverlappingBookings 0%nat (4 * 3600000) (8 * 3600000) None)
             (mkStore Mongo.empty (Mongo.mkCollection [hours 2 6] 1%nat))))).
  { apply Hin. split; [left; reflexivity |]. split; [reflexivity |].
    split; [left; reflexivity |]. split; [| discriminate].
    unfold overlap. simpl. lia. }
  split; [exact H | apply (Hno _ H)].
Defined.

End ConflictChecker.

(** ** Admission *)

Section Admission.
Import bookingController.

Lemma vehicle_active_eqb (st : Vehicle.Status) :
  String.eqb (Vehicle.statusName st) "active" = true <-> st = Vehicle.active.
Proof. destruct st; simpl; split; intros H; try discriminate; reflexivity. Qed.

Lemma store_eta (s : Store) : mkStore (vehicles s) (bookings s) = s.
Proof. destruct s; reflexivity. Qed.

(** [createBooking] as one case analysis on the store. *)
Lemma createBooking_eq (now : Z) (body : Body) (s : Store) :
  createBooking now body s =
  match vehicleById s (vehicleId body) with
  | None => (VehicleNotFound, s)
  | Some v =>
      if negb (String.eqb (Vehicle.statusName (Vehicle.status v)) "active")
      then (NotAvailable, s)
      else
        match conflictsOf s body with
        | [] =>
            match Booking.i_totalCost (newBooking body v) with
            | Some cost =>
                if schemaAccepts now body v
                then (Success 201 "Booking created successfully"
                        (newDocument body v cost (Mongo.nextId (bookings s))),
                      addBooking (newDocument body v cost (Mongo.nextId (bookings s))) s)
                else (Next (Mongo.ValidationError
                              (Booking.validate now (newDocument body v cost 0%nat))), s)
            | None => (Next (Mongo.CastError "totalCost"), s)
            end
        | b :: l => (Conflict (length (b :: l)), s)
        end
  end.
Proof.
  unfold createBooking, bind, onVehicles, Mongo.findById, vehicleById, ret.
  destruct (List.find _ (Mongo.docs (vehicles s))) as [v |]; rewrite store_eta;
    [| reflexivity].
  destruct (negb _); [reflexivity |].
  unfold onBookings at 1. rewrite findOverlappingBookings_filter.
  fold (requestedWindow body). unfold conflictsOf. cbn [fst snd requestedWindow].
  rewrite store_eta.
  destruct (List.filter _ _) as [| b l]; [| reflexivity].
  cbn [length Nat.ltb Nat.leb].
  unfold onBookings, Booking.create, schemaAccepts.
  destruct (Booking.i_totalCost (newBooking body v)) as [cost |] eqn:Hcost;
    [| rewrite store_eta; reflexivity].
  change (Booking.mk (Mongo.nextId (bookings s)) _ _ _ _ _ _ _ _ _)
    with (newDocument body v cost (Mongo.nextId (bookings s))).
  change (Booking.validate now (newDocument body v cost (Mongo.nextId (bookings s))))
    with (Booking.validate now (newDocument body v cost 0%nat)).
  destruct (Booking.validate now (newDocument body v cost 0%nat)) as [| e errors];
    [| rewrite store_eta; reflexivity].
  reflexivity.
Qed.






Lemma createBooking_commit now body s v :
  vehicleById s (vehicleId body) = Some v ->
  Vehicle.status v = Vehicle.active ->
  conflictsOf s body = [] ->
  if schemaAccepts now body v
  then exists b,
         createBooking now body s
         = (Success 201 "Booking created successfully" b, addBooking b s) /\
         Booking._id b = Mongo.nextId (bookings s) /\
         Booking.status b = Booking.confirmed /\
         Booking.vehicleId b = vehicleId body /\
         window b = requestedWindow body /\
         Booking.validate now b = []
  else exists e, createBooking now body s = (Next e, s).
Proof.
  intros Hv Hst Hc. rewrite createBooking_eq, Hv, Hc.
  apply vehicle_active_eqb in Hst. rewrite Hst. cbn [negb].
  unfold schemaAccepts.
  destruct (Booking.i_totalCost (newBooking body v)) as [cost |]; [| eauto].
  destruct (Booking.validate now (newDocument body v cost 0%nat)) eqn:Hval; [| eauto].
  exists (newDocument body v cost (Mongo.nextId (bookings s))).
  repeat split. exact Hval.
Qed.




End Admission.

(** ** Status updates and cancellation *)

Section Lifecycle.
Import bookingController.

Lemma booking_confirmed_eqb (st : Booking.Status) :
  String.eqb (Booking.statusName st) "confirmed" = true <-> st = Booking.confirmed.
Proof. destruct st; simpl; split; intros H; try discriminate; reflexivity. Qed.

Lemma statusOfName_valid (status : string) :
  existsb (String.eqb status) ["confirmed"; "in-progress"; "completed"; "cancelled"]
  = match Booking.statusOfName status with Some _ => true | None => false end.
Proof.
  unfold Booking.statusOfName. cbn [existsb].
  destruct (String.eqb status "confirmed"); [reflexivity |].
  destruct (String.eqb status "in-progress"); [reflexivity |].
  destruct (String.eqb status "completed"); [reflexivity |].
  destruct (String.eqb status "cancelled"); reflexivity.
Qed.

Lemma statusOfName_name (st : Booking.Status) :
  Booking.statusOfName (Booking.statusName st) = Some st.
Proof. destruct st; reflexivity. Qed.

Lemma statusOfName_inv (status : string) (st : Booking.Status) :
  Booking.statusOfName status = Some st -> status = Booking.statusName st.
Proof.
  unfold Booking.statusOfName.
  destruct (String.eqb_spec status "confirmed"); [intros H; injection H as <-; assumption |].
  destruct (String.eqb_spec status "in-progress"); [intros H; injection H as <-; assumption |].
  destruct (String.eqb_spec status "completed"); [intros H; injection H as <-; assumption |].
  destruct (String.eqb_spec status "cancelled"); [intros H; injection H as <-; assumption |].
  discriminate.
Qed.

(** [updateBookingStatus] as one case analysis on the store. *)
Lemma updateBookingStatus_eq (id : Mongo.ObjectId) (status : string) (s : Store) :
  updateBookingStatus id status s =
  match Booking.statusOfName status with
  | None =>
      (Failure 400
         "Invalid status. Must be one of: confirmed, in-progress, completed, cancelled"
         None, s)
  | Some st =>
      match bookingById s id with
      | Some b =>
          (Success 200 ("Booking status updated to " ++ status)%string (Booking.setStatus st b),
           replaceBooking id (Booking.setStatus st) s)
      | None => (BookingNotFound, s)
      end
  end.
Proof.
  unfold updateBookingStatus. rewrite statusOfName_valid.
  destruct (Booking.statusOfName status) as [st |]; cbn [negb]; [| reflexivity].
  unfold bind, onBookings, Mongo.findByIdAndUpdate, bookingById, replaceBooking, ret.
  destruct (List.find _ (Mongo.docs (bookings s))); [reflexivity |].
  rewrite store_eta. reflexivity.
Qed.

Lemma hoursUntilStart_lt (x : Z) :
  Qle_bool 1 (inject_Z x / inject_Z (1000 * 60 * 60)) = (hour <=? x).
Proof.
  unfold hour. destruct (Z.leb_spec 3600000 x) as [H | H].
  - apply Qle_bool_iff. unfold Qle, Qdiv, Qmult, Qinv, inject_Z. simpl. lia.
  - destruct (Qle_bool _ _) eqn:E; [| reflexivity].
    apply Qle_bool_iff in E. unfold Qle, Qdiv, Qmult, Qinv, inject_Z in E.
    simpl in E. lia.
Qed.

Lemma updateFirst_found {D : Type} (idOf : D -> Mongo.ObjectId) (id : Mongo.ObjectId)
    (f : D -> D) (l : list D) (d : D) :
  List.find (fun x => Nat.eqb (idOf x) id) l = Some d ->
  Mongo.updateFirst idOf id (fun _ => f d) l = Mongo.updateFirst idOf id f l.
Proof.
  induction l as [| x l IH]; simpl; [discriminate |].
  destruct (Nat.eqb (idOf x) id).
  - intros [= ->]. reflexivity.
  - intros H. rewrite IH by exact H. reflexivity.
Qed.

Lemma find_id {D : Type} (idOf : D -> Mongo.ObjectId) (id : Mongo.ObjectId)
    (l : list D) (d : D) :
  List.find (fun x => Nat.eqb (idOf x) id) l = Some d -> idOf d = id /\ In d l.
Proof.
  intros H. apply List.find_some in H. destruct H as [Hin H].
  apply Nat.eqb_eq in H. auto.
Qed.

Lemma validate_nil (now : Z) (b : Booking.t) :
  Booking.validate now b = [] <->
  Booking.validateStatic b = [] /\ now < Booking.startTime b.
Proof.
  unfold Booking.validate, Booking.validateStatic, Booking.validateStartTime.
  rewrite Z.gtb_ltb.
  destruct (Z.ltb_spec now (Booking.startTime b)) as [H | H].
  - cbv iota. cbn [app]. split; [intros ->; auto | intros [-> _]; reflexivity].
  - cbv iota. split.
    + intros E. do 3 (apply app_eq_nil in E; destruct E as [_ E]).
      apply app_eq_nil in E. destruct E as [E _]. discriminate E.
    + intros [_ H']. lia.
Qed.

Lemma validateStatic_setStatus (st : Booking.Status) (b : Booking.t) :
  Booking.validateStatic (Booking.setStatus st b) = Booking.validateStatic b.
Proof. reflexivity. Qed.

(** [cancelBooking] as one case analysis on the store. *)
Lemma cancelBooking_eq (now : Z) (id : Mongo.ObjectId) (s : Store) :
  cancelBooking now id s =
  match bookingById s id with
  | None => (BookingNotFound, s)
  | Some b =>
      if negb (String.eqb (Booking.statusName (Booking.status b)) "confirmed")
      then (InvalidState, s)
      else if negb (hour <=? Booking.startTime b - now)
      then (TooLate, s)
      else
        match Booking.validate now (Booking.setStatus Booking.cancelled b) with
        | [] =>
            (Success 200 "Booking cancelled successfully"
               (Booking.setStatus Booking.cancelled b),
             replaceBooking id (Booking.setStatus Booking.cancelled) s)
        | errors => (Next (Mongo.ValidationError errors), s)
        end
  end.
Proof.
  unfold cancelBooking, bind, onBookings at 1, Mongo.findById, bookingById, ret.
  destruct (List.find _ (Mongo.docs (bookings s))) as [b |] eqn:Hfind; rewrite store_eta;
    [| reflexivity].
  destruct (negb (String.eqb _ _)); [reflexivity |].
  rewrite hoursUntilStart_lt.
  destruct (negb (hour <=? _)); [reflexivity |].
  unfold onBookings, Booking.save.
  destruct (Booking.validate now (Booking.setStatus Booking.cancelled b)) as [| e errors];
    [| rewrite store_eta; reflexivity].
  unfold Mongo.replace, replaceBooking. cbn [Booking.setStatus Booking._id].
  pose proof (find_id _ _ _ _ Hfind) as [Hid _]. rewrite Hid.
  rewrite (updateFirst_found Booking._id id (Booking.setStatus Booking.cancelled) _ b Hfind).
  reflexivity.
Qed.

End Lifecycle.

(** ** Availability selector *)

Section Availability.
Import vehicleController.

Lemma insertAsc_In {D : Type} (key : D -> Q) (d x : D) (l : list D) :
  In x (Mongo.insertAsc key d l) <-> x = d \/ In x l.
Proof.
  induction l as [| y l IH]; simpl.
  - intuition.
  - destruct (Qle_bool (key d) (key y)); simpl; rewrite ?IH; intuition.
Qed.

Lemma sortAsc_In {D : Type} (key : D -> Q) (x : D) (l : list D) :
  In x (Mongo.sortAsc key l) <-> In x l.
Proof.
  induction l as [| y l IH]; simpl; [reflexivity |].
  rewrite insertAsc_In, IH. intuition.
Qed.

Lemma Qle_bool_false (a b : Q) : Qle_bool a b = false -> (b <= a)%Q.
Proof.
  intros H. destruct (Qlt_le_dec a b) as [Hlt | Hle]; [| exact Hle].
  apply Qlt_le_weak in Hlt. apply Qle_bool_iff in Hlt. congruence.
Qed.

Lemma insertAsc_sorted {D : Type} (key : D -> Q) (d : D) (l : list D) :
  StronglySorted (fun a b => (key a <= key b)%Q) l ->
  StronglySorted (fun a b => (key a <= key b)%Q) (Mongo.insertAsc key d l).
Proof.
  induction 1 as [| y l Hs IH Hall]; simpl.
  - constructor; constructor.
  - destruct (Qle_bool (key d) (key y)) eqn:E.
    + apply Qle_bool_iff in E. constructor; [constructor; assumption |].
      constructor; [exact E |].
      rewrite List.Forall_forall in *. intros z Hz.
      eapply Qle_trans; [exact E | apply Hall, Hz].
    + apply Qle_bool_false in E. constructor; [exact IH |].
      apply List.Forall_forall. intros z Hz. apply insertAsc_In in Hz.
      destruct Hz as [-> | Hz]; [exact E |].
      rewrite List.Forall_forall in Hall. apply Hall. exact Hz.
Qed.

Lemma sortAsc_sorted {D : Type} (key : D -> Q) (l : list D) :
  StronglySorted (fun a b => (key a <= key b)%Q) (Mongo.sortAsc key l).
Proof.
  induction l as [| d l IH]; simpl; [constructor | apply insertAsc_sorted; exact IH].
Qed.


Lemma matches_eligible (query : Query) (v : Vehicle.t) :
  Mongo.matches Vehicle.get
    (Mongo.mkQuery
       [(Vehicle.FcapacityKg,
         Mongo.Gte (Mongo.VNum (inject_Z (JS.parseIntNumber (capacityRequired query)))));
        (Vehicle.Fstatus, Mongo.Eq (Mongo.VStr "active"))] None) v
  = eligible query v.
Proof.
  unfold Mongo.matches, Mongo.matchesClause, eligible, vehicleActive.
  cbn [Mongo.where_ Mongo.or_ forallb fst snd Vehicle.get Mongo.holds Mongo.valueLeb
       Mongo.valueEqb].
  rewrite !andb_true_r. f_equal. destruct (Vehicle.status v); reflexivity.
Qed.

Lemma forEach_available (query : Query) (s : Store) (vs : list Vehicle.t)
    (acc : list Available) :
  forEach vs
    (fun vehicle availableVehicles =>
       await overlappingBookings :=
         onBookings (Booking.findOverlappingBookings (Vehicle._id vehicle)
                       (fst (queryWindow query)) (snd (queryWindow query)) None) in
       if (length overlappingBookings =? 0)%nat
       then ret (availableVehicles ++ [annotate query vehicle])
       else ret availableVehicles)
    acc s
  = (acc ++ map (annotate query) (List.filter (isFree s (queryWindow query)) vs), s).
Proof.
  revert acc. induction vs as [| v vs IH]; intros acc.
  - simpl. unfold ret. rewrite app_nil_r. reflexivity.
  - cbn [forEach List.filter]. unfold bind at 1. unfold bind at 1.
    unfold onBookings. rewrite findOverlappingBookings_filter, store_eta.
    fold (isFree s (queryWindow query) v).
    destruct (isFree s (queryWindow query) v); unfold ret at 1; rewrite IH.
    + cbn [map]. rewrite <- app_assoc. reflexivity.
    + reflexivity.
Qed.

(** [findAvailableVehicles] in one equation. *)
Lemma findAvailableVehicles_eq (query : Query) (s : Store) :
  exists message,
    findAvailableVehicles query s = (Success 200 message (availableIn s query), s).
Proof.
  unfold findAvailableVehicles, availableIn. cbv zeta.
  unfold bind at 1. unfold onVehicles, Mongo.find. cbn [fst snd]. rewrite store_eta.
  rewrite (List.filter_ext _ _ (matches_eligible query)).
  destruct (Mongo.sortAsc Vehicle.capacityKg _) as [| v vs] eqn:Hsort.
  - cbn. eexists. reflexivity.
  - cbn [length Nat.eqb]. unfold bind at 1.
    pose proof (forEach_available query s (v :: vs) []) as H.
    unfold annotate, queryWindow in H. cbn [fst snd] in H.
    unfold annotate, queryWindow. cbv zeta. rewrite H. cbn [app].
    unfold ret. eexists. reflexivity.
Qed.


Lemma vehicleActive_iff (v : Vehicle.t) :
  vehicleActive v = true <-> Vehicle.status v = Vehicle.active.
Proof.
  unfold vehicleActive. destruct (Vehicle.status v); split; intros H;
    try discriminate; reflexivity.
Qed.




(** C6 on the code: for a required capacity with a fraction, which the
    request validator admits, [parseInt] drops the fraction, so that a
    van of 1500 kg is offered to a request for 1500.7 kg, against the
    claim that only vehicles with [capacityKg >= capacityRequired] are
    returned.  The methods of the model that do the same selection,
    [findByMinCapacity] and [canHandleCapacity], compare with the
    requirement itself and do not select the van. *)
Theorem findAvailableVehicles_drops_fraction :
  (1 <= 15007 # 10 <= 50000)%Q /\
  fst (findAvailableVehicles (mkQuery (15007 # 10) "110001" "110005" (2 * hour)) oneVan)
  = Success 200 "Found 1 available vehicles"
      [annotate (mkQuery (15007 # 10) "110001" "110005" (2 * hour)) van] /\
  Vehicle.status van = Vehicle.active /\
  ~ (15007 # 10 <= Vehicle.capacityKg van)%Q /\
  fst (Vehicle.findByMinCapacity (15007 # 10) (vehicles oneVan)) = [] /\
  Vehicle.canHandleCapacity van (15007 # 10) = false.
Proof.
  split; [split; unfold Qle; simpl; lia |].
  split; [vm_compute; reflexivity |].
  split; [reflexivity |].
  split; [unfold Qle; simpl; lia |].
  split; reflexivity.
Qed.



End Availability.

(** ** Adding a vehicle *)

Section AddVehicle.
Import vehicleController.

Lemma pick_status (body : gmap string Json.value) :
  pick ["name"; "capacityKg"; "tyres"] body !! "status" = None.
Proof.
  unfold pick. cbn [foldr].
  destruct (body !! "name"), (body !! "capacityKg"), (body !! "tyres");
    rewrite ?lookup_insert_ne by discriminate; apply lookup_empty.
Qed.

Lemma build_default_status (co : Json.Coercions) (obj : gmap string Json.value)
    (mkDoc : Mongo.ObjectId -> Vehicle.t) :
  obj !! "status" = None ->
  Vehicle.build co obj = inr mkDoc ->
  forall id, Vehicle.status (mkDoc id) = Vehicle.active.
Proof.
  intros Hst. unfold Vehicle.build. rewrite Hst. cbn [Vehicle.orElse Vehicle.castString].
  destruct (Vehicle.castString co (Vehicle.orElse Json.JNull (obj !! "name")))
    as [e | n]; [discriminate |].
  destruct (Vehicle.castNumber co (Vehicle.orElse Json.JNull (obj !! "capacityKg")))
    as [e | c];
    [destruct (Vehicle.castNumber co (Vehicle.orElse Json.JNull (obj !! "tyres")));
     discriminate |].
  destruct (Vehicle.castNumber co (Vehicle.orElse Json.JNull (obj !! "tyres")))
    as [e | ty]; [discriminate |].
  cbn [Vehicle.statusPath].
  destruct (_ ++ _)%list; [| discriminate].
  destruct (option_map JS.trim n); [| discriminate].
  destruct c; [| discriminate]. destruct ty; [| discriminate].
  intros [= <-] id. reflexivity.
Qed.

Lemma addVehicle_eq (co : Json.Coercions) (body : gmap string Json.value) (s : Store) :
  addVehicle co body s =
  match Vehicle.build co (pick ["name"; "capacityKg"; "tyres"] body) with
  | inr mkDoc =>
      (Success 201 "Vehicle added successfully" (mkDoc (Mongo.nextId (vehicles s))),
       addVehicleTo (mkDoc (Mongo.nextId (vehicles s))) s)
  | inl e => (Next e, s)
  end.
Proof.
  unfold addVehicle, bind, onVehicles, Vehicle.create, ret.
  destruct (Vehicle.build co _) as [e | mkDoc]; [rewrite store_eta |]; reflexivity.
Qed.

Lemma addVehicle_active (co : Json.Coercions) (body : gmap string Json.value) (s : Store) :
  addsActiveOrNothing (addVehicle co body s) s.
Proof.
  unfold addsActiveOrNothing. rewrite addVehicle_eq.
  destruct (Vehicle.build co _) as [e | mkDoc] eqn:Hbuild; cbn [fst snd].
  - left. split; [reflexivity | discriminate].
  - right. eexists. split; [reflexivity |]. split; [reflexivity |].
    apply (build_default_status co _ mkDoc (pick_status body) Hbuild).
Qed.

Lemma postVehicle_active (co : Json.Coercions) (body : gmap string Json.value) (s : Store) :
  addsActiveOrNothing (routes.postVehicle co body s) s.
Proof.
  unfold routes.postVehicle, validation.validateVehicle.
  destruct (validation.vehicleSchema co body) as [errors | value].
  - left. split; [reflexivity | discriminate].
  - apply addVehicle_active.
Qed.

(** C10. Whatever the request body holds, a [status] field included,
    the add-vehicle operation either writes nothing or writes exactly
    one vehicle whose status is active: through the route, where the
    validator keeps the three known fields only, and through the
    controller alone, which reads these three fields only, so that the
    schema default applies. *)
Theorem addVehicle_status_active
    (co : Json.Coercions) (body : gmap string Json.value) (s : Store) :
  addsActiveOrNothing (routes.postVehicle co body s) s /\
  addsActiveOrNothing (addVehicle co body s) s /\
  (forall value, validation.vehicleSchema co body = inr value ->
                 value !! "status" = None) /\
  pick ["name"; "capacityKg"; "tyres"] body !! "status" = None.
Proof.
  split; [apply postVehicle_active |].
  split; [apply addVehicle_active |]. split; [| apply pick_status].
  unfold validation.vehicleSchema. intros value.
  destruct (validation.nameRule _) as [e | n]; [discriminate |].
  destruct (validation.capacityRule co _) as [e | c]; [discriminate |].
  destruct (validation.tyresRule co _) as [e | t]; [discriminate |].
  intros [= <-]. rewrite !lookup_insert_ne by discriminate. apply lookup_empty.
Qed.


(** A body that asks for status [retired] gets an active vehicle. *)
Example postVehicle_ignores_status :
  routes.postVehicle integersOnly retiredTruckBody emptyStore
  = (Success 201 "Vehicle added successfully" truck, addVehicleTo truck emptyStore).
Proof. vm_compute. reflexivity. Qed.

End AddVehicle.

Lemma addVehicle_status_active_witness :
  exists value,
    validation.vehicleSchema integersOnly retiredTruckBody = inr value /\
    value !! "status" = None /\
    addsActiveOrNothing (routes.postVehicle integersOnly retiredTruckBody emptyStore)
                        emptyStore.
Proof.
  destruct (addVehicle_status_active integersOnly retiredTruckBody emptyStore)
    as (Hroute & _ & Hstrip & _).
  eexists. split; [vm_compute; reflexivity |].
  split; [apply Hstrip; vm_compute; reflexivity | exact Hroute].
Defined.

(** ** What the operations do to the bookings *)

Section Effects.
Import bookingController.

Lemma postVehicle_bookings co body s :
  bookings (snd (routes.postVehicle co body s)) = bookings s.
Proof.
  destruct (postVehicle_active co body s) as [[-> _] | (v & _ & -> & _)];
    reflexivity.
Qed.

Lemma updateVehicleStatus_bookings id status s :
  bookings (snd (vehicleController.updateVehicleStatus id status s)) = bookings s.
Proof.
  unfold vehicleController.updateVehicleStatus.
  destruct (negb _); [reflexivity |].
  destruct (Vehicle.statusOfName status); [| reflexivity].
  unfold bind, onVehicles, Mongo.findByIdAndUpdate.
  destruct (List.find _ _); reflexivity.
Qed.

Lemma findAvailableVehicles_store query s :
  snd (vehicleController.findAvailableVehicles query s) = s.
Proof.
  destruct (findAvailableVehicles_eq query s) as [message ->]. reflexivity.
Qed.

Lemma exec_change (op : Op) (s : Store) :
  Change s op (Mongo.docs (bookings (exec op s))).
Proof.
  destruct op as [co body | id status | query | now body | id status | now id];
    cbn [exec].
  - rewrite postVehicle_bookings. constructor.
  - rewrite updateVehicleStatus_bookings. constructor.
  - rewrite findAvailableVehicles_store. constructor.
  - rewrite createBooking_eq.
    destruct (vehicleById s (vehicleId body)) as [v |]; [| constructor].
    destruct (negb _); [constructor |].
    destruct (conflictsOf s body) eqn:Hc; [| constructor].
    destruct (Booking.i_totalCost (newBooking body v)) as [cost |] eqn:Hcost;
      [| constructor].
    unfold schemaAccepts. rewrite Hcost.
    destruct (Booking.validate now (newDocument body v cost 0%nat)) eqn:Hval;
      [| constructor].
    cbn [snd addBooking bookings Mongo.docs].
    econstructor; [reflexivity | exact Hc | exact Hval].
  - rewrite updateBookingStatus_eq.
    destruct (Booking.statusOfName status) as [st |] eqn:Hst; [| constructor].
    destruct (bookingById s id) as [b |] eqn:Hb; [| constructor].
    cbn [snd replaceBooking bookings Mongo.docs].
    apply statusOfName_inv in Hst. subst status.
    econstructor; [exact Hb | left; reflexivity].
  - rewrite cancelBooking_eq.
    destruct (bookingById s id) as [b |] eqn:Hb; [| constructor].
    destruct (negb _); [constructor |].
    destruct (negb _); [constructor |].
    destruct (Booking.validate now _); [| constructor].
    cbn [snd replaceBooking bookings Mongo.docs].
    econstructor; [exact Hb | right; exists now; split; reflexivity].
Qed.

Lemma updateFirst_Forall {D : Type} (idOf : D -> Mongo.ObjectId) (id : Mongo.ObjectId)
    (f : D -> D) (P : D -> Prop) (l : list D) :
  (forall d, In d l -> P d -> P (f d)) ->
  Forall P l -> Forall P (Mongo.updateFirst idOf id f l).
Proof.
  induction l as [| x l IH]; intros Hf Hall; [constructor |].
  inversion Hall as [| ? ? Hx Hl]; subst. simpl.
  destruct (Nat.eqb (idOf x) id).
  - constructor; [apply Hf; [left; reflexivity | exact Hx] | exact Hl].
  - constructor; [exact Hx |]. apply IH; [| exact Hl].
    intros d Hd. apply Hf. right. exact Hd.
Qed.

Lemma newDocument_wellFormed now body v cost id :
  Booking.validate now (newDocument body v cost id) = [] ->
  wellFormed (newDocument body v cost id).
Proof.
  intros H. apply validate_nil in H. destruct H as [H _]. split; [exact H |].
  cbn [newDocument Booking.startTime Booking.endTime requestedWindow fst snd].
  unfold endOfWindow.
  pose proof (duration_range (fromPincode body) (toPincode body)). lia.
Qed.

Lemma reachable_wellFormed (s : Store) :
  reachable s -> Forall wellFormed (Mongo.docs (bookings s)).
Proof.
  induction 1 as [| op s Hs IH]; [constructor |].
  destruct (exec_change op s) as [| now body v cost _ _ Hval | id st b _ _].
  - exact IH.
  - apply Forall_app. split; [exact IH |].
    constructor; [| constructor]. eapply newDocument_wellFormed, Hval.
  - apply updateFirst_Forall; [| exact IH]. intros d _ Hd. exact Hd.
Qed.

End Effects.

(** ** Cancellation *)

Section Cancellation.
Import bookingController.

Lemma cancelBooking_allowed (now : Z) (id : Mongo.ObjectId) (s : Store) (b : Booking.t) :
  reachable s ->
  bookingById s id = Some b ->
  Booking.status b = Booking.confirmed ->
  hour <= Booking.startTime b - now ->
  cancelBooking now id s
  = (Success 200 "Booking cancelled successfully" (Booking.setStatus Booking.cancelled b),
     replaceBooking id (Booking.setStatus Booking.cancelled) s).
Proof.
  intros Hs Hb Hst Hlate. rewrite cancelBooking_eq, Hb.
  apply booking_confirmed_eqb in Hst. rewrite Hst. cbn [negb].
  apply Z.leb_le in Hlate. rewrite Hlate. cbn [negb].
  assert (Hval : Booking.validate now (Booking.setStatus Booking.cancelled b) = []).
  { apply validate_nil. rewrite validateStatic_setStatus. split.
    - pose proof (reachable_wellFormed s Hs) as Hwf.
      rewrite List.Forall_forall in Hwf.
      apply (Hwf b). eapply find_id. exact Hb.
    - cbn [Booking.setStatus Booking.startTime].
      apply Z.leb_le in Hlate. unfold hour in Hlate. lia. }
  rewrite Hval. reflexivity.
Qed.


End Cancellation.

(** ** Stores of the examples are reachable *)

Lemma reachable_execAll_from (ops : list Op) (s : Store) :
  reachable s -> reachable (execAll ops s).
Proof.
  revert s. induction ops as [| op ops IH]; intros s Hs; [exact Hs |].
  apply IH. constructor. exact Hs.
Qed.

Lemma reachable_execAll (ops : list Op) : reachable (execAll ops emptyStore).
Proof. apply reachable_execAll_from. constructor. Qed.


(** ** Status transitions *)

Section Transitions.
Import bookingController.

Lemma updateFirst_lookup {D : Type} (idOf : D -> Mongo.ObjectId) (id : Mongo.ObjectId)
    (f : D -> D) (l : list D) (i : nat) (d : D) :
  l !! i = Some d ->
  Mongo.updateFirst idOf id f l !! i = Some d \/
  Mongo.updateFirst idOf id f l !! i = Some (f d).
Proof.
  revert i. induction l as [| x l IH]; intros i Hi; [discriminate |].
  simpl. destruct (Nat.eqb (idOf x) id).
  - destruct i as [| i]; simpl in *; [injection Hi as <-; right; reflexivity |].
    left. exact Hi.
  - destruct i as [| i]; simpl in *; [left; exact Hi | apply IH, Hi].
Qed.

Lemma updateFirst_find {D : Type} (idOf : D -> Mongo.ObjectId) (id : Mongo.ObjectId)
    (f : D -> D) (l : list D) (d : D) :
  (forall x, idOf (f x) = idOf x) ->
  List.find (fun x => Nat.eqb (idOf x) id) l = Some d ->
  List.find (fun x => Nat.eqb (idOf x) id) (Mongo.updateFirst idOf id f l) = Some (f d).
Proof.
  intros Hid. induction l as [| x l IH]; [discriminate |].
  simpl. destruct (Nat.eqb (idOf x) id) eqn:E.
  - intros [= <-]. simpl. rewrite Hid, E. reflexivity.
  - intros H. simpl. rewrite E. apply IH, H.
Qed.

(** C8, as stated, fails: the generic status update sets a cancelled
    booking back to confirmed. *)
Lemma updateBookingStatus_reconfirms :
  reachable bookedAndCancelled /\
  (exists b, bookingById bookedAndCancelled 0%nat = Some b /\
             Booking.status b = Booking.cancelled) /\
  (exists b, bookingById (exec (UpdateBookingStatus 0%nat "confirmed") bookedAndCancelled)
               0%nat = Some b /\
             Booking.status b = Booking.confirmed).
Proof.
  split; [apply reachable_execAll |].
  split; eexists; (split; [vm_compute; reflexivity | reflexivity]).
Qed.

(** C8, amended. No operation other than the generic status update
    with target [confirmed] turns a booking that is not confirmed into
    a confirmed one: the booking at any position of the collection
    keeps its id and stays not confirmed.  The generic status update
    writes its target whatever the current status: with target
    [confirmed], the booking of the id is confirmed afterwards. *)
Theorem status_not_reconfirmed (op : Op) (s : Store) :
  ((forall id, op <> UpdateBookingStatus id "confirmed") ->
   forall (i : nat) (b : Booking.t),
     Mongo.docs (bookings s) !! i = Some b ->
     Booking.status b <> Booking.confirmed ->
     exists b',
       Mongo.docs (bookings (exec op s)) !! i = Some b' /\
       Booking._id b' = Booking._id b /\
       Booking.status b' <> Booking.confirmed) /\
  (forall id b,
      op = UpdateBookingStatus id "confirmed" ->
      bookingById s id = Some b ->
      bookingById (exec op s) id = Some (Booking.setStatus Booking.confirmed b)).
Proof.
  split.
  - intros Hop i b Hi Hst.
    destruct (exec_change op s) as [| now body v cost _ _ _ | id st b0 _ Hcase].
    + exists b. auto.
    + exists b. split; [| auto]. rewrite lookup_app_l; [exact Hi |].
      eapply lookup_lt_Some, Hi.
    + destruct (updateFirst_lookup Booking._id id (Booking.setStatus st) _ i b Hi)
        as [H | H]; [exists b; auto |].
      exists (Booking.setStatus st b). split; [exact H |]. split; [reflexivity |].
      cbn [Booking.setStatus Booking.status]. intros ->.
      destruct Hcase as [Hcase | (now & _ & Hcase)]; [| discriminate].
      apply (Hop id). exact Hcase.
  - intros id b -> Hb. cbn [exec]. rewrite updateBookingStatus_eq.
    cbn [Booking.statusOfName String.eqb Ascii.eqb Bool.eqb]. cbv iota.
    rewrite Hb. cbn [snd]. unfold bookingById, replaceBooking. cbn [bookings Mongo.docs].
    apply updateFirst_find; [reflexivity | exact Hb].
Qed.

Lemma status_not_reconfirmed_witness :
  exists b b',
    Mongo.docs (bookings bookedAndCancelled) !! 0%nat = Some b /\
    Booking.status b = Booking.cancelled /\
    Mongo.docs (bookings (exec (UpdateBookingStatus 0%nat "in-progress") bookedAndCancelled))
      !! 0%nat = Some b' /\
    Booking.status b' <> Booking.confirmed.
Proof.
  eexists.
  assert (Hop : forall id, UpdateBookingStatus 0%nat "in-progress"
                           <> UpdateBookingStatus id "confirmed") by (intros id; discriminate).
  destruct (proj1 (status_not_reconfirmed (UpdateBookingStatus 0%nat "in-progress")
                     bookedAndCancelled) Hop 0%nat _ ltac:(vm_compute; reflexivity)
                  ltac:(discriminate)) as (b' & H1 & _ & H2).
  exists b'. split; [vm_compute; reflexivity |]. split; [reflexivity |].
  split; [exact H1 | exact H2].
Defined.

End Transitions.

(** ** No double booking *)

Section NoDoubleBooking.
Import bookingController.

Lemma pairs_snoc {A : Type} (R : A -> A -> Prop) (l : list A) (a : A) :
  ForallOrdPairs R l -> Forall (fun x => R x a) l -> ForallOrdPairs R (l ++ [a]).
Proof.
  induction 1 as [| x l Hx Hl IH]; intros Hall; simpl.
  - constructor; constructor.
  - inversion Hall as [| ? ? Hxa Hla]; subst.
    constructor; [| apply IH; exact Hla].
    apply Forall_app. split; [exact Hx | constructor; [exact Hxa | constructor]].
Qed.

Lemma updateFirst_Forall_found {D : Type} (idOf : D -> Mongo.ObjectId)
    (id : Mongo.ObjectId) (f : D -> D) (P : D -> Prop) (l : list D) (d : D) :
  List.find (fun x => Nat.eqb (idOf x) id) l = Some d ->
  P (f d) -> Forall P l -> Forall P (Mongo.updateFirst idOf id f l).
Proof.
  intros Hfind Hd. induction l as [| x l IH]; intros Hall; [constructor |].
  inversion Hall as [| ? ? Hx Hl]; subst. simpl in *.
  destruct (Nat.eqb (idOf x) id).
  - injection Hfind as ->. constructor; assumption.
  - constructor; [exact Hx | apply IH; assumption].
Qed.

Lemma updateFirst_pairs {D : Type} (idOf : D -> Mongo.ObjectId) (id : Mongo.ObjectId)
    (f : D -> D) (R : D -> D -> Prop) (l : list D) (d : D) :
  List.find (fun x => Nat.eqb (idOf x) id) l = Some d ->
  (forall y, R d y -> R (f d) y) ->
  (forall x, R x d -> R x (f d)) ->
  ForallOrdPairs R l -> ForallOrdPairs R (Mongo.updateFirst idOf id f l).
Proof.
  intros Hfind Hleft Hright. induction l as [| x l IH]; intros Hl; [constructor |].
  inversion Hl as [| ? ? Hx Hrest]; subst. simpl in *.
  destruct (Nat.eqb (idOf x) id).
  - injection Hfind as ->. constructor; [| exact Hrest].
    rewrite List.Forall_forall in *. intros y Hy. apply Hleft, Hx, Hy.
  - constructor; [| apply IH; assumption].
    apply (updateFirst_Forall_found idOf id f (R x) l d Hfind); [| exact Hx].
    apply Hright. rewrite List.Forall_forall in Hx. apply Hx.
    eapply find_id, Hfind.
Qed.

Lemma disjoint_sym (a b : Window) : disjoint a b -> disjoint b a.
Proof. unfold disjoint. intros H t [H1 H2]. apply (H t). split; assumption. Qed.

(** A booking written after an empty conflict check is compatible with
    every stored booking. *)
Lemma newDocument_compatible (s : Store) (body : Body) (v : Vehicle.t) (cost : Q)
    (id : Mongo.ObjectId) :
  conflictsOf s body = [] ->
  Forall (fun x => compatible x (newDocument body v cost id)) (Mongo.docs (bookings s)).
Proof.
  intros Hc. apply List.Forall_forall. intros x Hx Hveh Hact _.
  apply disjoint_sym, overlap_disjoint. intros Hov.
  assert (Hin : In x (conflictsOf s body)).
  { apply List.filter_In. split; [exact Hx |]. apply conflictsWith_iff.
    split; [exact Hveh |]. split; [apply isActive_iff; exact Hact |].
    split; [exact Hov | discriminate]. }
  rewrite Hc in Hin. destruct Hin.
Qed.

Lemma createBooking_preserves (now : Z) (body : Body) (s : Store) :
  noDoubleBooking s -> noDoubleBooking (snd (createBooking now body s)).
Proof.
  intros H. change (noDoubleBooking (exec (CreateBooking now body) s)).
  unfold noDoubleBooking.
  destruct (exec_change (CreateBooking now body) s)
    as [| now' body' v cost Hop Hc _ | id st b _ [Hop | (now' & Hop & _)]];
    try discriminate; [exact H |].
  apply pairs_snoc; [exact H |]. apply newDocument_compatible, Hc.
Qed.

Lemma exec_preserves (op : Op) (s : Store) :
  ~ reactivates op s -> noDoubleBooking s -> noDoubleBooking (exec op s).
Proof.
  intros Hguard H. unfold noDoubleBooking.
  destruct (exec_change op s) as [| now body v cost _ Hc _ | id st b Hb Hcase].
  - exact H.
  - apply pairs_snoc; [exact H |]. apply newDocument_compatible, Hc.
  - assert (Hweaker : isActive (Booking.setStatus st b) = true -> isActive b = true).
    { destruct Hcase as [-> | (now & _ & ->)]; [| discriminate].
      intros Hact. destruct (isActive b) eqn:E; [reflexivity |]. exfalso.
      apply Hguard. exists b. split; [exact Hb |]. split; [exact E |].
      unfold isActive in Hact. cbn [Booking.setStatus Booking.status] in Hact.
      destruct st; try discriminate; [left | right]; reflexivity. }
    apply (updateFirst_pairs Booking._id id (Booking.setStatus st) _ _ b Hb);
      [| | exact H].
    + intros y Hy Hveh Hact Hacty. apply (Hy Hveh (Hweaker Hact) Hacty).
    + intros x Hx Hveh Hactx Hact. apply (Hx Hveh Hactx (Hweaker Hact)).
Qed.

(** C1, as stated, fails: cancel a booking, book the same window again,
    and set the first booking back to confirmed by a status update; the
    store then holds two confirmed bookings of one vehicle for the same
    window. *)
Lemma status_update_double_books :
  reachable doubleBooked /\ ~ noDoubleBooking doubleBooked.
Proof.
  split; [apply reachable_execAll |].
  intros H. unfold noDoubleBooking in H.
  assert (E : exists b1 b2, Mongo.docs (bookings doubleBooked) = [b1; b2] /\
                Booking.vehicleId b1 = Booking.vehicleId b2 /\
                isActive b1 = true /\ isActive b2 = true /\
                window b1 = (2 * hour, 6 * hour) /\ window b2 = (2 * hour, 6 * hour)).
  { eexists. eexists. split; [vm_compute; reflexivity |].
    repeat split. }
  destruct E as (b1 & b2 & Hdocs & Hveh & H1 & H2 & Hw1 & Hw2).
  rewrite Hdocs in H. inversion H as [| ? ? Hall _]; subst.
  inversion Hall as [| ? ? H12 _]; subst.
  specialize (H12 Hveh H1 H2). rewrite Hw1, Hw2 in H12.
  apply (H12 (2 * hour)). unfold inWindow, hour. simpl. lia.
Qed.

(** C1, amended. In every store built by operations that run one
    after the other, each to its end before the next begins, with no
    status update among them that brings a completed or cancelled
    booking back to confirmed or in progress, the windows of the active
    bookings of a vehicle are pairwise disjoint; and every admission run
    without interruption keeps them so.  (Admissions that interleave at
    their database round trips are the subject of C2.) *)
Theorem noDoubleBooking_invariant :
  (forall s, reachableGuarded s -> noDoubleBooking s) /\
  (forall now body s,
      noDoubleBooking s ->
      noDoubleBooking (snd (createBooking now body s))).
Proof.
  split.
  - induction 1 as [| op s _ IH Hguard]; [constructor |].
    apply exec_preserves; assumption.
  - apply createBooking_preserves.
Qed.

Lemma noDoubleBooking_invariant_witness :
  reachableGuarded twiceBooked /\
  (exists b1 b2,
      Mongo.docs (bookings twiceBooked) = [b1; b2] /\
      Booking.vehicleId b1 = Booking.vehicleId b2 /\
      isActive b1 = true /\ isActive b2 = true /\
      window b1 = (2 * hour, 6 * hour) /\ window b2 = (6 * hour, 10 * hour) /\
      disjoint (window b1) (window b2)) /\
  noDoubleBooking
    (snd (createBooking 0 (request "CUST003" (4 * hour)) twiceBooked)) /\
  noDoubleBooking
    (snd (createBooking 0 (request "CUST003" (10 * hour)) twiceBooked)).
Proof.
  assert (Hr : reachableGuarded twiceBooked).
  { unfold twiceBooked, execAll. cbn [fold_left].
    apply guarded_exec;
      [apply guarded_exec; [apply guarded_exec; [apply guarded_empty |] |] |];
      intros H; exact H. }
  split; [exact Hr |].
  pose proof (proj1 noDoubleBooking_invariant twiceBooked Hr) as H.
  split; [| split; apply (proj2 noDoubleBooking_invariant); exact H].
  assert (E : exists b1 b2,
             Mongo.docs (bookings twiceBooked) = [b1; b2] /\
             Booking.vehicleId b1 = Booking.vehicleId b2 /\
             isActive b1 = true /\ isActive b2 = true /\
             window b1 = (2 * hour, 6 * hour) /\ window b2 = (6 * hour, 10 * hour)).
  { eexists. eexists. split; [vm_compute; reflexivity |]. repeat split. }
  destruct E as (b1 & b2 & Hdocs & Hveh & H1 & H2 & Hw1 & Hw2).
  exists b1, b2. repeat (split; [assumption |]).
  unfold noDoubleBooking in H. rewrite Hdocs in H.
  inversion H as [| ? ? Hall _]; subst.
  inversion Hall as [| ? ? H12 _]; subst.
  exact (H12 Hveh H1 H2).
Defined.

End NoDoubleBooking.

(** ** Concurrent admissions *)

Section Concurrency.
Import bookingController concurrency.

(** The three round trips of a call, run in a row, are [createBooking]. *)
Lemma resume_createBooking (now : Z) (body : Body) (s : Store) :
  (await t1 := resume now (AwaitVehicle body) in
   await t2 := resume now t1 in
   resume now t2) s
  = (Finished (fst (createBooking now body s)), snd (createBooking now body s)).
Proof.
  unfold createBooking. cbn [resume]. unfold bind, ret.
  destruct (onVehicles _ s) as [[v |] s1]; [| reflexivity].
  destruct (negb _); [reflexivity |].
  cbn [resume]. unfold bind, ret.
  destruct (onBookings _ s1) as [l s2].
  destruct (0 <? length l)%nat; [reflexivity |].
  cbn [resume]. unfold bind, ret.
  destruct (onBookings _ s2) as [[e | b] s3]; reflexivity.
Qed.

(** Run one after the other, two overlapping requests for one vehicle
    are exclusive: when the first is accepted, the second is answered
    Conflict and writes nothing. *)
Lemma sequential_admissions_exclusive (now1 now2 : Z) (body1 body2 : Body) (s : Store)
    (b : Booking.t) (message : string) :
  createBooking now1 body1 s = (Success 201 message b, addBooking b s) ->
  Booking.vehicleId b = vehicleId body2 ->
  Booking.status b = Booking.confirmed ->
  overlap (requestedWindow body2) (window b) ->
  exists n,
    createBooking now2 body2 (addBooking b s) = (Conflict (S n), addBooking b s).
Proof.
  intros Hfirst Hveh Hst Hov.
  assert (Hb : In b (conflictsOf (addBooking b s) body2)).
  { apply List.filter_In. split.
    - cbn [addBooking bookings Mongo.docs]. apply in_or_app. right. left. reflexivity.
    - apply conflictsWith_iff. split; [exact Hveh |]. split; [left; exact Hst |].
      split; [exact Hov | discriminate]. }
  assert (Hv : exists v, vehicleById s (vehicleId body2) = Some v /\
                         Vehicle.status v = Vehicle.active).
  { rewrite createBooking_eq in Hfirst.
    destruct (vehicleById s (vehicleId body1)) as [v |] eqn:Hv1; [| discriminate].
    destruct (String.eqb _ _) eqn:Hact; [| discriminate]. cbn [negb] in Hfirst.
    destruct (conflictsOf s body1); [| discriminate].
    destruct (Booking.i_totalCost _); [| discriminate].
    destruct (schemaAccepts _ _ _); [| discriminate].
    injection Hfirst as _ Hbv _. subst b. cbn [newDocument Booking.vehicleId] in Hveh.
    exists v. rewrite <- Hveh. split; [exact Hv1 | apply vehicle_active_eqb, Hact]. }
  destruct Hv as (v & Hv & Hact).
  rewrite createBooking_eq.
  change (vehicleById (addBooking b s) (vehicleId body2))
    with (vehicleById s (vehicleId body2)).
  rewrite Hv. apply vehicle_active_eqb in Hact. rewrite Hact. cbn [negb].
  destruct (conflictsOf (addBooking b s) body2) as [| x l]; [destruct Hb |].
  exists (length l). reflexivity.
Qed.

(** C2 on the code: two calls of [createBooking] for the same vehicle
    and the same window, whose database round trips take turns, both
    pass the conflict check before either has saved; both are answered
    201, neither Conflict, and the vehicle is double-booked.  Run one
    after the other, the same calls give one success and one Conflict. *)
Theorem createBooking_race :
  map succeeded (tasks (run takingTurns (start oneTruck racingCalls))) = [true; true] /\
  map conflicted (tasks (run takingTurns (start oneTruck racingCalls))) = [false; false] /\
  ~ noDoubleBooking (store (run takingTurns (start oneTruck racingCalls))) /\
  map succeeded (tasks (run oneAfterTheOther (start oneTruck racingCalls))) = [true; false] /\
  map conflicted (tasks (run oneAfterTheOther (start oneTruck racingCalls))) = [false; true].
Proof.
  split; [vm_compute; reflexivity |]. split; [vm_compute; reflexivity |].
  split; [| split; vm_compute; reflexivity].
  intros H. unfold noDoubleBooking in H.
  assert (E : exists b1 b2,
             Mongo.docs (bookings (store (run takingTurns (start oneTruck racingCalls))))
             = [b1; b2] /\
             Booking.vehicleId b1 = Booking.vehicleId b2 /\
             isActive b1 = true /\ isActive b2 = true /\
             window b1 = (2 * hour, 6 * hour) /\ window b2 = (2 * hour, 6 * hour)).
  { eexists. eexists. split; [vm_compute; reflexivity |]. repeat split. }
  destruct E as (b1 & b2 & Hdocs & Hveh & H1 & H2 & Hw1 & Hw2).
  rewrite Hdocs in H. inversion H as [| ? ? Hall _]; subst.
  inversion Hall as [| ? ? H12 _]; subst.
  specialize (H12 Hveh H1 H2). rewrite Hw1, Hw2 in H12.
  apply (H12 (2 * hour)). unfold inWindow, hour. simpl. lia.
Qed.

End Concurrency.

(** ** Requests that the request validator admits pass the schema *)

Section ValidatedRequests.
Import bookingController.

Lemma isDigit_not_space (c : ascii) : JS.isDigit c = true -> JS.isWhiteSpace c = false.
Proof.
  unfold JS.isDigit, JS.isWhiteSpace. cbv zeta.
  intros H. apply andb_true_iff in H. destruct H as [H1 H2].
  apply Z.leb_le in H1. apply Z.leb_le in H2.
  apply orb_false_iff. split; [apply orb_false_iff; split |].
  - apply andb_false_iff. right. apply Z.leb_gt. lia.
  - apply Z.eqb_neq. lia.
  - apply Z.eqb_neq. lia.
Qed.

Lemma trimEnd_digits (s : string) : JS.allDigits s = true -> JS.trimEnd s = s.
Proof.
  induction s as [| c s IH]; [reflexivity |]. simpl.
  intros H. apply andb_true_iff in H. destruct H as [Hc Hs].
  rewrite (IH Hs). destruct s; [| reflexivity].
  rewrite (isDigit_not_space c Hc). reflexivity.
Qed.

Lemma trim_digits (s : string) : JS.allDigits s = true -> JS.trim s = s.
Proof.
  intros H. unfold JS.trim.
  destruct s as [| c s]; [reflexivity |].
  assert (Hc : JS.isWhiteSpace c = false).
  { simpl in H. apply andb_true_iff in H. apply isDigit_not_space, H. }
  cbn [JS.trimStart]. rewrite Hc. apply trimEnd_digits, H.
Qed.

Lemma radixDigit_digit (c : ascii) :
  JS.isDigit c = true -> exists d, JS.radixDigit 10 c = Some d /\ 0 <= d.
Proof.
  unfold JS.isDigit, JS.radixDigit, JS.digitValue. cbv zeta. intros H. rewrite H.
  apply andb_true_iff in H. destruct H as [H1 H2].
  apply Z.leb_le in H1. apply Z.leb_le in H2.
  destruct (Z.ltb_spec (Z.of_nat (nat_of_ascii c) - 48) 10); [| lia].
  eexists. split; [reflexivity | lia].
Qed.

Lemma parseDigits_some (R : Z) (s : string) (a : Z) :
  0 <= R -> 0 <= a -> exists n, JS.parseDigits R s (Some a) = Some n /\ 0 <= n.
Proof.
  intros HR. revert a. induction s as [| c s IH]; intros a Ha; simpl.
  - exists a. auto.
  - unfold JS.radixDigit. destruct (JS.digitValue c) as [d |] eqn:Hd; [| exists a; auto].
    destruct (Z.ltb_spec d R); [| exists a; auto].
    apply IH. unfold JS.digitValue in Hd. cbv zeta in Hd.
    repeat match type of Hd with
           | (if ?b then _ else _) = _ => destruct b eqn:?
           end; try discriminate; injection Hd as <-;
      repeat match goal with
             | H : (_ && _) = true |- _ => apply andb_true_iff in H; destruct H
             | H : (_ <=? _) = true |- _ => apply Z.leb_le in H
             end; nia.
Qed.

Lemma isDigit_cases (c : ascii) :
  JS.isDigit c = true ->
  c <> "-"%char /\ c <> "+"%char /\ c <> "x"%char /\ c <> "X"%char.
Proof.
  intros H. repeat split; intros ->; discriminate H.
Qed.

(** [parseInt] reads a string of six digits. *)
Lemma parseInt_sixDigits (s : string) :
  JS.sixDigits s = true -> exists n, JS.parseInt s = Some n /\ 0 <= n.
Proof.
  unfold JS.sixDigits. intros H. apply andb_true_iff in H. destruct H as [Hlen Hd].
  destruct s as [| c s]; [discriminate Hlen |].
  assert (Hc : JS.isDigit c = true) by (simpl in Hd; apply andb_true_iff in Hd; apply Hd).
  assert (Hparse : exists n, JS.parseDigits 10 (String c s) None = Some n /\ 0 <= n).
  { cbn [JS.parseDigits]. destruct (radixDigit_digit c Hc) as (d & -> & Hd0).
    apply parseDigits_some; lia. }
  unfold JS.parseInt. cbn [JS.trimStart]. rewrite (isDigit_not_space c Hc).
  destruct (isDigit_cases c Hc) as (H1 & H2 & _).
  assert (Hsign : match String c s with
                  | String "-" r => (-1, r)
                  | String "+" r => (1, r)
                  | _ => (1, String c s)
                  end = (1, String c s)).
  { destruct c as [[] [] [] [] [] [] [] []]; try reflexivity; contradiction. }
  rewrite Hsign.
  assert (Hradix : match String c s with
                   | String "0" (String "x" r) => (16, r)
                   | String "0" (String "X" r) => (16, r)
                   | _ => (10, String c s)
                   end = (10, String c s)).
  { destruct s as [| c' s']; [destruct c as [[] [] [] [] [] [] [] []]; reflexivity |].
    assert (Hc' : JS.isDigit c' = true).
    { simpl in Hd. apply andb_true_iff in Hd. destruct Hd as [_ Hd].
      apply andb_true_iff in Hd. apply Hd. }
    destruct (isDigit_cases c' Hc') as (_ & _ & H3 & H4).
    destruct c as [[] [] [] [] [] [] [] []]; try reflexivity;
      destruct c' as [[] [] [] [] [] [] [] []]; try reflexivity; contradiction. }
  rewrite Hradix. destruct Hparse as (n & -> & Hn).
  exists (1 * n). split; [reflexivity | lia].
Qed.

Lemma mathMax_pos (x : Q) : (0 <= JS.mathMax 1 x)%Q.
Proof.
  unfold JS.mathMax. destruct (Qle_bool 1 x) eqn:E.
  - apply Qle_bool_iff in E. eapply Qle_trans; [| exact E]. unfold Qle. simpl. lia.
  - unfold Qle. simpl. lia.
Qed.

Lemma cost_not_negative (h : Z) (capacityKg : Q) (fromCode toCode : string) (cost : Q) :
  0 <= h ->
  helpers.calculateBookingCost h capacityKg fromCode toCode = Some cost ->
  (0 <= cost)%Q.
Proof.
  intros Hh. unfold helpers.calculateBookingCost. cbv zeta.
  destruct (JS.parseInt toCode) as [t |]; [| discriminate].
  destruct (JS.parseInt fromCode) as [f |]; [| discriminate].
  intros [= <-].
  set (total := (500 * inject_Z h * JS.mathMax 1 (capacityKg / 1000) *
                 JS.mathMax 1 (inject_Z (Z.abs (t - f)) / 100))%Q).
  assert (Htotal : (0 <= total)%Q).
  { unfold total. repeat apply Qmult_le_0_compat; try apply mathMax_pos.
    - unfold Qle. simpl. lia.
    - unfold Qle. simpl. lia. }
  assert (Hround : 0 <= JS.mathRound (total * 100)).
  { unfold JS.mathRound. change 0 with (Qfloor 0). apply Qfloor_resp_le.
    apply Qle_trans with (total * 100)%Q.
    - apply Qmult_le_0_compat; [exact Htotal | unfold Qle; simpl; lia].
    - rewrite <- (Qplus_0_r (total * 100)) at 1.
      apply Qplus_le_r. unfold Qle. simpl. lia. }
  unfold Qdiv. apply Qmult_le_0_compat; [| unfold Qle; simpl; lia].
  unfold Qle. simpl. lia.
Qed.

Lemma validatePincode_sixDigits (required s : string) :
  JS.sixDigits s = true -> Booking.validatePincode required s = [].
Proof.
  intros H. unfold Booking.validatePincode. rewrite H.
  unfold JS.sixDigits in H. apply andb_true_iff in H. destruct H as [Hlen _].
  apply Z.eqb_eq in Hlen.
  destruct (String.eqb_spec s ""); [subst s; discriminate Hlen |].
  destruct (Z.ltb_spec (Z.of_nat (String.length s)) 6); [lia |].
  destruct (Z.ltb_spec 6 (Z.of_nat (String.length s))); [lia |].
  reflexivity.
Qed.

(** A request as the request validator hands it over (six-digit codes,
    a customer id of 1 to 50 characters) whose start is later than the
    clock at save time passes the Booking schema. *)
Lemma validated_request_accepted (now : Z) (body : Body) (v : Vehicle.t) :
  JS.sixDigits (fromPincode body) = true ->
  JS.sixDigits (toPincode body) = true ->
  JS.trim (customerId body) <> "" ->
  (String.length (JS.trim (customerId body)) <= 50)%nat ->
  now < startTime body ->
  schemaAccepts now body v = true.
Proof.
  intros Hfrom Hto Hcust Hlen Hstart. unfold schemaAccepts.
  destruct (parseInt_sixDigits _ Hfrom) as (f & Hf & _).
  destruct (parseInt_sixDigits _ Hto) as (t & Ht & _).
  pose proof (duration_range (fromPincode body) (toPincode body)) as Hdur.
  destruct (Booking.i_totalCost (newBooking body v)) as [cost |] eqn:Hcost.
  2: { cbn [newBooking Booking.i_totalCost] in Hcost.
       unfold helpers.calculateBookingCost in Hcost. rewrite Hf, Ht in Hcost.
       discriminate Hcost. }
  cbn [newBooking Booking.i_totalCost] in Hcost.
  apply cost_not_negative in Hcost; [| lia].
  assert (Hval : Booking.validate now (newDocument body v cost 0%nat) = []).
  { unfold Booking.validate.
    cbn [newDocument Booking.customerId Booking.fromPincode Booking.toPincode
         Booking.startTime Booking.estimatedRideDurationHours Booking.totalCost
         requestedWindow fst].
    assert (Hf6 : JS.allDigits (fromPincode body) = true).
    { unfold JS.sixDigits in Hfrom. apply andb_true_iff in Hfrom. apply Hfrom. }
    assert (Ht6 : JS.allDigits (toPincode body) = true).
    { unfold JS.sixDigits in Hto. apply andb_true_iff in Hto. apply Hto. }
    rewrite (trim_digits _ Hf6), (trim_digits _ Ht6).
    rewrite !validatePincode_sixDigits by assumption.
    unfold Booking.validateCustomerId, Booking.validateStartTime,
      Booking.validateDuration, Booking.validateTotalCost.
    destruct (String.eqb_spec (JS.trim (customerId body)) ""); [contradiction |].
    destruct (Z.ltb_spec 50 (Z.of_nat (String.length (JS.trim (customerId body)))));
      [lia |].
    rewrite Z.gtb_ltb. destruct (Z.ltb_spec now (startTime body)); [| lia].
    assert (H1 : Qle_bool (1 # 10)
                   (inject_Z (helpers.calculateRideDuration (fromPincode body)
                                                            (toPincode body))) = true).
    { apply Qle_bool_iff. unfold Qle. simpl. lia. }
    assert (H2 : Qle_bool
                   (inject_Z (helpers.calculateRideDuration (fromPincode body)
                                                            (toPincode body))) 24 = true).
    { apply Qle_bool_iff. unfold Qle. simpl. lia. }
    rewrite H1, H2. apply Qle_bool_iff in Hcost. rewrite Hcost. reflexivity. }
  rewrite Hval. reflexivity.
Qed.

End ValidatedRequests.

(** ** Where the integers of the model are the numbers of JavaScript *)

Section Exactness.

Lemma radixDigit_bound (R : Z) (c : ascii) (d : Z) :
  JS.radixDigit R c = Some d -> 0 <= d < R.
Proof.
  unfold JS.radixDigit, JS.digitValue. cbv zeta.
  repeat match goal with
         | |- context [if ?b then _ else _] => destruct b eqn:?
         end; try discriminate; intros [= <-];
    repeat match goal with
           | H : (_ && _) = true |- _ => apply andb_true_iff in H; destruct H
           | H : (_ <=? _) = true |- _ => apply Z.leb_le in H
           | H : (_ <? _) = true |- _ => apply Z.ltb_lt in H
           end; lia.
Qed.

Lemma parseDigits_bound (R : Z) (s : string) (a n : Z) :
  1 <= R -> 0 <= a ->
  JS.parseDigits R s (Some a) = Some n ->
  0 <= n < (a + 1) * R ^ Z.of_nat (String.length s).
Proof.
  intros HR. revert a. induction s as [| c s IH]; intros a Ha.
  - simpl. intros [= <-]. lia.
  - cbn [JS.parseDigits String.length]. rewrite Nat2Z.inj_succ, Z.pow_succ_r by lia.
    assert (Hpow : 0 < R ^ Z.of_nat (String.length s)) by (apply Z.pow_pos_nonneg; lia).
    destruct (JS.radixDigit R c) as [d |] eqn:Hd.
    + apply radixDigit_bound in Hd. intros H. apply IH in H; [| nia]. nia.
    + intros [= <-]. nia.
Qed.

Lemma parseDigits_start_bound (R : Z) (s : string) (n : Z) :
  1 <= R ->
  JS.parseDigits R s None = Some n ->
  0 <= n < R ^ Z.of_nat (String.length s).
Proof.
  intros HR. induction s as [| c s IH]; [discriminate |].
  cbn [JS.parseDigits String.length]. rewrite Nat2Z.inj_succ, Z.pow_succ_r by lia.
  assert (Hpow : 0 < R ^ Z.of_nat (String.length s)) by (apply Z.pow_pos_nonneg; lia).
  destruct (JS.radixDigit R c) as [d |] eqn:Hd; [| discriminate].
  apply radixDigit_bound in Hd. intros H. apply parseDigits_bound in H; [| lia | lia]. nia.
Qed.

Lemma trimStart_length (s : string) :
  (String.length (JS.trimStart s) <= String.length s)%nat.
Proof.
  induction s as [| c s IH]; [reflexivity |]. simpl.
  destruct (JS.isWhiteSpace c); simpl; lia.
Qed.

Lemma sign_cases (t : string) :
  let r := match t with
           | String "-" r => (-1, r)
           | String "+" r => (1, r)
           | _ => (1, t)
           end in
  (fst r = 1 \/ fst r = -1) /\ (String.length (snd r) <= String.length t)%nat.
Proof.
  destruct t as [| c r]; [simpl; lia |].
  destruct c as [[] [] [] [] [] [] [] []]; cbn [fst snd String.length];
    (split; [(left; reflexivity) || (right; reflexivity) | lia]).
Qed.

Lemma radix_cases (t : string) :
  let r := match t with
           | String "0" (String "x" r) => (16, r)
           | String "0" (String "X" r) => (16, r)
           | _ => (10, t)
           end in
  (fst r = 10 /\ snd r = t) \/
  (fst r = 16 /\ (String.length (snd r) + 2 <= String.length t)%nat).
Proof.
  destruct t as [| c [| c' r]].
  - left. split; reflexivity.
  - left. destruct c as [[] [] [] [] [] [] [] []]; split; reflexivity.
  - destruct (Ascii.eqb_spec c "0") as [-> | Hc].
    + destruct (Ascii.eqb_spec c' "x") as [-> | Hx];
        [right; cbn [fst snd String.length]; split; [reflexivity | lia] |].
      destruct (Ascii.eqb_spec c' "X") as [-> | HX];
        [right; cbn [fst snd String.length]; split; [reflexivity | lia] |].
      left. destruct c' as [[] [] [] [] [] [] [] []];
        try (split; reflexivity); exfalso; auto.
    + left. destruct c as [[] [] [] [] [] [] [] []];
        try (split; reflexivity); exfalso; auto.
Qed.

(** The number that [parseInt] reads from a code of at most 15 characters
    is below 2^52 in magnitude: such numbers, their differences and the
    remainders of these are exact in double precision. *)
Lemma parseInt_exact_range (s : string) (n : Z) :
  (String.length s <= 15)%nat -> JS.parseInt s = Some n -> Z.abs n < 2 ^ 52.
Proof.
  intros Hlen. unfold JS.parseInt.
  pose proof (trimStart_length s) as Htrim.
  pose proof (sign_cases (JS.trimStart s)) as Hsign. cbv zeta in Hsign.
  destruct (match JS.trimStart s with
            | String "-" r => (-1, r)
            | String "+" r => (1, r)
            | _ => (1, JS.trimStart s)
            end) as [sign str].
  cbn [fst snd] in Hsign. destruct Hsign as [Hsg Hstr].
  pose proof (radix_cases str) as Hradix. cbv zeta in Hradix.
  destruct (match str with
            | String "0" (String "x" r) => (16, r)
            | String "0" (String "X" r) => (16, r)
            | _ => (10, str)
            end) as [R digits].
  cbn [fst snd] in Hradix.
  destruct (JS.parseDigits R digits None) as [m |] eqn:Hm; [| discriminate].
  intros [= <-].
  assert (H10 : 10 ^ 15 < 2 ^ 52) by reflexivity.
  assert (H16 : 16 ^ 13 = 2 ^ 52) by reflexivity.
  destruct Hradix as [[-> ->] | [-> Hd]]; apply parseDigits_start_bound in Hm; try lia.
  - assert (10 ^ Z.of_nat (String.length str) <= 10 ^ 15)
      by (apply Z.pow_le_mono_r; lia).
    lia.
  - assert (16 ^ Z.of_nat (String.length digits) <= 16 ^ 13)
      by (apply Z.pow_le_mono_r; lia).
    lia.
Qed.

End Exactness.

(** ** The duration estimator in double precision *)

Section DoublePrecision.
Import Double.

Lemma roundMagnitude_exact (a : Z) : 0 <= a < 2 ^ 53 -> roundMagnitude a = a.
Proof.
  intros [H0 H]. unfold roundMagnitude. cbv zeta.
  destruct (Z.leb_spec (Z.log2 a - 52) 0) as [_ | Hlog]; [reflexivity |].
  exfalso. destruct (Z.eq_dec a 0) as [-> | Hne]; [simpl in Hlog; lia |].
  assert (Z.log2 a < 53) by (apply Z.log2_lt_pow2; lia). lia.
Qed.

(** Rounding at the first integers that doubles do not hold, and at the
    largest double. *)
Example ofInteger_ties_to_even :
  ofInteger (2 ^ 53 + 1) = Finite (2 ^ 53) /\
  ofInteger (2 ^ 53 + 2) = Finite (2 ^ 53 + 2) /\
  ofInteger (2 ^ 53 + 3) = Finite (2 ^ 53 + 4) /\
  ofInteger (- (2 ^ 54 + 2)) = Finite (- 2 ^ 54) /\
  ofInteger (2 ^ 54 + 6) = Finite (2 ^ 54 + 8) /\
  ofInteger (2 ^ 1024 - 2 ^ 970 - 1) = Finite (2 ^ 1024 - 2 ^ 971) /\
  ofInteger (2 ^ 1024 - 2 ^ 970) = Infinity false /\
  ofInteger (- 10 ^ 309) = Infinity true.
Proof. repeat split; vm_compute; reflexivity. Qed.

(** Doubles hold the integers below 2^53 in magnitude as they are. *)
Lemma ofInteger_exact (n : Z) : Z.abs n < 2 ^ 53 -> ofInteger n = Finite n.
Proof.
  intros H. unfold ofInteger. cbv zeta.
  rewrite roundMagnitude_exact by lia.
  destruct (Z.leb_spec (2 ^ 1024) (Z.abs n)) as [Hbig | _].
  - exfalso. assert (2 ^ 53 < 2 ^ 1024) by (apply Z.pow_lt_mono_r; lia). lia.
  - f_equal. lia.
Qed.

Lemma parseInt_NaN (code : string) : parseInt code = NaN <-> JS.parseInt code = None.
Proof.
  unfold parseInt. destruct (JS.parseInt code) as [n |]; [| split; reflexivity].
  split; [| discriminate].
  unfold ofInteger. cbv zeta. destruct (2 ^ 1024 <=? _); discriminate.
Qed.

Lemma duration_of_difference (fromCode toCode : string) (f t d : Z) :
  parseInt fromCode = Finite f -> parseInt toCode = Finite t ->
  ofInteger (f - t) = Finite d ->
  calculateRideDuration fromCode toCode = Finite (Z.max 1 (Z.abs d mod 24)).
Proof.
  intros Hf Ht Hd. unfold calculateRideDuration, calculateRideDuration_try.
  rewrite Hf, Ht. cbn [isNaN orb sub]. rewrite Hd. cbn [mathAbs rem Z.eqb mathMax].
  rewrite Z.rem_mod_nonneg by lia. f_equal. lia.
Qed.

(** On codes of at most 15 characters the estimator in double precision
    is the estimator on the integers themselves. *)
Lemma calculateRideDuration_exact (fromCode toCode : string) :
  (String.length fromCode <= 15)%nat -> (String.length toCode <= 15)%nat ->
  calculateRideDuration fromCode toCode
  = Finite (helpers.calculateRideDuration fromCode toCode).
Proof.
  intros Hfrom Hto.
  unfold calculateRideDuration, calculateRideDuration_try, parseInt,
    helpers.calculateRideDuration, helpers.calculateRideDuration_try. cbv zeta.
  destruct (JS.parseInt fromCode) as [f |] eqn:Hf; [| reflexivity].
  pose proof (parseInt_exact_range fromCode f Hfrom Hf) as Bf.
  rewrite (ofInteger_exact f) by lia.
  destruct (JS.parseInt toCode) as [t |] eqn:Ht; [| reflexivity].
  pose proof (parseInt_exact_range toCode t Hto Ht) as Bt.
  rewrite (ofInteger_exact t) by lia.
  cbn [isNaN orb sub]. rewrite (ofInteger_exact (f - t)) by lia.
  cbn [mathAbs rem Z.eqb mathMax]. reflexivity.
Qed.

(** When the numbers parsed are not [NaN] and their difference is not
    finite, the estimator returns [NaN]: the test [isNaN] lets an
    infinity through, and [Infinity % 24] is [NaN]. *)
Lemma calculateRideDuration_not_finite (fromCode toCode : string) :
  parseInt fromCode <> NaN -> parseInt toCode <> NaN ->
  (forall d, sub (parseInt fromCode) (parseInt toCode) <> Finite d) ->
  calculateRideDuration fromCode toCode = NaN.
Proof.
  intros Hf Ht Hd. unfold calculateRideDuration, calculateRideDuration_try. cbv zeta.
  destruct (parseInt fromCode) as [| sf | f], (parseInt toCode) as [| st | t];
    try contradiction; cbn [isNaN orb sub] in *.
  - destruct (Bool.eqb sf st); reflexivity.
  - reflexivity.
  - reflexivity.
  - destruct (ofInteger (f - t)) as [| s | d] eqn:E; [reflexivity | reflexivity |].
    exfalso. apply (Hd d). reflexivity.
Qed.

(** A code of 310 digits is read as [Infinity], and the estimate is [NaN]. *)
Lemma calculateRideDuration_overflow :
  JS.parseInt (tenToThe 309) = Some (10 ^ 309) /\
  parseInt (tenToThe 309) = Infinity false /\
  calculateRideDuration (tenToThe 309) "110001" = NaN.
Proof. split; [| split]; vm_compute; reflexivity. Qed.

(** C9, as stated, fails: the code written 9007199254740993, which is
    2^53 + 1, is read as the double 2^53, so that the estimate from it to
    the code 0 is 8, where the formula on the integers written gives 9. *)
Lemma calculateRideDuration_rounds :
  JS.parseInt "9007199254740993" = Some 9007199254740993 /\
  JS.parseInt "0" = Some 0 /\
  parseInt "9007199254740993" = Finite 9007199254740992 /\
  calculateRideDuration "9007199254740993" "0" = Finite 8 /\
  Z.max 1 (Z.abs (9007199254740993 - 0) mod 24) = 9 /\
  calculateRideDuration "9007199254740993" "0"
  <> Finite (Z.max 1 (Z.abs (9007199254740993 - 0) mod 24)).
Proof.
  split; [vm_compute; reflexivity |]. split; [vm_compute; reflexivity |].
  split; [vm_compute; reflexivity |]. split; [vm_compute; reflexivity |].
  split; [vm_compute; reflexivity |]. vm_compute. discriminate.
Qed.

(** C9, amended.  For all code strings: when either is not read by
    [parseInt], the estimate is the fallback 2, returned as a value and
    not raised; when both are read and the difference of the two numbers
    read is finite, the estimate is [max(1, |from - to| mod 24)] on these
    numbers, the difference being taken in double precision, and lies in
    [1, 23]; it is 1 for twice the same code read as a finite number;
    and for codes of at most 15 characters the numbers read and their
    difference are the integers written themselves. *)
Theorem calculateRideDuration_spec (fromCode toCode : string) :
  (parseInt fromCode = NaN \/ parseInt toCode = NaN ->
   calculateRideDuration fromCode toCode = Finite 2) /\
  (forall f t d,
      parseInt fromCode = Finite f -> parseInt toCode = Finite t ->
      sub (Finite f) (Finite t) = Finite d ->
      calculateRideDuration fromCode toCode = Finite (Z.max 1 (Z.abs d mod 24)) /\
      1 <= Z.max 1 (Z.abs d mod 24) <= 23) /\
  (forall x, parseInt fromCode = Finite x ->
             calculateRideDuration fromCode fromCode = Finite 1) /\
  (forall f t,
      (String.length fromCode <= 15)%nat -> (String.length toCode <= 15)%nat ->
      JS.parseInt fromCode = Some f -> JS.parseInt toCode = Some t ->
      parseInt fromCode = Finite f /\ parseInt toCode = Finite t /\
      sub (Finite f) (Finite t) = Finite (f - t) /\
      calculateRideDuration fromCode toCode = Finite (Z.max 1 (Z.abs (f - t) mod 24))).
Proof.
  split; [| split; [| split]].
  - intros H. unfold calculateRideDuration, calculateRideDuration_try. cbv zeta.
    destruct H as [-> | ->]; [reflexivity |].
    destruct (isNaN (parseInt fromCode)); reflexivity.
  - intros f t d Hf Ht Hd. split.
    + apply (duration_of_difference _ _ f t d Hf Ht Hd).
    + pose proof (Z.mod_pos_bound (Z.abs d) 24 ltac:(lia)). lia.
  - intros x Hx. rewrite (duration_of_difference _ _ x x 0 Hx Hx).
    + reflexivity.
    + replace (x - x) with 0 by lia. reflexivity.
  - intros f t Hfrom Hto Hf Ht.
    pose proof (parseInt_exact_range fromCode f Hfrom Hf) as Bf.
    pose proof (parseInt_exact_range toCode t Hto Ht) as Bt.
    assert (Ef : parseInt fromCode = Finite f).
    { unfold parseInt. rewrite Hf. apply ofInteger_exact. lia. }
    assert (Et : parseInt toCode = Finite t).
    { unfold parseInt. rewrite Ht. apply ofInteger_exact. lia. }
    assert (Ed : sub (Finite f) (Finite t) = Finite (f - t)).
    { cbn [sub]. apply ofInteger_exact. lia. }
    split; [exact Ef |]. split; [exact Et |]. split; [exact Ed |].
    apply (duration_of_difference _ _ f t (f - t) Ef Et Ed).
Qed.

Lemma calculateRideDuration_spec_witness :
  (parseInt "110001" = Finite 110001 /\ parseInt "110029" = Finite 110029 /\
   calculateRideDuration "110001" "110029"
   = Finite (Z.max 1 (Z.abs (110001 - 110029) mod 24))) /\
  (parseInt "invalid" = NaN /\ calculateRideDuration "invalid" "123456" = Finite 2) /\
  calculateRideDuration "110001" "110001" = Finite 1 /\
  calculateRideDuration "9007199254740993" "1"
  = Finite (Z.max 1 (Z.abs (9007199254740992 - 1) mod 24)).
Proof.
  split; [| split; [| split]].
  - split; [reflexivity |]. split; [reflexivity |].
    apply (proj1 (proj2 (calculateRideDuration_spec "110001" "110029"))
             110001 110029 (-28)); reflexivity.
  - split; [reflexivity |].
    apply (proj1 (calculateRideDuration_spec "invalid" "123456")).
    left. reflexivity.
  - apply (proj1 (proj2 (proj2 (calculateRideDuration_spec "110001" "110001"))) 110001).
    reflexivity.
  - apply (proj1 (proj2 (calculateRideDuration_spec "9007199254740993" "1"))
             9007199254740992 1 (9007199254740992 - 1)); vm_compute; reflexivity.
Defined.

End DoublePrecision.

(** ** More of the helpers *)

Section MoreHelpers.
Import helpers.


End MoreHelpers.

(** ** Trimming and reading codes *)

Section Strings.
Import helpers helpersValues.

Lemma trimStart_head (s : string) :
  JS.trimStart s = "" \/
  exists c r, JS.trimStart s = String c r /\ JS.isWhiteSpace c = false.
Proof.
  induction s as [| c s IH]; [left; reflexivity |]. simpl.
  destruct (JS.isWhiteSpace c) eqn:E; [exact IH |].
  right. exists c, s. split; [reflexivity | exact E].
Qed.

Lemma trimEnd_head (c : ascii) (r : string) :
  JS.isWhiteSpace c = false -> exists r', JS.trimEnd (String c r) = String c r'.
Proof.
  intros Hc. cbn [JS.trimEnd]. destruct (JS.trimEnd r); [rewrite Hc |]; eauto.
Qed.

Lemma trimEnd_idem (s : string) : JS.trimEnd (JS.trimEnd s) = JS.trimEnd s.
Proof.
  induction s as [| c s IH]; [reflexivity |]. cbn [JS.trimEnd].
  destruct (JS.trimEnd s) as [| c' r] eqn:E.
  - destruct (JS.isWhiteSpace c) eqn:Hc; [reflexivity |].
    cbn [JS.trimEnd]. rewrite Hc. reflexivity.
  - cbn [JS.trimEnd]. cbn [JS.trimEnd] in IH. destruct (JS.trimEnd r) as [| c'' r'].
    + destruct (JS.isWhiteSpace c'); [discriminate IH |]. rewrite IH. reflexivity.
    + rewrite IH. reflexivity.
Qed.

(** [trim] is idempotent. *)
Lemma trim_idem (s : string) : JS.trim (JS.trim s) = JS.trim s.
Proof.
  unfold JS.trim.
  destruct (trimStart_head s) as [-> | (c & r & -> & Hc)]; [reflexivity |].
  destruct (trimEnd_head c r Hc) as [r' Hr]. rewrite Hr.
  cbn [JS.trimStart]. rewrite Hc, <- Hr. apply trimEnd_idem.
Qed.

(** A string is its [trimEnd] followed by white space. *)
Lemma trimEnd_split (s : string) :
  exists w, s = (JS.trimEnd s ++ w)%string /\ JS.trimStart w = "".
Proof.
  induction s as [| c s (w & Hs & Hw)]; [exists ""; split; reflexivity |].
  cbn [JS.trimEnd]. destruct (JS.trimEnd s) as [| c' r] eqn:E.
  - change (s = w) in Hs. subst w. destruct (JS.isWhiteSpace c) eqn:Hc.
    + exists (String c s). split; [reflexivity |]. cbn [JS.trimStart]. rewrite Hc. exact Hw.
    + exists s. split; [reflexivity | exact Hw].
  - exists w. split; [| exact Hw].
    change (String c s = String c (String c' r ++ w)%string). rewrite <- Hs. reflexivity.
Qed.

Lemma trimStart_idem (s : string) : JS.trimStart (JS.trimStart s) = JS.trimStart s.
Proof.
  destruct (trimStart_head s) as [-> | (c & r & -> & Hc)]; [reflexivity |].
  simpl. rewrite Hc. reflexivity.
Qed.

Lemma parseInt_trimStart (s : string) : JS.parseInt (JS.trimStart s) = JS.parseInt s.
Proof. unfold JS.parseInt. rewrite trimStart_idem. reflexivity. Qed.

Lemma space_not_digit (R : Z) (c : ascii) :
  JS.isWhiteSpace c = true -> JS.radixDigit R c = None.
Proof.
  unfold JS.isWhiteSpace, JS.radixDigit, JS.digitValue. cbv zeta. intros H.
  assert (Hn : 9 <= Z.of_nat (nat_of_ascii c) <= 13 \/ Z.of_nat (nat_of_ascii c) = 32 \/
               Z.of_nat (nat_of_ascii c) = 160).
  { apply orb_true_iff in H. destruct H as [H | H]; [apply orb_true_iff in H; destruct H as [H | H] |].
    - left. apply andb_true_iff in H. destruct H as [H1 H2].
      apply Z.leb_le in H1. apply Z.leb_le in H2. lia.
    - right. left. apply Z.eqb_eq. exact H.
    - right. right. apply Z.eqb_eq. exact H. }
  destruct ((48 <=? _) && _) eqn:E1.
  { apply andb_true_iff in E1. destruct E1 as [E1 E1'].
    apply Z.leb_le in E1. apply Z.leb_le in E1'. lia. }
  destruct ((97 <=? _) && _) eqn:E2.
  { apply andb_true_iff in E2. destruct E2 as [E2 E2'].
    apply Z.leb_le in E2. apply Z.leb_le in E2'. lia. }
  destruct ((65 <=? _) && _) eqn:E3.
  { apply andb_true_iff in E3. destruct E3 as [E3 E3'].
    apply Z.leb_le in E3. apply Z.leb_le in E3'. lia. }
  reflexivity.
Qed.

Lemma parseDigits_space (R : Z) (w : string) (acc : option Z) :
  JS.trimStart w = "" -> JS.parseDigits R w acc = acc.
Proof.
  destruct w as [| c w]; [reflexivity |]. simpl.
  destruct (JS.isWhiteSpace c) eqn:Hc; [| discriminate].
  intros _. rewrite (space_not_digit R c Hc). reflexivity.
Qed.

Lemma parseDigits_app (u w : string) (acc : option Z) :
  JS.allDigits u = true -> JS.trimStart w = "" ->
  JS.parseDigits 10 (u ++ w) acc = JS.parseDigits 10 u acc.
Proof.
  intros Hu Hw. revert acc Hu. induction u as [| c u IH]; intros acc Hu.
  - change ("" ++ w)%string with w. rewrite parseDigits_space by exact Hw. reflexivity.
  - simpl in Hu. apply andb_true_iff in Hu. destruct Hu as [Hc Hu].
    change (String c u ++ w)%string with (String c (u ++ w)%string).
    cbn [JS.parseDigits].
    destruct (radixDigit_digit c Hc) as (d & -> & _). apply IH, Hu.
Qed.

(** [parseInt] of a string that starts with two digits reads in radix 10,
    without a sign. *)
Lemma parseInt_two_digits (c c' : ascii) (r : string) :
  JS.isDigit c = true -> JS.isDigit c' = true ->
  JS.parseInt (String c (String c' r))
  = match JS.parseDigits 10 (String c (String c' r)) None with
    | Some n => Some (1 * n)
    | None => None
    end.
Proof.
  intros Hc Hc'. unfold JS.parseInt. cbn [JS.trimStart].
  rewrite (isDigit_not_space c Hc).
  destruct (isDigit_cases c Hc) as (H1 & H2 & _).
  destruct (isDigit_cases c' Hc') as (_ & _ & H3 & H4).
  assert (Hsign : match String c (String c' r) with
                  | String "-" t => (-1, t)
                  | String "+" t => (1, t)
                  | _ => (1, String c (String c' r))
                  end = (1, String c (String c' r))).
  { pose proof (sign_cases (String c (String c' r))) as _.
    destruct (Ascii.eqb_spec c "-") as [-> | Hm]; [exfalso; auto |].
    destruct (Ascii.eqb_spec c "+") as [-> | Hp]; [exfalso; auto |].
    destruct c as [[] [] [] [] [] [] [] []]; try reflexivity; exfalso; auto. }
  rewrite Hsign.
  assert (Hradix : match String c (String c' r) with
                   | String "0" (String "x" t) => (16, t)
                   | String "0" (String "X" t) => (16, t)
                   | _ => (10, String c (String c' r))
                   end = (10, String c (String c' r))).
  { destruct (Ascii.eqb_spec c "0") as [-> | Hz].
    - destruct c' as [[] [] [] [] [] [] [] []]; try reflexivity; exfalso; auto.
    - destruct c as [[] [] [] [] [] [] [] []]; try reflexivity; exfalso; auto. }
  rewrite Hradix. reflexivity.
Qed.

Lemma sixDigits_shape (u : string) :
  JS.sixDigits u = true ->
  JS.allDigits u = true /\ String.length u = 6%nat /\
  exists c c' r, u = String c (String c' r) /\ JS.isDigit c = true /\ JS.isDigit c' = true.
Proof.
  unfold JS.sixDigits. intros H. apply andb_true_iff in H. destruct H as [Hlen Hd].
  apply Z.eqb_eq in Hlen. split; [exact Hd |]. split; [lia |].
  destruct u as [| c [| c' r]]; try (simpl in Hlen; lia).
  exists c, c', r. simpl in Hd.
  apply andb_true_iff in Hd. destruct Hd as [Hc Hd].
  apply andb_true_iff in Hd. destruct Hd as [Hc' _]. auto.
Qed.

(** [parseInt] reads the six digits of a code whatever white space
    surrounds them. *)
Lemma parseInt_trimmed_sixDigits (s : string) :
  JS.sixDigits (JS.trim s) = true ->
  exists n, JS.parseInt s = Some n /\ 0 <= n <= 999999.
Proof.
  intros H. destruct (sixDigits_shape _ H) as (Hd & Hlen & c & c' & r & Hu & Hc & Hc').
  unfold JS.trim in *.
  destruct (trimEnd_split (JS.trimStart s)) as (w & Hs & Hw).
  rewrite <- parseInt_trimStart, Hs, Hu.
  change (String c (String c' r) ++ w)%string with (String c (String c' (r ++ w)%string)).
  rewrite parseInt_two_digits by assumption.
  change (String c (String c' (r ++ w)))%string
    with (String c (String c' r) ++ w)%string.
  rewrite <- Hu, parseDigits_app by assumption.
  destruct (JS.parseDigits 10 (JS.trimEnd (JS.trimStart s)) None) as [n |] eqn:Hn.
  - apply parseDigits_start_bound in Hn; [| lia]. rewrite Hlen in Hn.
    exists (1 * n). split; [reflexivity |]. change (10 ^ Z.of_nat 6) with 1000000 in Hn. lia.
  - exfalso. rewrite Hu in Hn. cbn [JS.parseDigits] in Hn.
    destruct (radixDigit_digit c Hc) as (d & Hd' & _). rewrite Hd' in Hn.
    change (JS.parseDigits 10 (String c' r) (Some d) = None) in Hn.
    destruct (parseDigits_some 10 (String c' r) d ltac:(lia)
                ltac:(apply radixDigit_bound in Hd'; lia)) as (m & Hm & _).
    congruence.
Qed.

(** X3. A value that [isValidPincode] accepts is a string from which
    [parseInt] reads a number between 0 and 999999, and whose trimmed
    form passes the pincode validators of the Booking schema; for two
    such codes the duration is computed by the formula, never by the
    fallback, and the cost is a number. *)
Theorem isValidPincode_parses (a b : Json.value) :
  isValidPincode a = true -> isValidPincode b = true ->
  exists sa sb f t,
    a = Json.JStr sa /\ b = Json.JStr sb /\
    JS.parseInt sa = Some f /\ JS.parseInt sb = Some t /\
    0 <= f <= 999999 /\ 0 <= t <= 999999 /\
    Booking.validatePincode "From pincode is required" (JS.trim sa) = [] /\
    Booking.validatePincode "To pincode is required" (JS.trim sb) = [] /\
    calculateRideDuration sa sb = Z.max 1 (Z.abs (f - t) mod 24) /\
    forall hours capacityKg, calculateBookingCost hours capacityKg sa sb <> None.
Proof.
  unfold isValidPincode.
  destruct a as [| | | sa |]; try discriminate.
  destruct b as [| | | sb |]; try discriminate.
  destruct (String.eqb sa ""); [discriminate |].
  destruct (String.eqb sb ""); [discriminate |].
  intros Ha Hb.
  destruct (parseInt_trimmed_sixDigits sa Ha) as (f & Hf & Hfr).
  destruct (parseInt_trimmed_sixDigits sb Hb) as (t & Ht & Htr).
  exists sa, sb, f, t.
  split; [reflexivity |]. split; [reflexivity |].
  split; [exact Hf |]. split; [exact Ht |]. split; [exact Hfr |]. split; [exact Htr |].
  split; [apply validatePincode_sixDigits, Ha |].
  split; [apply validatePincode_sixDigits, Hb |].
  split; [apply duration_parsed; assumption |].
  intros hours capacityKg. unfold calculateBookingCost. rewrite Hf, Ht. discriminate.
Qed.

Lemma isValidPincode_parses_witness :
  exists f t,
    JS.parseInt " 110001" = Some f /\ JS.parseInt "110005 " = Some t /\
    calculateRideDuration " 110001" "110005 " = Z.max 1 (Z.abs (f - t) mod 24).
Proof.
  destruct (isValidPincode_parses (Json.JStr " 110001") (Json.JStr "110005 ")
              eq_refl eq_refl)
    as (sa & sb & f & t & Ha & Hb & Hf & Ht & _ & _ & _ & _ & Hd & _).
  injection Ha as <-. injection Hb as <-.
  exists f, t. auto.
Defined.

Lemma sanitizeValue_idem (v : Json.value) : sanitizeValue (sanitizeValue v) = sanitizeValue v.
Proof. destruct v; cbn; try reflexivity. rewrite trim_idem. reflexivity. Qed.

(** [sanitizeInput] in one equation: the entries other than [__proto__],
    sanitized, and the prototype that the entry [__proto__] sets. *)
Lemma sanitizeInput_eq (data : gmap string Json.value) :
  sanitizeInput data
  = mkSanitized (sanitizeValue <$> delete "__proto__" data)
      match data !! "__proto__" with
      | Some Json.JNull => Some Json.JNull
      | Some Json.JOther => Some Json.JOther
      | _ => None
      end.
Proof.
  unfold sanitizeInput.
  apply (map_fold_weak_ind
           (fun r m => r = mkSanitized (sanitizeValue <$> delete "__proto__" m)
                             match m !! "__proto__" with
                             | Some Json.JNull => Some Json.JNull
                             | Some Json.JOther => Some Json.JOther
                             | _ => None
                             end)).
  - rewrite delete_empty, fmap_empty, lookup_empty. reflexivity.
  - intros key value m r Hkey ->. unfold assign.
    destruct (String.eqb_spec key "__proto__") as [-> | Hne].
    + rewrite lookup_insert_eq, delete_insert_eq.
      rewrite Hkey. destruct value; reflexivity.
    + cbn [properties prototype].
      rewrite (lookup_insert_ne m key "__proto__" value) by exact Hne.
      rewrite delete_insert_ne by (intros E; apply Hne; symmetry; exact E).
      rewrite fmap_insert. reflexivity.
Qed.

(** X4. [sanitizeInput] keeps the keys of the object other than
    [__proto__], trims every string under them and leaves every other
    value as it is; it never creates a property [__proto__]: an entry of
    this key replaces the prototype when its value is an object or
    [null], and is dropped otherwise; sanitizing the properties of the
    result again changes none of them. *)
Theorem sanitizeInput_idempotent (data : gmap string Json.value) :
  dom (properties (sanitizeInput data)) = dom data ∖ {["__proto__"]} /\
  (forall key s, key <> "__proto__" -> data !! key = Some (Json.JStr s) ->
                 properties (sanitizeInput data) !! key = Some (Json.JStr (JS.trim s))) /\
  (forall key v, key <> "__proto__" -> data !! key = Some v ->
                 (forall s, v <> Json.JStr s) ->
                 properties (sanitizeInput data) !! key = Some v) /\
  properties (sanitizeInput data) !! "__proto__" = None /\
  prototype (sanitizeInput data)
  = match data !! "__proto__" with
    | Some Json.JNull => Some Json.JNull
    | Some Json.JOther => Some Json.JOther
    | _ => None
    end /\
  sanitizeInput (properties (sanitizeInput data))
  = mkSanitized (properties (sanitizeInput data)) None.
Proof.
  rewrite !sanitizeInput_eq. cbn [properties prototype].
  split; [| split; [| split; [| split; [| split]]]].
  - rewrite dom_fmap_L, dom_delete_L. reflexivity.
  - intros key s Hne H. rewrite lookup_fmap, lookup_delete_ne, H by congruence.
    reflexivity.
  - intros key v Hne H Hv. rewrite lookup_fmap, lookup_delete_ne, H by congruence.
    destruct v; try reflexivity. exfalso. apply (Hv s). reflexivity.
  - rewrite lookup_fmap, lookup_delete_eq. reflexivity.
  - reflexivity.
  - rewrite lookup_fmap, lookup_delete_eq. cbn [fmap option_fmap option_map]. f_equal.
    rewrite delete_id by (rewrite lookup_fmap, lookup_delete_eq; reflexivity).
    rewrite <- map_fmap_compose. apply map_fmap_ext. intros key v _.
    apply sanitizeValue_idem.
Qed.

Lemma sanitizeInput_idempotent_witness :
  properties
    (sanitizeInput
       (<["customerId" := Json.JStr " CUST001 "]>
          (<["__proto__" := Json.JStr "x"]> (<["tyres" := Json.JNum 6]> ∅))))
    !! "customerId" = Some (Json.JStr "CUST001") /\
  properties
    (sanitizeInput
       (<["customerId" := Json.JStr " CUST001 "]>
          (<["__proto__" := Json.JStr "x"]> (<["tyres" := Json.JNum 6]> ∅))))
    !! "tyres" = Some (Json.JNum 6) /\
  properties
    (sanitizeInput
       (<["customerId" := Json.JStr " CUST001 "]>
          (<["__proto__" := Json.JStr "x"]> (<["tyres" := Json.JNum 6]> ∅))))
    !! "__proto__" = None.
Proof.
  destruct (sanitizeInput_idempotent
              (<["customerId" := Json.JStr " CUST001 "]>
                 (<["__proto__" := Json.JStr "x"]> (<["tyres" := Json.JNum 6]> ∅))))
    as (_ & Hstr & Hother & Hproto & _).
  split; [| split].
  - apply (Hstr "customerId" " CUST001 "); [discriminate | reflexivity].
  - apply (Hother "tyres" (Json.JNum 6)); [discriminate | reflexivity | discriminate].
  - exact Hproto.
Defined.

End Strings.

(** ** The request validator and the schema of vehicles agree *)

Section VehicleValidation.
Import vehicleController.

Lemma nameRule_inr (x : option Json.value) (n : string) :
  validation.nameRule x = inr n ->
  JS.trim n = n /\ n <> "" /\ (2 <= String.length n <= 100)%nat.
Proof.
  unfold validation.nameRule. destruct x as [[| | | s |] |]; try discriminate.
  destruct (String.eqb_spec (JS.trim s) ""); [discriminate |].
  destruct (Z.ltb_spec (Z.of_nat (String.length (JS.trim s))) 2); [discriminate |].
  destruct (Z.ltb_spec 100 (Z.of_nat (String.length (JS.trim s)))); [discriminate |].
  intros [= <-]. split; [apply trim_idem |]. split; [assumption | lia].
Qed.

Lemma capacityRule_inr (co : Json.Coercions) (x : option Json.value) (c : Q) :
  validation.capacityRule co x = inr c ->
  Qle_bool 1 c = true /\ Qle_bool c 50000 = true.
Proof.
  unfold validation.capacityRule. destruct x as [v |]; [| discriminate].
  destruct (validation.numberOf co v) as [q |]; [| discriminate].
  destruct (Qle_bool q 0); [discriminate |].
  destruct (Qle_bool 1 q) eqn:E1; [| discriminate].
  destruct (Qle_bool q 50000) eqn:E2; [| discriminate].
  intros [= <-]. auto.
Qed.

Lemma tyresRule_inr (co : Json.Coercions) (x : option Json.value) (t : Q) :
  validation.tyresRule co x = inr t ->
  Qeq_bool t (inject_Z (Qfloor t)) = true /\ Qle_bool 2 t = true /\ Qle_bool t 18 = true.
Proof.
  unfold validation.tyresRule. destruct x as [v |]; [| discriminate].
  destruct (validation.numberOf co v) as [q |]; [| discriminate].
  destruct (Qeq_bool q (inject_Z (Qfloor q))) eqn:E1; [| discriminate].
  destruct (Qle_bool 2 q) eqn:E2; [| discriminate].
  destruct (Qle_bool q 18) eqn:E3; [| discriminate].
  intros [= <-]. auto.
Qed.

Lemma validateName_ok (n : string) :
  n <> "" -> (2 <= String.length n <= 100)%nat -> Vehicle.validateName (Some n) = [].
Proof.
  intros Hn Hlen. unfold Vehicle.validateName.
  destruct (String.eqb_spec n ""); [contradiction |].
  destruct (Z.ltb_spec (Z.of_nat (String.length n)) 2); [lia |].
  destruct (Z.ltb_spec 100 (Z.of_nat (String.length n))); [lia |]. reflexivity.
Qed.

(** The model builds the document of a validated value. *)
Lemma build_validated (co : Json.Coercions) (n : string) (c t : Q) :
  JS.trim n = n -> n <> "" -> (2 <= String.length n <= 100)%nat ->
  Qle_bool 1 c = true -> Qle_bool c 50000 = true ->
  Qle_bool 2 t = true -> Qle_bool t 18 = true ->
  Vehicle.build co
    (pick ["name"; "capacityKg"; "tyres"]
       (<["name" := Json.JStr n]>
          (<["capacityKg" := Json.JNum c]> (<["tyres" := Json.JNum t]> ∅))))
  = inr (fun id => Vehicle.mk id n c t Vehicle.active).
Proof.
  intros Htrim Hn Hlen Hc1 Hc2 Ht1 Ht2.
  assert (Hpick : pick ["name"; "capacityKg"; "tyres"]
                    (<["name" := Json.JStr n]>
                       (<["capacityKg" := Json.JNum c]> (<["tyres" := Json.JNum t]> ∅)))
                  = <["name" := Json.JStr n]>
                      (<["capacityKg" := Json.JNum c]> (<["tyres" := Json.JNum t]> ∅))).
  { unfold pick. cbn [foldr].
    rewrite lookup_insert_eq.
    rewrite (lookup_insert_ne _ "name" "capacityKg") by discriminate.
    rewrite lookup_insert_eq.
    rewrite (lookup_insert_ne _ "name" "tyres") by discriminate.
    rewrite (lookup_insert_ne _ "capacityKg" "tyres") by discriminate.
    rewrite lookup_insert_eq. reflexivity. }
  rewrite Hpick. unfold Vehicle.build.
  rewrite lookup_insert_eq.
  rewrite (lookup_insert_ne _ "name" "capacityKg") by discriminate.
  rewrite lookup_insert_eq.
  rewrite (lookup_insert_ne _ "name" "tyres") by discriminate.
  rewrite (lookup_insert_ne _ "capacityKg" "tyres") by discriminate.
  rewrite lookup_insert_eq.
  rewrite (lookup_insert_ne _ "name" "status") by discriminate.
  rewrite (lookup_insert_ne _ "capacityKg" "status") by discriminate.
  rewrite (lookup_insert_ne _ "tyres" "status") by discriminate.
  rewrite lookup_empty.
  cbn [Vehicle.orElse Vehicle.castString Vehicle.castNumber option_map Vehicle.statusPath].
  rewrite Htrim, (validateName_ok n Hn Hlen).
  unfold Vehicle.validateCapacityKg, Vehicle.validateTyres.
  rewrite Hc1, Hc2, Ht1, Ht2. reflexivity.
Qed.

Lemma postVehicle_eq (co : Json.Coercions) (body : gmap string Json.value) (s : Store) :
  (exists errors,
      validation.vehicleSchema co body = inl errors /\
      routes.postVehicle co body s
      = (Failure 400 (String.concat ", " errors) (Some (validationErrors errors)), s)) \/
  (exists n c t,
      validation.nameRule (body !! "name") = inr n /\
      validation.capacityRule co (body !! "capacityKg") = inr c /\
      validation.tyresRule co (body !! "tyres") = inr t /\
      routes.postVehicle co body s
      = (Success 201 "Vehicle added successfully"
           (Vehicle.mk (Mongo.nextId (vehicles s)) n c t Vehicle.active),
         addVehicleTo (Vehicle.mk (Mongo.nextId (vehicles s)) n c t Vehicle.active) s)).
Proof.
  unfold routes.postVehicle, validation.validateVehicle, validation.vehicleSchema.
  destruct (validation.nameRule (body !! "name")) as [e1 | n] eqn:Hn;
    [left; eexists; split; reflexivity |].
  destruct (validation.capacityRule co (body !! "capacityKg")) as [e2 | c] eqn:Hc;
    [left; eexists; split; reflexivity |].
  destruct (validation.tyresRule co (body !! "tyres")) as [e3 | t] eqn:Ht;
    [left; eexists; split; reflexivity |].
  right. exists n, c, t. split; [reflexivity |]. split; [reflexivity |].
  split; [reflexivity |].
  destruct (nameRule_inr _ _ Hn) as (H1 & H2 & H3).
  destruct (capacityRule_inr _ _ _ Hc) as (H4 & H5).
  destruct (tyresRule_inr _ _ _ Ht) as (_ & H6 & H7).
  rewrite addVehicle_eq, (build_validated co n c t H1 H2 H3 H4 H5 H6 H7). reflexivity.
Qed.

Lemma validated_vehicle_in_bounds (co : Json.Coercions) (body : gmap string Json.value)
    (n : string) (c t : Q) (id : Mongo.ObjectId) :
  validation.nameRule (body !! "name") = inr n ->
  validation.capacityRule co (body !! "capacityKg") = inr c ->
  validation.tyresRule co (body !! "tyres") = inr t ->
  vehicleInBounds (Vehicle.mk id n c t Vehicle.active).
Proof.
  intros Hn Hc Ht.
  destruct (nameRule_inr _ _ Hn) as (H1 & H2 & H3).
  destruct (capacityRule_inr _ _ _ Hc) as (H4 & H5).
  destruct (tyresRule_inr _ _ _ Ht) as (H8 & H6 & H7).
  unfold vehicleInBounds. cbn [Vehicle.name Vehicle.capacityKg Vehicle.tyres].
  split; [exact H1 |]. split; [exact H3 |].
  split; [split; apply Qle_bool_iff; assumption |].
  split; [split; apply Qle_bool_iff; assumption |].
  apply Qeq_bool_iff. exact H8.
Qed.

(** X5. [POST /api/vehicles] answers 400 with the messages of the
    request validator and writes nothing, or answers 201 and writes
    exactly one vehicle, active and within the bounds of the schema, whose
    id is the fresh one: the schema never refuses what the request
    validator admits, so that no error is passed on. *)
Theorem postVehicle_answers (co : Json.Coercions) (body : gmap string Json.value)
    (s : Store) :
  (exists errors,
      routes.postVehicle co body s
      = (Failure 400 (String.concat ", " errors) (Some (validationErrors errors)), s)) \/
  (exists v,
      routes.postVehicle co body s
      = (Success 201 "Vehicle added successfully" v, addVehicleTo v s) /\
      Vehicle._id v = Mongo.nextId (vehicles s) /\
      Vehicle.status v = Vehicle.active /\
      vehicleInBounds v).
Proof.
  destruct (postVehicle_eq co body s)
    as [(errors & _ & H) | (n & c & t & Hn & Hc & Ht & H)].
  - left. exists errors. exact H.
  - right. eexists. split; [exact H |]. split; [reflexivity |]. split; [reflexivity |].
    eapply validated_vehicle_in_bounds; eassumption.
Qed.

End VehicleValidation.

(** ** The effect of one operation, and what every reachable store satisfies *)

Section Stores.
Import bookingController vehicleController.

Lemma vehicle_statusOfName_inv (status : string) (st : Vehicle.Status) :
  Vehicle.statusOfName status = Some st -> status = Vehicle.statusName st.
Proof.
  unfold Vehicle.statusOfName.
  destruct (String.eqb_spec status "active"); [intros [= <-]; assumption |].
  destruct (String.eqb_spec status "maintenance"); [intros [= <-]; assumption |].
  destruct (String.eqb_spec status "retired"); [intros [= <-]; assumption |].
  discriminate.
Qed.

Lemma vehicle_statusOfName_name (st : Vehicle.Status) :
  Vehicle.statusOfName (Vehicle.statusName st) = Some st.
Proof. destruct st; reflexivity. Qed.

Lemma vehicle_statusOfName_valid (status : string) :
  existsb (String.eqb status) ["active"; "maintenance"; "retired"]
  = match Vehicle.statusOfName status with Some _ => true | None => false end.
Proof.
  unfold Vehicle.statusOfName. cbn [existsb].
  destruct (String.eqb status "active"); [reflexivity |].
  destruct (String.eqb status "maintenance"); [reflexivity |].
  destruct (String.eqb status "retired"); reflexivity.
Qed.

Lemma updateVehicleStatus_eq (id : Mongo.ObjectId) (status : string) (s : Store) :
  updateVehicleStatus id status s =
  match Vehicle.statusOfName status with
  | None =>
      (Failure 400 "Invalid status. Must be: active, maintenance, or retired" None, s)
  | Some st =>
      match vehicleById s id with
      | Some v =>
          (Success 200 ("Vehicle status updated to " ++ status)%string (Vehicle.setStatus st v),
           replaceVehicle id (Vehicle.setStatus st) s)
      | None => (VehicleNotFound, s)
      end
  end.
Proof.
  unfold updateVehicleStatus. rewrite vehicle_statusOfName_valid.
  destruct (Vehicle.statusOfName status) as [st |]; [| reflexivity].
  cbn [negb]. unfold bind, onVehicles, Mongo.findByIdAndUpdate, vehicleById, replaceVehicle.
  destruct (List.find _ (Mongo.docs (vehicles s))); cbn [ret]; [reflexivity |].
  rewrite store_eta. reflexivity.
Qed.

Lemma exec_effect (op : Op) (s : Store) : Effect s op (exec op s).
Proof.
  destruct op as [co body | id status | query | now body | id status | now id];
    cbn [exec].
  - destruct (postVehicle_eq co body s)
      as [(errors & _ & H) | (n & c & t & Hn & Hc & Ht & H)]; rewrite H; cbn [snd].
    + constructor.
    + eapply VehicleAdded; [reflexivity | reflexivity | reflexivity |].
      eapply validated_vehicle_in_bounds; eassumption.
  - rewrite updateVehicleStatus_eq.
    destruct (Vehicle.statusOfName status) as [st |] eqn:Hst; [| constructor].
    destruct (vehicleById s id) as [v |] eqn:Hv; [| constructor].
    cbn [snd]. apply vehicle_statusOfName_inv in Hst. subst status.
    eapply VehicleStatusSet; [reflexivity | exact Hv].
  - rewrite findAvailableVehicles_store. constructor.
  - rewrite createBooking_eq.
    destruct (vehicleById s (vehicleId body)) as [v |] eqn:Hv; [| constructor].
    destruct (String.eqb (Vehicle.statusName (Vehicle.status v)) "active") eqn:Hact;
      cbn [negb]; [| constructor].
    apply vehicle_active_eqb in Hact.
    destruct (conflictsOf s body) eqn:Hc; [| constructor].
    destruct (Booking.i_totalCost (newBooking body v)) as [cost |] eqn:Hcost;
      [| constructor].
    unfold schemaAccepts. rewrite Hcost.
    destruct (Booking.validate now (newDocument body v cost 0%nat)) eqn:Hval;
      [| constructor].
    cbn [snd]. eapply BookingAdded; try eassumption; reflexivity.
  - rewrite updateBookingStatus_eq.
    destruct (Booking.statusOfName status) as [st |] eqn:Hst; [| constructor].
    destruct (bookingById s id) as [b |] eqn:Hb; [| constructor].
    cbn [snd]. apply statusOfName_inv in Hst. subst status.
    eapply BookingStatusSet; [exact Hb | left; reflexivity].
  - rewrite cancelBooking_eq.
    destruct (bookingById s id) as [b |] eqn:Hb; [| constructor].
    destruct (String.eqb (Booking.statusName (Booking.status b)) "confirmed") eqn:Hst;
      cbn [negb]; [| constructor].
    apply booking_confirmed_eqb in Hst.
    destruct (Z.leb_spec hour (Booking.startTime b - now)); cbn [negb]; [| constructor].
    destruct (Booking.validate now _); [| constructor].
    cbn [snd]. eapply BookingStatusSet; [exact Hb |].
    right. exists now. auto.
Qed.

End Stores.

(** ** What every reachable store satisfies *)

Section Consistency.
Import bookingController vehicleController.

Lemma app_nil_both {A : Type} (l l' : list A) : (l ++ l' = [] -> l = [] /\ l' = [])%list.
Proof. destruct l; [auto | discriminate]. Qed.

Lemma validateStatic_bounds (b : Booking.t) :
  Booking.validateStatic b = [] ->
  Booking.customerId b <> "" /\
  (String.length (Booking.customerId b) <= 50)%nat /\
  JS.sixDigits (Booking.fromPincode b) = true /\
  JS.sixDigits (Booking.toPincode b) = true /\
  (0 <= Booking.totalCost b)%Q.
Proof.
  unfold Booking.validateStatic. intros H.
  apply app_nil_both in H. destruct H as [Hc H].
  apply app_nil_both in H. destruct H as [Hf H].
  apply app_nil_both in H. destruct H as [Ht H].
  apply app_nil_both in H. destruct H as [_ Hcost].
  unfold Booking.validateCustomerId in Hc.
  destruct (String.eqb_spec (Booking.customerId b) ""); [discriminate |].
  destruct (Z.ltb_spec 50 (Z.of_nat (String.length (Booking.customerId b))));
    [discriminate |].
  unfold Booking.validatePincode in Hf, Ht.
  apply app_nil_both in Hf. destruct Hf as [_ Hf].
  apply app_nil_both in Hf. destruct Hf as [Hf _].
  apply app_nil_both in Ht. destruct Ht as [_ Ht].
  apply app_nil_both in Ht. destruct Ht as [Ht _].
  destruct (JS.sixDigits (Booking.fromPincode b)); [| discriminate].
  destruct (JS.sixDigits (Booking.toPincode b)); [| discriminate].
  unfold Booking.validateTotalCost in Hcost.
  destruct (Qle_bool 0 (Booking.totalCost b)) eqn:E; [| discriminate].
  apply Qle_bool_iff in E.
  split; [assumption |]. split; [lia |]. auto.
Qed.

Lemma newDocument_inBounds now body v cost id :
  Booking.validate now (newDocument body v cost id) = [] ->
  bookingInBounds (newDocument body v cost id).
Proof.
  intros H. apply validate_nil in H. destruct H as [H _].
  apply validateStatic_bounds in H. destruct H as (H1 & H2 & H3 & H4 & H5).
  unfold bookingInBounds. repeat (split; [assumption |]).
  cbn [newDocument Booking.startTime Booking.endTime Booking.estimatedRideDurationHours
       Booking.totalCost requestedWindow fst snd].
  split; [apply duration_range |]. split; [unfold endOfWindow; lia | exact H5].
Qed.

Lemma idsFresh_insert {D : Type} (idOf : D -> Mongo.ObjectId) (c : Mongo.Collection D)
    (d : D) :
  idsFresh idOf c -> idOf d = Mongo.nextId c ->
  idsFresh idOf (Mongo.mkCollection (Mongo.docs c ++ [d]) (S (Mongo.nextId c))).
Proof.
  intros [Hnd Hlt] Hd. unfold idsFresh. cbn [Mongo.docs Mongo.nextId]. split.
  - rewrite map_app. cbn [map].
    apply NoDup_app. split; [exact Hnd |]. split.
    + intros x Hx Hx'. apply list_elem_of_In in Hx, Hx'.
      destruct Hx' as [<- | []]. apply in_map_iff in Hx.
      destruct Hx as (y & Hy & Hin).
      rewrite List.Forall_forall in Hlt. specialize (Hlt y Hin). lia.
    + apply NoDup_singleton.
  - apply Forall_app. split.
    + eapply List.Forall_impl; [| exact Hlt]. cbv beta. intros; lia.
    + constructor; [lia | constructor].
Qed.

Lemma updateFirst_ids {D : Type} (idOf : D -> Mongo.ObjectId) (id : Mongo.ObjectId)
    (f : D -> D) (l : list D) :
  (forall x, idOf (f x) = idOf x) ->
  map idOf (Mongo.updateFirst idOf id f l) = map idOf l.
Proof.
  intros Hf. induction l as [| d l IH]; [reflexivity |].
  cbn [Mongo.updateFirst]. destruct (Nat.eqb (idOf d) id); cbn [map].
  - rewrite Hf. reflexivity.
  - rewrite IH. reflexivity.
Qed.

Lemma idsFresh_update {D : Type} (idOf : D -> Mongo.ObjectId) (c : Mongo.Collection D)
    (id : Mongo.ObjectId) (f : D -> D) :
  (forall x, idOf (f x) = idOf x) ->
  idsFresh idOf c ->
  idsFresh idOf (Mongo.mkCollection (Mongo.updateFirst idOf id f (Mongo.docs c))
                                    (Mongo.nextId c)).
Proof.
  intros Hf [Hnd Hlt]. unfold idsFresh. cbn [Mongo.docs Mongo.nextId]. split.
  - rewrite updateFirst_ids by exact Hf. exact Hnd.
  - apply updateFirst_Forall; [| exact Hlt]. intros d _ Hd. rewrite Hf. exact Hd.
Qed.

Lemma find_app_found {A : Type} (p : A -> bool) (l l' : list A) (d : A) :
  List.find p l = Some d -> List.find p (l ++ l')%list = Some d.
Proof.
  induction l as [| x l IH]; [discriminate |].
  cbn [List.find app]. destruct (p x); auto.
Qed.

Lemma updateFirst_find_other {D : Type} (idOf : D -> Mongo.ObjectId)
    (id id' : Mongo.ObjectId) (f : D -> D) (l : list D) (d : D) :
  (forall x, idOf (f x) = idOf x) ->
  List.find (fun x => Nat.eqb (idOf x) id') l = Some d ->
  List.find (fun x => Nat.eqb (idOf x) id') (Mongo.updateFirst idOf id f l) = Some d \/
  List.find (fun x => Nat.eqb (idOf x) id') (Mongo.updateFirst idOf id f l) = Some (f d) /\
  id' = id.
Proof.
  intros Hf. induction l as [| x l IH]; [discriminate |].
  cbn [List.find Mongo.updateFirst].
  destruct (Nat.eqb_spec (idOf x) id') as [Ex | Ex].
  - intros [= <-]. destruct (Nat.eqb_spec (idOf x) id) as [Ei | Ei]; cbn [List.find].
    + rewrite Hf. rewrite <- Ex. rewrite Nat.eqb_refl. right. split; [reflexivity | lia].
    + rewrite <- Ex. rewrite Nat.eqb_refl. left. reflexivity.
  - intros H. destruct (Nat.eqb_spec (idOf x) id) as [Ei | Ei]; cbn [List.find].
    + rewrite Hf. destruct (Nat.eqb_spec (idOf x) id'); [contradiction |]. left. exact H.
    + destruct (Nat.eqb_spec (idOf x) id'); [contradiction |]. apply IH, H.
Qed.

Lemma consistent_empty : consistent emptyStore.
Proof.
  unfold consistent, idsFresh. cbn.
  repeat split; constructor.
Qed.

Lemma effect_consistent (op : Op) (s s' : Store) :
  consistent s -> Effect s op s' -> consistent s'.
Proof.
  intros (Hv & Hb & Hvb & Hbb & Href) HE.
  destruct HE as [| now body v cost _ Hfound _ _ _ Hval
                  | id st b Hfound _
                  | co body v _ Hid _ Hin
                  | id st v _ Hfound].
  - unfold consistent. auto.
  - unfold consistent. cbn [addBooking vehicles bookings Mongo.docs].
    split; [exact Hv |]. split; [apply idsFresh_insert; [exact Hb | reflexivity] |].
    split; [exact Hvb |]. split.
    + apply Forall_app. split; [exact Hbb |].
      constructor; [| constructor]. eapply newDocument_inBounds, Hval.
    + apply Forall_app. split; [exact Href |].
      constructor; [| constructor]. exists v. exact Hfound.
  - unfold consistent. cbn [replaceBooking vehicles bookings Mongo.docs].
    split; [exact Hv |].
    split; [apply idsFresh_update; [intros x; reflexivity | exact Hb] |].
    split; [exact Hvb |]. split.
    + apply updateFirst_Forall; [| exact Hbb]. intros d _ Hd. exact Hd.
    + apply updateFirst_Forall; [| exact Href]. intros d _ Hd. exact Hd.
  - unfold consistent. cbn [addVehicleTo vehicles bookings Mongo.docs].
    split; [apply idsFresh_insert; [exact Hv | exact Hid] |].
    split; [exact Hb |]. split.
    + apply Forall_app. split; [exact Hvb |]. constructor; [exact Hin | constructor].
    + split; [exact Hbb |].
      eapply List.Forall_impl; [| exact Href]. cbv beta.
      intros b [w Hw]. exists w. unfold vehicleById. cbn [vehicles Mongo.docs].
      apply find_app_found. exact Hw.
  - unfold consistent. cbn [replaceVehicle vehicles bookings Mongo.docs].
    split; [apply idsFresh_update; [intros x; reflexivity | exact Hv] |].
    split; [exact Hb |]. split.
    + apply updateFirst_Forall; [| exact Hvb]. intros d _ Hd. exact Hd.
    + split; [exact Hbb |].
      eapply List.Forall_impl; [| exact Href]. cbv beta.
      intros b [w Hw]. unfold vehicleById. cbn [vehicles Mongo.docs].
      destruct (updateFirst_find_other Vehicle._id id (Booking.vehicleId b)
                  (Vehicle.setStatus st) _ w (fun x => eq_refl) Hw) as [H | [H _]];
        eexists; exact H.
Qed.

Lemma reachable_consistent (s : Store) : reachable s -> consistent s.
Proof.
  induction 1 as [| op s _ IH]; [apply consistent_empty |].
  eapply effect_consistent; [exact IH | apply exec_effect].
Qed.

End Consistency.

(** ** Stored documents *)

Section StoredDocuments.
Import bookingController vehicleController.

Lemma find_unique {D : Type} (idOf : D -> Mongo.ObjectId) (l : list D) (d : D) :
  NoDup (map idOf l) -> In d l ->
  List.find (fun x => Nat.eqb (idOf x) (idOf d)) l = Some d.
Proof.
  induction l as [| x l IH]; intros Hnd Hin; [destruct Hin |].
  cbn [map] in Hnd. apply NoDup_cons in Hnd. destruct Hnd as [Hx Hnd].
  cbn [List.find]. destruct Hin as [-> | Hin].
  - rewrite Nat.eqb_refl. reflexivity.
  - destruct (Nat.eqb_spec (idOf x) (idOf d)) as [E | _]; [| apply IH; assumption].
    exfalso. apply Hx. rewrite E. apply list_elem_of_In, in_map, Hin.
Qed.

Lemma booked_bookings :
  Mongo.docs (bookings booked)
  = [Booking.mk 0%nat 0%nat "CUST001" "110001" "110005" (2 * hour) (6 * hour) 4
       Booking.confirmed (1000000 # 100)].
Proof. vm_compute. reflexivity. Qed.

Lemma booked_vehicles : Mongo.docs (vehicles booked) = [truck].
Proof. vm_compute. reflexivity. Qed.

(** X6. In every store that the operations build, each booking has a
    customer id of 1 to 50 characters, two pincodes of six digits, a
    whole duration of 1 to 23 hours, an end that is its start plus that
    many hours, and a cost that is not negative. *)
Theorem stored_bookings_in_bounds (s : Store) (b : Booking.t) :
  reachable s -> In b (Mongo.docs (bookings s)) -> bookingInBounds b.
Proof.
  intros Hs Hb. destruct (reachable_consistent s Hs) as (_ & _ & _ & H & _).
  rewrite List.Forall_forall in H. apply H, Hb.
Qed.

Lemma stored_bookings_in_bounds_witness :
  bookingInBounds
    (Booking.mk 0%nat 0%nat "CUST001" "110001" "110005" (2 * hour) (6 * hour) 4
       Booking.confirmed (1000000 # 100)).
Proof.
  apply (stored_bookings_in_bounds booked).
  - apply reachable_execAll.
  - rewrite booked_bookings. left. reflexivity.
Defined.

(** X7. The virtual field [actualDurationHours] of a stored booking is
    its [estimatedRideDurationHours]: the two never differ, because the
    end is written once, as start plus duration, and no operation
    changes either. *)
Theorem actualDurationHours_is_estimate (s : Store) (b : Booking.t) :
  reachable s -> In b (Mongo.docs (bookings s)) ->
  (BookingVirtuals.actualDurationHours b
   == inject_Z (Booking.estimatedRideDurationHours b))%Q.
Proof.
  intros Hs Hb. destruct (reachable_consistent s Hs) as (_ & _ & _ & H & _).
  rewrite List.Forall_forall in H. destruct (H b Hb) as (_ & _ & _ & _ & _ & Hend & _).
  unfold BookingVirtuals.actualDurationHours, BookingVirtuals.actualDurationHoursOf.
  rewrite Hend.
  replace (Booking.startTime b + Booking.estimatedRideDurationHours b * 3600000
           - Booking.startTime b)
    with (Booking.estimatedRideDurationHours b * 3600000) by lia.
  change (1000 * 60 * 60) with 3600000.
  rewrite inject_Z_mult. field.
Qed.

Lemma actualDurationHours_is_estimate_witness :
  (BookingVirtuals.actualDurationHours
     (Booking.mk 0%nat 0%nat "CUST001" "110001" "110005" (2 * hour) (6 * hour) 4
        Booking.confirmed (1000000 # 100)) == 4)%Q.
Proof.
  apply (actualDurationHours_is_estimate booked).
  - apply reachable_execAll.
  - rewrite booked_bookings. left. reflexivity.
Defined.

(** X8. In every store that the operations build, every vehicle is
    within the bounds of its schema: a trimmed name of 2 to 100
    characters, a capacity from 1 to 50000, a whole number of tyres from
    2 to 18. *)
Theorem stored_vehicles_in_bounds (s : Store) (v : Vehicle.t) :
  reachable s -> In v (Mongo.docs (vehicles s)) -> vehicleInBounds v.
Proof.
  intros Hs Hv. destruct (reachable_consistent s Hs) as (_ & _ & H & _).
  rewrite List.Forall_forall in H. apply H, Hv.
Qed.

Lemma stored_vehicles_in_bounds_witness : vehicleInBounds truck.
Proof.
  apply (stored_vehicles_in_bounds booked).
  - apply reachable_execAll.
  - rewrite booked_vehicles. left. reflexivity.
Defined.

(** X9. No booking is left without its vehicle: in every store that
    the operations build, the vehicle of each booking is found by its
    id.  Admission checks it, and no operation removes a vehicle. *)
Theorem booking_vehicle_exists (s : Store) (b : Booking.t) :
  reachable s -> In b (Mongo.docs (bookings s)) ->
  exists v, vehicleById s (Booking.vehicleId b) = Some v /\
            Vehicle._id v = Booking.vehicleId b /\
            In v (Mongo.docs (vehicles s)).
Proof.
  intros Hs Hb. destruct (reachable_consistent s Hs) as (_ & _ & _ & _ & H).
  rewrite List.Forall_forall in H. destruct (H b Hb) as [v Hv].
  exists v. split; [exact Hv |]. apply find_id in Hv. exact Hv.
Qed.

Lemma booking_vehicle_exists_witness :
  exists v,
    vehicleById booked 0%nat = Some v /\ Vehicle._id v = 0%nat /\
    In v (Mongo.docs (vehicles booked)).
Proof.
  apply (booking_vehicle_exists booked
           (Booking.mk 0%nat 0%nat "CUST001" "110001" "110005" (2 * hour) (6 * hour) 4
              Booking.confirmed (1000000 # 100))).
  - apply reachable_execAll.
  - rewrite booked_bookings. left. reflexivity.
Defined.

(** X10. Ids are never shared: in every store that the operations
    build, looking a stored booking or vehicle up by its id gives this
    document back, and every id is below the next one to be given. *)
Theorem stored_documents_found_by_id (s : Store) :
  reachable s ->
  (forall b, In b (Mongo.docs (bookings s)) ->
             bookingById s (Booking._id b) = Some b /\
             (Booking._id b < Mongo.nextId (bookings s))%nat) /\
  (forall v, In v (Mongo.docs (vehicles s)) ->
             vehicleById s (Vehicle._id v) = Some v /\
             (Vehicle._id v < Mongo.nextId (vehicles s))%nat).
Proof.
  intros Hs. destruct (reachable_consistent s Hs) as ([Hv Hv'] & [Hb Hb'] & _).
  rewrite List.Forall_forall in Hv', Hb'. split.
  - intros b Hin. split; [apply find_unique; assumption | apply Hb', Hin].
  - intros v Hin. split; [apply find_unique; assumption | apply Hv', Hin].
Qed.

Lemma stored_documents_found_by_id_witness :
  vehicleById booked 0%nat = Some truck /\ (0 < Mongo.nextId (vehicles booked))%nat.
Proof.
  apply (proj2 (stored_documents_found_by_id booked (reachable_execAll _)) truck).
  rewrite booked_vehicles. left. reflexivity.
Defined.

Lemma setStatus_same (b : Booking.t) : Booking.setStatus (Booking.status b) b = b.
Proof. destruct b. reflexivity. Qed.

Lemma vehicle_setStatus_same (v : Vehicle.t) : Vehicle.setStatus (Vehicle.status v) v = v.
Proof. destruct v. reflexivity. Qed.

Lemma updateFirst_In {D : Type} (idOf : D -> Mongo.ObjectId) (id : Mongo.ObjectId)
    (f : D -> D) (l : list D) (d : D) :
  In d l ->
  In d (Mongo.updateFirst idOf id f l) \/ In (f d) (Mongo.updateFirst idOf id f l).
Proof.
  induction l as [| x l IH]; intros Hin; [destruct Hin |].
  cbn [Mongo.updateFirst]. destruct (Nat.eqb (idOf x) id).
  - destruct Hin as [-> | Hin]; [right; left; reflexivity | left; right; exact Hin].
  - destruct Hin as [-> | Hin]; [left; left; reflexivity |].
    destruct (IH Hin); [left | right]; right; assumption.
Qed.

Lemma updateFirst_length {D : Type} (idOf : D -> Mongo.ObjectId) (id : Mongo.ObjectId)
    (f : D -> D) (l : list D) :
  length (Mongo.updateFirst idOf id f l) = length l.
Proof.
  induction l as [| x l IH]; [reflexivity |].
  cbn [Mongo.updateFirst]. destruct (Nat.eqb (idOf x) id); cbn [length]; congruence.
Qed.

Lemma effect_keeps_bookings (op : Op) (s s' : Store) (b : Booking.t) :
  Effect s op s' -> In b (Mongo.docs (bookings s)) ->
  exists st, In (Booking.setStatus st b) (Mongo.docs (bookings s')).
Proof.
  intros HE Hb.
  destruct HE as [| now body v cost _ _ _ _ _ _ | id st b0 _ _ | co body v _ _ _ _
                  | id st v _ _].
  - exists (Booking.status b). rewrite setStatus_same. exact Hb.
  - exists (Booking.status b). rewrite setStatus_same.
    cbn [addBooking bookings Mongo.docs]. apply in_or_app. left. exact Hb.
  - cbn [replaceBooking bookings Mongo.docs].
    destruct (updateFirst_In Booking._id id (Booking.setStatus st) _ b Hb) as [H | H].
    + exists (Booking.status b). rewrite setStatus_same. exact H.
    + exists st. exact H.
  - exists (Booking.status b). rewrite setStatus_same. exact Hb.
  - exists (Booking.status b). rewrite setStatus_same. exact Hb.
Qed.

Lemma effect_keeps_vehicles (op : Op) (s s' : Store) (v : Vehicle.t) :
  Effect s op s' -> In v (Mongo.docs (vehicles s)) ->
  exists st, In (Vehicle.setStatus st v) (Mongo.docs (vehicles s')).
Proof.
  intros HE Hv.
  destruct HE as [| now body v0 cost _ _ _ _ _ _ | id st b0 _ _ | co body v0 _ _ _ _
                  | id st v0 _ _].
  - exists (Vehicle.status v). rewrite vehicle_setStatus_same. exact Hv.
  - exists (Vehicle.status v). rewrite vehicle_setStatus_same. exact Hv.
  - exists (Vehicle.status v). rewrite vehicle_setStatus_same. exact Hv.
  - exists (Vehicle.status v). rewrite vehicle_setStatus_same.
    cbn [addVehicleTo vehicles Mongo.docs]. apply in_or_app. left. exact Hv.
  - cbn [replaceVehicle vehicles Mongo.docs].
    destruct (updateFirst_In Vehicle._id id (Vehicle.setStatus st) _ v Hv) as [H | H].
    + exists (Vehicle.status v). rewrite vehicle_setStatus_same. exact H.
    + exists st. exact H.
Qed.

Lemma effect_lengths (op : Op) (s s' : Store) :
  Effect s op s' ->
  (length (Mongo.docs (bookings s)) <= length (Mongo.docs (bookings s')))%nat /\
  (length (Mongo.docs (vehicles s)) <= length (Mongo.docs (vehicles s')))%nat.
Proof.
  intros HE.
  destruct HE as [| now body v cost _ _ _ _ _ _ | id st b0 _ _ | co body v _ _ _ _
                  | id st v _ _];
    cbn [addBooking replaceBooking addVehicleTo replaceVehicle bookings vehicles Mongo.docs];
    rewrite ?length_app, ?updateFirst_length; cbn [length]; lia.
Qed.

(** X11. Nothing is ever deleted or rewritten: after any operation on
    any store, every booking and every vehicle that was stored is
    still stored, with at most its status changed, and neither
    collection has fewer documents than before. *)
Theorem exec_keeps_documents (op : Op) (s : Store) :
  (forall b, In b (Mongo.docs (bookings s)) ->
             exists st, In (Booking.setStatus st b) (Mongo.docs (bookings (exec op s)))) /\
  (forall v, In v (Mongo.docs (vehicles s)) ->
             exists st, In (Vehicle.setStatus st v) (Mongo.docs (vehicles (exec op s)))) /\
  (length (Mongo.docs (bookings s)) <= length (Mongo.docs (bookings (exec op s))))%nat /\
  (length (Mongo.docs (vehicles s)) <= length (Mongo.docs (vehicles (exec op s))))%nat.
Proof.
  pose proof (exec_effect op s) as HE.
  split; [intros b; apply (effect_keeps_bookings op), HE |].
  split; [intros v; apply (effect_keeps_vehicles op), HE |].
  apply (effect_lengths op), HE.
Qed.

End StoredDocuments.

(** ** How the operations compose *)

Section Composition.
Import bookingController.

Lemma updateFirst_find_ne {D : Type} (idOf : D -> Mongo.ObjectId)
    (id id' : Mongo.ObjectId) (f : D -> D) (l : list D) :
  (forall x, idOf (f x) = idOf x) -> id' <> id ->
  List.find (fun x => Nat.eqb (idOf x) id') (Mongo.updateFirst idOf id f l)
  = List.find (fun x => Nat.eqb (idOf x) id') l.
Proof.
  intros Hf Hne. induction l as [| x l IH]; [reflexivity |].
  cbn [Mongo.updateFirst]. destruct (Nat.eqb_spec (idOf x) id) as [E | E];
    cbn [List.find].
  - rewrite Hf. destruct (Nat.eqb_spec (idOf x) id'); [lia | reflexivity].
  - destruct (Nat.eqb (idOf x) id'); [reflexivity | exact IH].
Qed.


Lemma filter_no_id (C : Booking.t -> bool) (id : Mongo.ObjectId) (l : list Booking.t) :
  ~ In id (map Booking._id l) ->
  List.filter (fun x => negb (Nat.eqb (Booking._id x) id)) (List.filter C l)
  = List.filter C l.
Proof.
  induction l as [| x l IH]; intros Hid; [reflexivity |].
  cbn [map] in Hid. cbn [List.filter].
  assert (Hx : Booking._id x <> id) by (intros E; apply Hid; left; exact E).
  assert (Hl : ~ In id (map Booking._id l)) by (intros E; apply Hid; right; exact E).
  destruct (C x); [| apply IH, Hl].
  cbn [List.filter]. destruct (Nat.eqb_spec (Booking._id x) id); [contradiction |].
  cbn [negb]. rewrite (IH Hl). reflexivity.
Qed.

Lemma filter_updateFirst_dropped (C : Booking.t -> bool) (id : Mongo.ObjectId)
    (f : Booking.t -> Booking.t) (l : list Booking.t) :
  (forall d, C (f d) = false) ->
  NoDup (map Booking._id l) ->
  List.filter C (Mongo.updateFirst Booking._id id f l)
  = List.filter (fun x => negb (Nat.eqb (Booking._id x) id)) (List.filter C l).
Proof.
  intros Hf. induction l as [| x l IH]; intros Hnd; [reflexivity |].
  cbn [map] in Hnd. apply NoDup_cons in Hnd. destruct Hnd as [Hx Hnd].
  cbn [Mongo.updateFirst].
  destruct (Nat.eqb_spec (Booking._id x) id) as [E | E].
  - assert (Hid : ~ In id (map Booking._id l)).
    { intros Hin. apply Hx. rewrite E. apply list_elem_of_In, Hin. }
    cbn [List.filter]. rewrite Hf. destruct (C x).
    + cbn [List.filter]. rewrite E, Nat.eqb_refl. cbn [negb].
      symmetry. apply filter_no_id, Hid.
    + symmetry. apply filter_no_id, Hid.
  - cbn [List.filter]. destruct (C x); [| apply IH, Hnd].
    cbn [List.filter]. destruct (Nat.eqb_spec (Booking._id x) id); [contradiction |].
    cbn [negb]. rewrite (IH Hnd). reflexivity.
Qed.

Lemma cancelled_no_conflict vehicleId' startTime' endTime' excludeBookingId
    (d : Booking.t) :
  conflictsWith vehicleId' startTime' endTime' excludeBookingId
    (Booking.setStatus Booking.cancelled d) = false.
Proof.
  unfold conflictsWith, isActive. cbn [Booking.setStatus Booking.status].
  rewrite andb_false_r. reflexivity.
Qed.

Lemma cancelBooking_success (now : Z) (id : Mongo.ObjectId) (s s' : Store)
    (code : Z) (message : string) (b : Booking.t) :
  cancelBooking now id s = (Success code message b, s') ->
  exists b0,
    bookingById s id = Some b0 /\
    Booking.status b0 = Booking.confirmed /\
    hour <= Booking.startTime b0 - now /\
    b = Booking.setStatus Booking.cancelled b0 /\
    s' = replaceBooking id (Booking.setStatus Booking.cancelled) s.
Proof.
  rewrite cancelBooking_eq.
  destruct (bookingById s id) as [b0 |] eqn:Hb; [| discriminate].
  destruct (String.eqb (Booking.statusName (Booking.status b0)) "confirmed") eqn:Hst;
    cbn [negb]; [| discriminate].
  destruct (Z.leb_spec hour (Booking.startTime b0 - now)); cbn [negb]; [| discriminate].
  destruct (Booking.validate now _); [| discriminate].
  intros [= _ _ <- <-]. exists b0. apply booking_confirmed_eqb in Hst. auto.
Qed.

(** A booking that is not confirmed stays so, and stays in its place,
    under every operation but a status update of this booking to
    confirmed. *)
Lemma effect_keeps_unconfirmed (op : Op) (s s' : Store) (id : Mongo.ObjectId)
    (b : Booking.t) :
  Effect s op s' ->
  op <> UpdateBookingStatus id "confirmed" ->
  bookingById s id = Some b -> Booking.status b <> Booking.confirmed ->
  exists b', bookingById s' id = Some b' /\ Booking.status b' <> Booking.confirmed.
Proof.
  intros HE Hop Hb Hst.
  destruct HE as [| now body v cost _ _ _ _ _ _ | id0 st b0 Hb0 Hcase | co body v _ _ _ _
                  | id0 st v _ _].
  - exists b. split; assumption.
  - exists b. split; [| exact Hst]. unfold bookingById.
    cbn [addBooking bookings Mongo.docs]. apply find_app_found. exact Hb.
  - unfold bookingById, replaceBooking. cbn [bookings Mongo.docs].
    destruct (Nat.eq_dec id id0) as [<- | Hne].
    + exists (Booking.setStatus st b). split.
      * apply updateFirst_find; [intros x; reflexivity | exact Hb].
      * cbn [Booking.setStatus Booking.status].
        destruct Hcase as [-> | (now & _ & -> & _)]; [| discriminate].
        intros ->. apply Hop. reflexivity.
    + exists b. split; [| exact Hst].
      rewrite updateFirst_find_ne; [exact Hb | intros x; reflexivity | exact Hne].
  - exists b. split; assumption.
  - exists b. split; assumption.
Qed.

Lemma execAll_keeps_unconfirmed (ops : list Op) (s : Store) (id : Mongo.ObjectId)
    (b : Booking.t) :
  Forall (fun op => op <> UpdateBookingStatus id "confirmed") ops ->
  bookingById s id = Some b -> Booking.status b <> Booking.confirmed ->
  exists b', bookingById (execAll ops s) id = Some b' /\
             Booking.status b' <> Booking.confirmed.
Proof.
  intros Hops. revert s b. induction Hops as [| op ops Hop _ IH]; intros s b Hb Hst.
  - exists b. split; assumption.
  - destruct (effect_keeps_unconfirmed op s (exec op s) id b (exec_effect op s) Hop Hb Hst)
      as (b' & Hb' & Hst').
    apply (IH (exec op s) b' Hb' Hst').
Qed.

(** X13. A cancellation that succeeded is final and frees the window:
    on a store that the operations built, once [cancelBooking] has
    answered with success, the booking is stored as cancelled; after
    any further operations, none of them a status update of this
    booking to confirmed, every [cancelBooking] of the same id is
    refused as not confirmed and writes nothing; the conflicts that
    an admission request finds right after the cancellation are the
    former ones without the cancelled booking, and the vehicles are as
    they were. *)
Theorem cancelBooking_frees_window (now : Z) (id : Mongo.ObjectId) (s s' : Store)
    (code : Z) (message : string) (b : Booking.t) :
  reachable s ->
  cancelBooking now id s = (Success code message b, s') ->
  Booking.status b = Booking.cancelled /\
  bookingById s' id = Some b /\
  (forall ops now',
      Forall (fun op => op <> UpdateBookingStatus id "confirmed") ops ->
      cancelBooking now' id (execAll ops s') = (InvalidState, execAll ops s')) /\
  (forall body,
      conflictsOf s' body
      = List.filter (fun x => negb (Nat.eqb (Booking._id x) id)) (conflictsOf s body)) /\
  vehicles s' = vehicles s.
Proof.
  intros Hs Hrun.
  destruct (cancelBooking_success _ _ _ _ _ _ _ Hrun) as (b0 & Hb0 & _ & _ & -> & ->).
  destruct (reachable_consistent s Hs) as (_ & [Hnd _] & _).
  assert (Hfound : bookingById (replaceBooking id (Booking.setStatus Booking.cancelled) s) id
                   = Some (Booking.setStatus Booking.cancelled b0)).
  { unfold bookingById, replaceBooking. cbn [bookings Mongo.docs].
    apply updateFirst_find; [intros x; reflexivity | exact Hb0]. }
  split; [reflexivity |]. split; [exact Hfound |]. split; [| split; [| reflexivity]].
  - intros ops now' Hops.
    destruct (execAll_keeps_unconfirmed ops _ id _ Hops Hfound) as (b' & Hb' & Hst');
      [discriminate |].
    rewrite cancelBooking_eq, Hb'.
    destruct (String.eqb (Booking.statusName (Booking.status b')) "confirmed") eqn:E;
      [| reflexivity].
    apply booking_confirmed_eqb in E. contradiction.
  - intros body. unfold conflictsOf, replaceBooking. cbn [bookings Mongo.docs].
    apply filter_updateFirst_dropped; [| exact Hnd].
    intros d. apply cancelled_no_conflict.
Qed.

Lemma createBooking_success (now : Z) (body : Body) (s s' : Store)
    (code : Z) (message : string) (b : Booking.t) :
  createBooking now body s = (Success code message b, s') ->
  exists v cost,
    vehicleById s (vehicleId body) = Some v /\
    Vehicle.status v = Vehicle.active /\
    conflictsOf s body = [] /\
    b = newDocument body v cost (Mongo.nextId (bookings s)) /\
    Booking.validate now b = [] /\
    s' = addBooking b s.
Proof.
  rewrite createBooking_eq.
  destruct (vehicleById s (vehicleId body)) as [v |] eqn:Hv; [| discriminate].
  destruct (String.eqb (Vehicle.statusName (Vehicle.status v)) "active") eqn:Hact;
    cbn [negb]; [| discriminate].
  destruct (conflictsOf s body) eqn:Hc; [| discriminate].
  destruct (Booking.i_totalCost (newBooking body v)) as [cost |] eqn:Hcost;
    [| discriminate].
  unfold schemaAccepts. rewrite Hcost.
  destruct (Booking.validate now (newDocument body v cost 0%nat)) eqn:Hval;
    [| discriminate].
  intros [= _ _ <- <-]. exists v, cost. apply vehicle_active_eqb in Hact.
  split; [reflexivity |]. split; [exact Hact |]. split; [reflexivity |].
  split; [reflexivity |]. split; [exact Hval | reflexivity].
Qed.


(** X15. A booking just made can be looked up, and cancelled until
    one hour before its start: on a store that the operations built,
    after [createBooking] has answered with success, its booking is
    found under its id, confirmed, with the requested vehicle and
    window, every earlier booking is found as before, and
    [cancelBooking] of this id, at a clock at least one hour before the
    start, succeeds. *)
Theorem createBooking_then_cancel (now now' : Z) (body : Body) (s s' : Store)
    (code : Z) (message : string) (b : Booking.t) :
  reachable s ->
  createBooking now body s = (Success code message b, s') ->
  bookingById s' (Booking._id b) = Some b /\
  Booking.status b = Booking.confirmed /\
  Booking.vehicleId b = vehicleId body /\
  window b = requestedWindow body /\
  (forall id b0, bookingById s id = Some b0 -> bookingById s' id = Some b0) /\
  (hour <= startTime body - now' ->
   cancelBooking now' (Booking._id b) s'
   = (Success 200 "Booking cancelled successfully" (Booking.setStatus Booking.cancelled b),
      replaceBooking (Booking._id b) (Booking.setStatus Booking.cancelled) s')).
Proof.
  intros Hs Hrun.
  assert (Hs' : reachable s').
  { replace s' with (exec (CreateBooking now body) s); [constructor; exact Hs |].
    cbn [exec]. rewrite Hrun. reflexivity. }
  destruct (createBooking_success _ _ _ _ _ _ _ Hrun)
    as (v & cost & _ & _ & _ & Hb & _ & Hs'eq).
  assert (Hin : In b (Mongo.docs (bookings s'))).
  { rewrite Hs'eq. cbn [addBooking bookings Mongo.docs].
    apply in_or_app. right. left. reflexivity. }
  destruct (reachable_consistent s' Hs') as (_ & [Hnd _] & _).
  assert (Hfound : bookingById s' (Booking._id b) = Some b)
    by (apply find_unique; assumption).
  split; [exact Hfound |].
  split; [rewrite Hb; reflexivity |].
  split; [rewrite Hb; reflexivity |].
  split; [rewrite Hb; reflexivity |]. split.
  - intros id b0 H0. rewrite Hs'eq. unfold bookingById.
    cbn [addBooking bookings Mongo.docs]. apply find_app_found. exact H0.
  - intros Hearly. apply cancelBooking_allowed; [exact Hs' | exact Hfound | |].
    + rewrite Hb. reflexivity.
    + rewrite Hb. exact Hearly.
Qed.

End Composition.

(** ** The search, the admission and the status of a vehicle *)

Section SearchAndAdmission.
Import bookingController.

Lemma findAvailableVehicles_result (query : vehicleController.Query) (s s' : Store)
    (code : Z) (message : string) (result : list vehicleController.Available) :
  vehicleController.findAvailableVehicles query s = (Success code message result, s') ->
  result = availableIn s query /\ s' = s.
Proof.
  destruct (findAvailableVehicles_eq query s) as [m ->].
  intros [= _ _ <- <-]. split; reflexivity.
Qed.

Lemma availableIn_listed (query : vehicleController.Query) (s : Store)
    (a : vehicleController.Available) :
  In a (availableIn s query) ->
  a = annotate query (vehicleController.vehicle a) /\
  In (vehicleController.vehicle a) (Mongo.docs (vehicles s)) /\
  Vehicle.status (vehicleController.vehicle a) = Vehicle.active /\
  isFree s (queryWindow query) (vehicleController.vehicle a) = true.
Proof.
  unfold availableIn. intros Ha. apply in_map_iff in Ha. destruct Ha as (v & <- & Hv).
  apply List.filter_In in Hv. destruct Hv as [Hv Hfree].
  apply sortAsc_In, List.filter_In in Hv. destruct Hv as [Hv He].
  unfold eligible in He. apply andb_true_iff in He. destruct He as [_ He].
  cbn [annotate vehicleController.vehicle].
  split; [reflexivity |]. split; [exact Hv |].
  split; [apply vehicleActive_iff, He | exact Hfree].
Qed.

(** The request that books a vehicle of the answer to [query]. *)
Lemma requestedWindow_of_query (query : vehicleController.Query) (id : Mongo.ObjectId)
    (customer : string) :
  requestedWindow
    (mkBody id customer (vehicleController.fromPincode query)
       (vehicleController.toPincode query) (vehicleController.startTime query))
  = queryWindow query.
Proof. reflexivity. Qed.

(** X16. What the search lists can be booked: on a store that the
    operations built, for a vehicle in the answer of
    [findAvailableVehicles], a validated request for this vehicle with
    the pincodes and the start of the search, made before that start
    and before any other write, is answered 201, and the booking has
    the window and the duration that the search announced. *)
Theorem listed_vehicle_bookable (now : Z) (query : vehicleController.Query)
    (customer : string) (s s' : Store) (code : Z) (message : string)
    (result : list vehicleController.Available) (a : vehicleController.Available) :
  reachable s ->
  vehicleController.findAvailableVehicles query s = (Success code message result, s') ->
  In a result ->
  JS.sixDigits (vehicleController.fromPincode query) = true ->
  JS.sixDigits (vehicleController.toPincode query) = true ->
  JS.trim customer <> "" ->
  (String.length (JS.trim customer) <= 50)%nat ->
  now < vehicleController.startTime query ->
  exists b,
    createBooking now
      (mkBody (Vehicle._id (vehicleController.vehicle a)) customer
         (vehicleController.fromPincode query) (vehicleController.toPincode query)
         (vehicleController.startTime query)) s'
    = (Success 201 "Booking created successfully" b, addBooking b s') /\
    Booking.vehicleId b = Vehicle._id (vehicleController.vehicle a) /\
    Booking.status b = Booking.confirmed /\
    window b = vehicleController.timeWindow a /\
    Booking.estimatedRideDurationHours b = vehicleController.estimatedRideDurationHours a.
Proof.
  intros Hs Hrun Ha Hfrom Hto Hcust Hlen Hnow.
  destruct (findAvailableVehicles_result _ _ _ _ _ _ Hrun) as [-> ->].
  destruct (availableIn_listed _ _ _ Ha) as (Ea & Hin & Hact & Hfree).
  set (v := vehicleController.vehicle a) in *.
  set (body := mkBody (Vehicle._id v) customer (vehicleController.fromPincode query)
                 (vehicleController.toPincode query) (vehicleController.startTime query)).
  destruct (reachable_consistent s Hs) as ([Hnd _] & _).
  assert (Hv : vehicleById s (vehicleId body) = Some v)
    by (apply (find_unique Vehicle._id); assumption).
  assert (Hc : conflictsOf s body = []).
  { unfold isFree in Hfree. apply Nat.eqb_eq, length_zero_iff_nil in Hfree. exact Hfree. }
  pose proof (createBooking_commit now body s v Hv Hact Hc) as H.
  rewrite (validated_request_accepted now body v Hfrom Hto Hcust Hlen Hnow) in H.
  destruct H as (b & Hb & _ & Hst & Hveh & Hw & _).
  exists b. split; [exact Hb |]. split; [exact Hveh |]. split; [exact Hst |].
  rewrite Ea. cbn [annotate vehicleController.timeWindow
                   vehicleController.estimatedRideDurationHours].
  split; [exact Hw |].
  destruct (createBooking_success _ _ _ _ _ _ _ Hb) as (v' & cost & _ & _ & _ & -> & _).
  reflexivity.
Qed.

(** X17. What the admission refuses for a conflict is not listed: if
    [createBooking] answers 409 for a request, the search with the
    pincodes and the start of this request, on the same store, does not
    list the requested vehicle, whatever capacity it asks for. *)
Theorem conflicting_vehicle_not_listed (now : Z) (body : Body) (n : nat)
    (query : vehicleController.Query) (s s' s'' : Store) (code : Z) (message : string)
    (result : list vehicleController.Available) (a : vehicleController.Available) :
  createBooking now body s = (Conflict n, s') ->
  vehicleController.fromPincode query = fromPincode body ->
  vehicleController.toPincode query = toPincode body ->
  vehicleController.startTime query = startTime body ->
  vehicleController.findAvailableVehicles query s = (Success code message result, s'') ->
  In a result ->
  Vehicle._id (vehicleController.vehicle a) <> vehicleId body.
Proof.
  intros Hrun Hfrom Hto Hstart Hsearch Ha Hid.
  destruct (findAvailableVehicles_result _ _ _ _ _ _ Hsearch) as [-> ->].
  destruct (availableIn_listed _ _ _ Ha) as (_ & _ & _ & Hfree).
  assert (Hw : queryWindow query = requestedWindow body).
  { unfold queryWindow, requestedWindow, endOfWindow.
    rewrite Hfrom, Hto, Hstart. reflexivity. }
  assert (Hc : conflictsOf s body = []).
  { unfold isFree in Hfree. apply Nat.eqb_eq, length_zero_iff_nil in Hfree.
    unfold conflictsOf. rewrite <- Hw, <- Hid. exact Hfree. }
  rewrite createBooking_eq, Hc in Hrun.
  destruct (vehicleById s (vehicleId body)) as [v |]; [| discriminate].
  destruct (negb _); [discriminate |].
  destruct (Booking.i_totalCost _); [| discriminate].
  destruct (schemaAccepts _ _ _); discriminate.
Qed.


Lemma matches_canHandleCapacity (minCapacity : Q) (v : Vehicle.t) :
  Mongo.matches Vehicle.get
    (Mongo.mkQuery
       [(Vehicle.FcapacityKg, Mongo.Gte (Mongo.VNum minCapacity));
        (Vehicle.Fstatus, Mongo.Eq (Mongo.VStr "active"))] None) v
  = Vehicle.canHandleCapacity v minCapacity.
Proof.
  unfold Mongo.matches, Mongo.matchesClause, Vehicle.canHandleCapacity.
  cbn [Mongo.where_ Mongo.or_ forallb fst snd Vehicle.get Mongo.holds Mongo.valueLeb
       Mongo.valueEqb].
  rewrite !andb_true_r. reflexivity.
Qed.

(** X19. The static [findByMinCapacity] and the method
    [canHandleCapacity] select the same vehicles: the query returns
    exactly the stored vehicles for which the method answers true, that
    is, the active ones whose capacity is at least the minimum itself,
    in ascending order of capacity, and it writes nothing. *)
Theorem findByMinCapacity_spec (minCapacity : Q) (c : Mongo.Collection Vehicle.t) :
  snd (Vehicle.findByMinCapacity minCapacity c) = c /\
  (forall v, In v (fst (Vehicle.findByMinCapacity minCapacity c)) <->
             In v (Mongo.docs c) /\ Vehicle.canHandleCapacity v minCapacity = true) /\
  (forall v, Vehicle.canHandleCapacity v minCapacity = true <->
             (minCapacity <= Vehicle.capacityKg v)%Q /\
             Vehicle.status v = Vehicle.active) /\
  StronglySorted byCapacity (fst (Vehicle.findByMinCapacity minCapacity c)).
Proof.
  unfold Vehicle.findByMinCapacity, Mongo.find. cbn [fst snd].
  split; [reflexivity |]. split; [| split].
  - intros v. rewrite sortAsc_In, List.filter_In, matches_canHandleCapacity. reflexivity.
  - intros v. unfold Vehicle.canHandleCapacity.
    rewrite andb_true_iff, Qle_bool_iff, vehicle_active_eqb. reflexivity.
  - apply (sortAsc_sorted Vehicle.capacityKg).
Qed.

End SearchAndAdmission.

(** ** The properties above, on the stores of the examples *)

Lemma oneTruck_reachable : reachable oneTruck.
Proof.
  assert (E : execAll [AddVehicle integersOnly truckBody] emptyStore = oneTruck)
    by (vm_compute; reflexivity).
  rewrite <- E. apply reachable_execAll.
Qed.

Lemma cancelBooking_frees_window_witness :
  reachable booked /\
  bookingController.cancelBooking (90 * minute) 0%nat
    (execAll [UpdateBookingStatus 0%nat "completed";
              CreateBooking 0 (request "CUST002" (2 * hour))]
       (snd (bookingController.cancelBooking 0 0%nat booked)))
  = (InvalidState,
     execAll [UpdateBookingStatus 0%nat "completed";
              CreateBooking 0 (request "CUST002" (2 * hour))]
       (snd (bookingController.cancelBooking 0 0%nat booked))).
Proof.
  assert (Hr : reachable booked) by apply reachable_execAll.
  assert (H : exists message b,
             bookingController.cancelBooking 0 0%nat booked
             = (Success 200 message b,
                snd (bookingController.cancelBooking 0 0%nat booked))).
  { eexists _, _. vm_compute. reflexivity. }
  destruct H as (message & b & H).
  split; [exact Hr |].
  apply (proj1 (proj2 (proj2 (cancelBooking_frees_window _ _ _ _ _ _ _ Hr H)))).
  repeat constructor; discriminate.
Defined.


Lemma createBooking_then_cancel_witness :
  exists b,
    bookingById
      (snd (bookingController.createBooking 0 (request "CUST001" (2 * hour)) oneTruck))
      (Booking._id b) = Some b /\
    Booking.status b = Booking.confirmed /\
    window b = (2 * hour, 6 * hour).
Proof.
  assert (H : exists message b,
             bookingController.createBooking 0 (request "CUST001" (2 * hour)) oneTruck
             = (Success 201 message b,
                snd (bookingController.createBooking 0 (request "CUST001" (2 * hour))
                       oneTruck))).
  { eexists _, _. vm_compute. reflexivity. }
  destruct H as (message & b & H).
  exists b.
  destruct (createBooking_then_cancel 0 0 _ _ _ _ _ _ oneTruck_reachable H)
    as (H1 & H2 & _ & H3 & _).
  split; [exact H1 |]. split; [exact H2 | exact H3].
Defined.

Lemma listed_vehicle_bookable_witness :
  exists b,
    bookingController.createBooking 0
      (bookingController.mkBody 0%nat "CUST001" "110001" "110005" (2 * hour)) oneTruck
    = (Success 201 "Booking created successfully" b, addBooking b oneTruck) /\
    window b = (2 * hour, 6 * hour).
Proof.
  assert (H : exists message,
             vehicleController.findAvailableVehicles
               (vehicleController.mkQuery 1500 "110001" "110005" (2 * hour)) oneTruck
             = (Success 200 message
                  [annotate (vehicleController.mkQuery 1500 "110001" "110005" (2 * hour))
                     truck], oneTruck)).
  { eexists. vm_compute. reflexivity. }
  destruct H as (message & H).
  destruct (listed_vehicle_bookable 0
              (vehicleController.mkQuery 1500 "110001" "110005" (2 * hour))
              "CUST001" oneTruck oneTruck 200 message _
              (annotate (vehicleController.mkQuery 1500 "110001" "110005" (2 * hour)) truck)
              oneTruck_reachable H)
    as (b & Hb & _ & _ & Hw & _).
  - left. reflexivity.
  - reflexivity.
  - reflexivity.
  - vm_compute. discriminate.
  - vm_compute. lia.
  - reflexivity.
  - exists b. split; [exact Hb | exact Hw].
Defined.

Lemma conflicting_vehicle_not_listed_witness :
  bookingController.createBooking 0 (request "CUST002" (3 * hour)) twoTrucksOneBooked
  = (Conflict 1, twoTrucksOneBooked) /\
  Vehicle._id (Vehicle.mk 1%nat "Test Truck" 5000 6 Vehicle.active) <> 0%nat.
Proof.
  assert (Hc : bookingController.createBooking 0 (request "CUST002" (3 * hour))
                 twoTrucksOneBooked
               = (Conflict 1, twoTrucksOneBooked)) by (vm_compute; reflexivity).
  assert (H : exists message,
             vehicleController.findAvailableVehicles
               (vehicleController.mkQuery 1500 "110001" "110005" (3 * hour))
               twoTrucksOneBooked
             = (Success 200 message
                  [annotate (vehicleController.mkQuery 1500 "110001" "110005" (3 * hour))
                     (Vehicle.mk 1%nat "Test Truck" 5000 6 Vehicle.active)],
                twoTrucksOneBooked)).
  { eexists. vm_compute. reflexivity. }
  destruct H as (message & H).
  split; [exact Hc |].
  apply (conflicting_vehicle_not_listed 0 (request "CUST002" (3 * hour)) 1
           (vehicleController.mkQuery 1500 "110001" "110005" (3 * hour))
           twoTrucksOneBooked twoTrucksOneBooked twoTrucksOneBooked 200 message _
           (annotate (vehicleController.mkQuery 1500 "110001" "110005" (3 * hour))
              (Vehicle.mk 1%nat "Test Truck" 5000 6 Vehicle.active))
           Hc eq_refl eq_refl eq_refl H).
  left. reflexivity.
Defined.


(** ** Reading a booking *)

Section Reads.
Import bookingReads.

Lemma getBookingById_eq (id : Mongo.ObjectId) (s : Store) :
  getBookingById id s =
  match bookingById s id with
  | None => (BookingNotFound, s)
  | Some b =>
      (Success 200 "Booking details retrieved successfully"
         (mkPopulated b (vehicleById s (Booking.vehicleId b))), s)
  end.
Proof.
  unfold getBookingById, populate, bind, onBookings, onVehicles, Mongo.findById, ret,
    bookingById, vehicleById.
  cbn [fst snd vehicles bookings].
  destruct (List.find _ (Mongo.docs (bookings s))); rewrite ?store_eta; reflexivity.
Qed.

(** X20. [getBookingById] writes nothing; it answers 404 when no
    booking has the id, and otherwise 200 with the booking and, on a
    store that the operations built, with its vehicle in the place of
    [vehicleId], never with [null]. *)
Theorem getBookingById_spec (id : Mongo.ObjectId) (s : Store) :
  reachable s ->
  snd (getBookingById id s) = s /\
  match bookingById s id with
  | None => fst (getBookingById id s) = BookingNotFound
  | Some b =>
      exists v,
        fst (getBookingById id s)
        = Success 200 "Booking details retrieved successfully" (mkPopulated b (Some v)) /\
        Booking._id b = id /\
        Vehicle._id v = Booking.vehicleId b /\
        In v (Mongo.docs (vehicles s))
  end.
Proof.
  intros Hs. rewrite getBookingById_eq.
  destruct (bookingById s id) as [b |] eqn:Hb; [| split; reflexivity].
  split; [reflexivity |].
  apply find_id in Hb. destruct Hb as [Hid Hin].
  destruct (reachable_consistent s Hs) as (_ & _ & _ & _ & H).
  rewrite List.Forall_forall in H. destruct (H b Hin) as [v Hv].
  exists v. cbn [fst]. rewrite Hv. split; [reflexivity |]. split; [exact Hid |].
  apply find_id in Hv. exact Hv.
Qed.

End Reads.

Lemma getBookingById_spec_witness :
  reachable booked /\
  exists b,
    fst (bookingReads.getBookingById 0%nat booked)
    = Success 200 "Booking details retrieved successfully"
        (bookingReads.mkPopulated b (Some truck)).
Proof.
  assert (Hr : reachable booked) by apply reachable_execAll.
  split; [exact Hr |].
  destruct (getBookingById_spec 0%nat booked Hr) as [_ H].
  assert (E : bookingById booked 0%nat
              = Some (Booking.mk 0%nat 0%nat "CUST001" "110001" "110005" (2 * hour)
                        (6 * hour) 4 Booking.confirmed (1000000 # 100)))
    by (vm_compute; reflexivity).
  rewrite E in H. destruct H as (v & H & _ & _ & Hin).
  rewrite booked_vehicles in Hin. destruct Hin as [<- | []].
  eexists. exact H.
Defined.
